(** * gym_missile_command: the enemy-missile batch

    A shallow embedding of [gym_missile_command/game/enemy_missiles.py]
    (class [EnemyMissiles]) and the properties of its specification.

    Numbers.  The Python code computes on floats: [_launch_missile] on
    Python floats and [np.float64] scalars, the movement phase of
    [step] on rows of [np.float32].  The class is embedded twice.

    The first embedding reads every float as the exact real number it
    stands for: [R] with exact [+], [*], [/], [sqrt], [Rabs], [Rmin];
    rounding, overflow and NaN are outside it.  It carries what does
    not depend on how positions are rounded: counts, flags, draws,
    ranges, exceptions, the removal of rows, and the example scenario
    of the specification, whose values are all binary32 numbers.  The
    one place where NumPy would produce a NaN is the division by
    [norm = 0] in [_launch_missile]; there start and target coincide,
    so the row is deleted by the removal phase of the very [step] that
    launched it and its velocity is never read.

    The second embedding, [Binary], computes as the code does, in
    binary64 and binary32 with IEEE 754 rounding.  It carries what
    rounding decides: whether the clamp of the movement phase keeps a
    missile from passing its target, and when, if ever, a missile
    arrives.  What the clamp achieves in exact arithmetic is proved on
    the first embedding and says what the code is written to do, not
    what it does.

    Effects.  A method is a function from the object to an outcome that
    carries the object as the method left it, with either a returned
    value or the exception raised ([Method]).  The random generator
    [self._rng_python] is a field of the object and is threaded through
    every draw. *)

From Stdlib Require Import Reals Lra Lia List ZArith Bool Arith.
From Stdlib Require Import SpecFloat.
From Stdlib Require String.
Import ListNotations.

Open Scope R_scope.

(** ** Python's [random.Random]

    The generator itself (a Mersenne Twister) is not part of the
    repository; it is taken as a parameter: a type of generator states,
    the constructor [Random(seed)], and the method [random()], which
    returns a float in [[0, 1)] and the advanced generator. *)

Record PRNG : Type := {
  gen : Type;
  Random : Z -> gen;
  random : gen -> R * gen;
  random_range : forall g, 0 <= fst (random g) < 1
}.

(** ** Configuration

    [CONFIG] lives in [gym_missile_command/configuration.py], which is not
    among the sources; the values the class reads are taken as a record.
    [NUMBER] is a number of missiles, a natural number.  The two
    curriculum queues are [None] or a list of pairs. *)

Definition range : Type := (R * R)%type.

Record CONFIG : Type := {
  WIDTH : R;                                  (* CONFIG.EPISODE.WIDTH *)
  HEIGHT : R;                                 (* CONFIG.EPISODE.HEIGHT *)
  NUMBER : nat;                               (* CONFIG.ENEMY_MISSILES.NUMBER *)
  PROBA_IN : R;                               (* CONFIG.ENEMY_MISSILES.PROBA_IN *)
  SPEED : R;                                  (* CONFIG.ENEMY_MISSILES.SPEED *)
  START_POS_RANGE_CUR : option (list range);  (* CONFIG.ENEMY_MISSILES.START_POS_RANGE_CUR *)
  END_POS_RANGE_CUR : option (list range)     (* CONFIG.ENEMY_MISSILES.END_POS_RANGE_CUR *)
}.

(** ** Data

    One row of the [(N, 8)] array [enemy_missiles]; the fields are the
    eight columns in the order of the class docstring. *)

Record missile : Type := {
  init_x : R;   (* column 0 *)
  init_y : R;   (* column 1 *)
  cur_x : R;    (* column 2 *)
  cur_y : R;    (* column 3 *)
  final_x : R;  (* column 4 *)
  final_y : R;  (* column 5 *)
  vx : R;       (* column 6 *)
  vy : R        (* column 7 *)
}.

(** The attributes [__init__] creates.  The queue attributes alias the
    lists held by [CONFIG] when those are configured; only one object
    is modelled, so the queue is kept in the object. *)

Record Curriculum : Type := {
  start_pos_range_cur : list range;
  end_pos_range_cur : list range;
  start_pos_range : range;
  end_pos_range : range
}.

Definition full_range : range := (-0.5, 0.5).

Section Batch.

Context (P : PRNG).

(** A fully initialised object: "init function and reset function must
    be called" (docstring of [reset]).  [reset] adds the three episode
    attributes to the ones of [__init__]. *)

Record EnemyMissiles : Type := {
  curriculum : Curriculum;
  enemy_missiles : list missile;
  nb_missiles_launched : nat;
  _rng_python : gen P
}.

Definition set_curriculum (c : Curriculum) (s : EnemyMissiles) : EnemyMissiles :=
  {| curriculum := c;
     enemy_missiles := enemy_missiles s;
     nb_missiles_launched := nb_missiles_launched s;
     _rng_python := _rng_python s |}.

Definition set_enemy_missiles (ms : list missile) (s : EnemyMissiles) : EnemyMissiles :=
  {| curriculum := curriculum s;
     enemy_missiles := ms;
     nb_missiles_launched := nb_missiles_launched s;
     _rng_python := _rng_python s |}.

Definition set_nb_missiles_launched (n : nat) (s : EnemyMissiles) : EnemyMissiles :=
  {| curriculum := curriculum s;
     enemy_missiles := enemy_missiles s;
     nb_missiles_launched := n;
     _rng_python := _rng_python s |}.

Definition set_rng_python (g : gen P) (s : EnemyMissiles) : EnemyMissiles :=
  {| curriculum := curriculum s;
     enemy_missiles := enemy_missiles s;
     nb_missiles_launched := nb_missiles_launched s;
     _rng_python := g |}.

End Batch.

Arguments curriculum {P} _.
Arguments enemy_missiles {P} _.
Arguments nb_missiles_launched {P} _.
Arguments _rng_python {P} _.
Arguments set_curriculum {P} _ _.
Arguments set_enemy_missiles {P} _ _.
Arguments set_nb_missiles_launched {P} _ _.
Arguments set_rng_python {P} _ _.

(** ** Methods: object state and exceptions *)

Inductive exn : Type := AssertionError | IndexError.

Inductive Res (S A : Type) : Type :=
| Ok (a : A) (s : S)
| Err (e : exn) (s : S).

Arguments Ok {S A} _ _.
Arguments Err {S A} _ _.

Definition Method (S A : Type) : Type := S -> Res S A.

Definition ret {S A} (a : A) : Method S A := fun s => Ok a s.

Definition bind {S A B} (m : Method S A) (k : A -> Method S B) : Method S B :=
  fun s => match m s with
           | Ok a s' => k a s'
           | Err e s' => Err e s'
           end.

Definition raise {S A} (e : exn) : Method S A := fun s => Err e s.
Definition gets {S A} (f : S -> A) : Method S A := fun s => Ok (f s) s.
Definition modify {S} (f : S -> S) : Method S unit := fun s => Ok tt (f s).

(** [assert c]: nothing when [c] holds, [AssertionError] otherwise. *)
Definition assert_ {S} (c : bool) : Method S unit :=
  if c then ret tt else raise AssertionError.

Notation "x <- m ;; k" := (bind m (fun x => k))
  (at level 61, m at next level, right associativity).
Notation "m ;;; k" := (bind m (fun _ => k))
  (at level 61, right associativity).

(** The object as the call left it, and the value returned, if any. *)
Definition exec {S A} (m : Method S A) (s : S) : S :=
  match m s with Ok _ s' => s' | Err _ s' => s' end.

Definition result {S A} (m : Method S A) (s : S) : option A :=
  match m s with Ok a _ => Some a | Err _ _ => None end.

(** A method of the curriculum attributes run on a full object. *)
Definition on_curriculum {P A} (m : Method Curriculum A) : Method (EnemyMissiles P) A :=
  fun s => match m (curriculum s) with
           | Ok a c => Ok a (set_curriculum c s)
           | Err e c => Err e (set_curriculum c s)
           end.

(** ** Float comparisons and NumPy primitives, on reals *)

Definition Rleb (a b : R) : bool := if Rle_dec a b then true else false.
Definition Rltb (a b : R) : bool := if Rlt_dec a b then true else false.
Definition Reqb (a b : R) : bool := if Req_dec_T a b then true else false.

(** [np.sign] *)
Definition sign (v : R) : R :=
  if Rltb 0 v then 1 else if Rltb v 0 then -1 else 0.

(** [np.square] is [Rsqr]; [np.abs] is [Rabs]; [np.minimum] is [Rmin]. *)

(** ** [__init__]

    A configured queue that is the empty list makes [pop(0)] raise
    [IndexError]. *)

(** [list.pop(0)] *)
Definition pop0 (q : list range) : option (range * list range) :=
  match q with
  | [] => None
  | r :: q' => Some (r, q')
  end.

Definition or_default (q : option (list range)) : list range :=
  match q with
  | Some l => l
  | None => [full_range]
  end.

Definition __init__ (cfg : CONFIG) : exn + Curriculum :=
  let start_cur := or_default (START_POS_RANGE_CUR cfg) in
  let end_cur := or_default (END_POS_RANGE_CUR cfg) in
  match pop0 start_cur with
  | None => inl IndexError
  | Some (sr, start_cur') =>
      match pop0 end_cur with
      | None => inl IndexError
      | Some (er, end_cur') =>
          inr {| start_pos_range_cur := start_cur';
                 end_pos_range_cur := end_cur';
                 start_pos_range := sr;
                 end_pos_range := er |}
      end
  end.

(** ** [advance_curriculum] *)

Definition set_start_pos_range_cur (q : list range) (c : Curriculum) : Curriculum :=
  {| start_pos_range_cur := q;
     end_pos_range_cur := end_pos_range_cur c;
     start_pos_range := start_pos_range c;
     end_pos_range := end_pos_range c |}.

Definition set_end_pos_range_cur (q : list range) (c : Curriculum) : Curriculum :=
  {| start_pos_range_cur := start_pos_range_cur c;
     end_pos_range_cur := q;
     start_pos_range := start_pos_range c;
     end_pos_range := end_pos_range c |}.

Definition assign_start_pos_range (r : range) (c : Curriculum) : Curriculum :=
  {| start_pos_range_cur := start_pos_range_cur c;
     end_pos_range_cur := end_pos_range_cur c;
     start_pos_range := r;
     end_pos_range := end_pos_range c |}.

Definition assign_end_pos_range (r : range) (c : Curriculum) : Curriculum :=
  {| start_pos_range_cur := start_pos_range_cur c;
     end_pos_range_cur := end_pos_range_cur c;
     start_pos_range := start_pos_range c;
     end_pos_range := r |}.

Definition advance_curriculum : Method Curriculum unit :=
  sq <- gets start_pos_range_cur ;;
  match sq with
  | r :: q =>                      (* len(self.start_pos_range_cur) > 0 *)
      modify (set_start_pos_range_cur q) ;;;
      modify (assign_start_pos_range r)
  | [] =>
      modify (assign_start_pos_range full_range)
  end ;;;
  eq <- gets end_pos_range_cur ;;
  match eq with
  | r :: q =>                      (* len(self.end_pos_range_cur) > 0 *)
      modify (set_end_pos_range_cur q) ;;;
      modify (assign_end_pos_range r)
  | [] =>
      modify (assign_end_pos_range full_range)
  end.

(** ** [set_start_pos_range], [set_end_pos_range] *)

(** [-0.5 <= v <= 0.5] *)
Definition in_half (v : R) : bool := Rleb (-0.5) v && Rleb v 0.5.

Definition set_start_pos_range (left right : R) : Method Curriculum unit :=
  assert_ (in_half left) ;;;
  assert_ (in_half right) ;;;
  modify (assign_start_pos_range (left, right)).

Definition set_end_pos_range (left right : R) : Method Curriculum unit :=
  assert_ (in_half left) ;;;
  assert_ (in_half right) ;;;
  modify (assign_end_pos_range (left, right)).

(** ** [reset]

    [reset] assigns the three episode attributes and leaves the
    attributes of [__init__] as they are; on a running object [s] it is
    [reset (curriculum s) seed].  [seed] is an integer: [Random(None)]
    seeds from the operating system and is not a function of the
    arguments. *)

Definition reset {P} (self : Curriculum) (seed : Z) : EnemyMissiles P :=
  {| curriculum := self;
     enemy_missiles := [];
     nb_missiles_launched := 0;
     _rng_python := Random P seed |}.

(** ** [_launch_missile] *)

(** [self._rng_python.random()] *)
Definition rng_random {P} : Method (EnemyMissiles P) R :=
  fun s => let (r, g) := random P (_rng_python s) in Ok r (set_rng_python g s).

(** [self._rng_python.uniform(a, b)], which is [a + (b - a) * self.random()] *)
Definition rng_uniform {P} (a b : R) : Method (EnemyMissiles P) R :=
  r <- rng_random ;; ret (a + (b - a) * r).

(** [np.sqrt(np.square(x1 - x0) + np.square(y1 - y0))] *)
Definition norm (x0 y0 x1 y1 : R) : R :=
  sqrt (Rsqr (x1 - x0) + Rsqr (y1 - y0)).

(** The row built from the two positions drawn, in exact arithmetic.
    [Binary.new_missile] below is the row as the code computes and
    stores it, rounded to [np.float32]. *)
Definition new_missile (cfg : CONFIG) (x0 x1 : R) : missile :=
  let y0 := HEIGHT cfg in
  let y1 := 0 in
  let norm := norm x0 y0 x1 y1 in
  let ux := (x1 - x0) / norm in
  let uy := (y1 - y0) / norm in
  let vx := SPEED cfg * ux in
  let vy := SPEED cfg * uy in
  {| init_x := x0; init_y := y0; cur_x := x0; cur_y := y0;
     final_x := x1; final_y := y1; vx := vx; vy := vy |}.

Definition _launch_missile {P} (cfg : CONFIG) : Method (EnemyMissiles P) unit :=
  sr <- gets (fun s => start_pos_range (curriculum s)) ;;
  x0 <- rng_uniform (fst sr * WIDTH cfg) (snd sr * WIDTH cfg) ;;
  er <- gets (fun s => end_pos_range (curriculum s)) ;;
  x1 <- rng_uniform (fst er * WIDTH cfg) (snd er * WIDTH cfg) ;;
  modify (fun s => set_enemy_missiles (enemy_missiles s ++ [new_missile cfg x0 x1]) s) ;;;
  modify (fun s => set_nb_missiles_launched (nb_missiles_launched s + 1) s).

(** ** [step]

    The body of [step] has three commented parts, "Moving missiles",
    "Potentially launch a new missile" and "Remove missiles that hit
    the ground"; each is a method here, and [step] runs them in that
    order.  The array operations of the first part act on whole
    columns; [move] is what they do to one row, in exact arithmetic.
    [Binary.move] below is the same in binary32, as the code computes
    it. *)

Definition move (m : missile) : missile :=
  let dx := Rabs (final_x m - cur_x m) in
  let dy := Rabs (final_y m - cur_y m) in
  let movement_x := Rmin (Rabs (vx m)) dx * sign (vx m) in
  let movement_y := Rmin (Rabs (vy m)) dy * sign (vy m) in
  {| init_x := init_x m; init_y := init_y m;
     cur_x := cur_x m + movement_x; cur_y := cur_y m + movement_y;
     final_x := final_x m; final_y := final_y m;
     vx := vx m; vy := vy m |}.

(** The mask of the removal phase: both current coordinates equal the
    final ones.  [np.delete] at the indices where the mask holds keeps
    the other rows in their order. *)
Definition hit (m : missile) : bool :=
  Reqb (cur_x m) (final_x m) && Reqb (cur_y m) (final_y m).

Definition moving_missiles {P} : Method (EnemyMissiles P) unit :=
  modify (fun s => set_enemy_missiles (map move (enemy_missiles s)) s).

Definition potentially_launch {P} (cfg : CONFIG) : Method (EnemyMissiles P) unit :=
  n <- gets nb_missiles_launched ;;
  if (n <? NUMBER cfg)%nat then
    r <- rng_random ;;
    if Rleb r (PROBA_IN cfg) then _launch_missile cfg else ret tt
  else ret tt.

Definition remove_missiles {P} : Method (EnemyMissiles P) unit :=
  modify (fun s => set_enemy_missiles (filter (fun m => negb (hit m)) (enemy_missiles s)) s).

(** [step] returns [(None, None, done, None)]; the model returns [done]. *)
Definition step {P} (cfg : CONFIG) (action : Z) : Method (EnemyMissiles P) bool :=
  moving_missiles ;;;
  potentially_launch cfg ;;;
  remove_missiles ;;;
  ms <- gets enemy_missiles ;;
  n <- gets nb_missiles_launched ;;
  ret ((length ms =? 0)%nat && (n =? NUMBER cfg)%nat).

(** ** Runs

    [run cfg act n s]: the object after [n] ticks from [s], tick [k]
    (counted from 0) being [step (act k)].  [done_at] is the flag the
    next tick returns. *)

Fixpoint run {P} (cfg : CONFIG) (act : nat -> Z) (n : nat) (s : EnemyMissiles P)
  : EnemyMissiles P :=
  match n with
  | O => s
  | S k => exec (step cfg (act k)) (run cfg act k s)
  end.

Definition done_at {P} (cfg : CONFIG) (act : nat -> Z) (n : nat) (s : EnemyMissiles P)
  : option bool :=
  result (step cfg (act n)) (run cfg act n s).

(** The rows the launch phase of the tick taken from [s] appends. *)
Definition launched_by {P} (cfg : CONFIG) (s : EnemyMissiles P) : list missile :=
  skipn (length (enemy_missiles s))
        (enemy_missiles (exec (potentially_launch cfg) (exec moving_missiles s))).

(** What one tick shows: the start and target of the missile launched in
    it (if any), the flag returned, and the active rows it leaves. *)
Definition observation : Type :=
  (list (R * R * R * R) * option bool * list missile)%type.

Definition observe {P} (cfg : CONFIG) (act : nat -> Z) (n : nat) (s : EnemyMissiles P)
  : observation :=
  (map (fun m => (init_x m, init_y m, final_x m, final_y m))
       (launched_by cfg (run cfg act n s)),
   done_at cfg act n s,
   enemy_missiles (run cfg act (S n) s)).

(** The objects a caller can reach: [reset] on any object, then any
    sequence of the public methods. *)
Inductive reachable {P} (cfg : CONFIG) : EnemyMissiles P -> Prop :=
| reach_reset (c : Curriculum) (seed : Z) :
    reachable cfg (reset c seed)
| reach_reset_again (s : EnemyMissiles P) (seed : Z) :
    reachable cfg s -> reachable cfg (reset (curriculum s) seed)
| reach_step (s : EnemyMissiles P) (action : Z) :
    reachable cfg s -> reachable cfg (exec (step cfg action) s)
| reach_advance_curriculum (s : EnemyMissiles P) :
    reachable cfg s -> reachable cfg (exec (on_curriculum advance_curriculum) s)
| reach_set_start_pos_range (s : EnemyMissiles P) (l r : R) :
    reachable cfg s -> reachable cfg (exec (on_curriculum (set_start_pos_range l r)) s)
| reach_set_end_pos_range (s : EnemyMissiles P) (l r : R) :
    reachable cfg s -> reachable cfg (exec (on_curriculum (set_end_pos_range l r)) s).

(** ** Notions of the specification *)

(** [p] lies between [a] and [b], whichever is larger. *)
Definition between (a p b : R) : Prop := a <= p <= b \/ b <= p <= a.

Definition no_overshoot (m : missile) : Prop :=
  between (init_x m) (cur_x m) (final_x m) /\
  between (init_y m) (cur_y m) (final_y m).

Definition at_target (m : missile) : Prop :=
  cur_x m = final_x m /\ cur_y m = final_y m.

(** Euclidean distance from the current position to the target. *)
Definition dist_to_target (m : missile) : R :=
  norm (cur_x m) (cur_y m) (final_x m) (final_y m).

(** Euclidean distance from start to target. *)
Definition distance (m : missile) : R :=
  norm (init_x m) (init_y m) (final_x m) (final_y m).

(** The velocity does not point away from the target, axis by axis. *)
Definition heading_to_target (m : missile) : Prop :=
  0 <= (final_x m - init_x m) * vx m /\
  0 <= (final_y m - init_y m) * vy m.

(** Two objects that differ at most in the queues of ranges still to
    come: [step] reads none of those. *)
Definition same_episode {P} (s1 s2 : EnemyMissiles P) : Prop :=
  start_pos_range (curriculum s1) = start_pos_range (curriculum s2) /\
  end_pos_range (curriculum s1) = end_pos_range (curriculum s2) /\
  enemy_missiles s1 = enemy_missiles s2 /\
  nb_missiles_launched s1 = nb_missiles_launched s2 /\
  _rng_python s1 = _rng_python s2.

(** The least integer not below [r]. *)
Definition ceil (r : R) : Z := (1 - up (- r))%Z.

Definition ticks_to_target (cfg : CONFIG) (m : missile) : nat :=
  Z.to_nat (ceil (distance m / SPEED cfg)).

(** The active range after [n] calls of [advance_curriculum]. *)
Definition advanced (n : nat) (c : Curriculum) : Curriculum :=
  Nat.iter n (exec advance_curriculum) c.

(** ** Concrete instances *)

(** A generator whose state counts the draws and whose every draw is 0. *)
Definition counting_prng : PRNG :=
  {| gen := Z;
     Random := fun seed => seed;
     random := fun g => (0, Z.succ g);
     random_range := fun _ => conj (Rle_refl 0) Rlt_0_1 |}.

Definition default_curriculum : Curriculum :=
  {| start_pos_range_cur := [];
     end_pos_range_cur := [];
     start_pos_range := full_range;
     end_pos_range := full_range |}.

(** The configuration of the example scenario of the specification. *)
Definition scenario_cfg : CONFIG :=
  {| WIDTH := 20; HEIGHT := 10; NUMBER := 1; PROBA_IN := 1; SPEED := 2;
     START_POS_RANGE_CUR := None; END_POS_RANGE_CUR := None |}.

(** An episode of height 0. *)
Definition flat_cfg : CONFIG :=
  {| WIDTH := 20; HEIGHT := 0; NUMBER := 1; PROBA_IN := 1; SPEED := 2;
     START_POS_RANGE_CUR := None; END_POS_RANGE_CUR := None |}.

(** A curriculum of three configured ranges. *)
Definition three_ranges : list range := [(-0.1, 0.1); (-0.3, 0.3); (-0.5, 0.5)].

Definition curriculum_cfg : CONFIG :=
  {| WIDTH := 20; HEIGHT := 10; NUMBER := 1; PROBA_IN := 1; SPEED := 2;
     START_POS_RANGE_CUR := Some three_ranges;
     END_POS_RANGE_CUR := Some [(-0.2, 0.2)] |}.

(** The row of the scenario at height [y]: it falls along the vertical
    [x = xc] from height 10 to the ground, 2 per tick. *)
Definition scenario_row (xc y : R) : missile :=
  {| init_x := xc; init_y := 10; cur_x := xc; cur_y := y;
     final_x := xc; final_y := 0; vx := 0; vy := -2 |}.

(** The scenario run on the counting generator with the default ranges. *)
Definition scenario_start : EnemyMissiles counting_prng :=
  reset default_curriculum 42.

(** The scenario once its only missile has landed. *)
Definition scenario_end : EnemyMissiles counting_prng :=
  {| curriculum := default_curriculum;
     enemy_missiles := [];
     nb_missiles_launched := 1;
     _rng_python := (3%Z : gen counting_prng) |}.

(** ** Notions for further properties *)

(** The generator after [k] draws, and the value of the next draw. *)
Definition after_draws (P : PRNG) (k : nat) (g : gen P) : gen P :=
  Nat.iter k (fun g' => snd (random P g')) g.

Definition draw (P : PRNG) (k : nat) (g : gen P) : R :=
  fst (random P (after_draws P k g)).

(** What [uniform(rg[0] * WIDTH, rg[1] * WIDTH)] returns on the draw [r]. *)
Definition scaled (cfg : CONFIG) (rg : range) (r : R) : R :=
  fst rg * WIDTH cfg + (snd rg * WIDTH cfg - fst rg * WIDTH cfg) * r.

(** A row as some launch made it, moved some number of times. *)
Definition launched_row (cfg : CONFIG) (m : missile) : Prop :=
  exists (j : nat) (x0 x1 : R), m = Nat.iter j move (new_missile cfg x0 x1).

(** Both ends of a range lie in [[-0.5, 0.5]]. *)
Definition range_valid (rg : range) : Prop :=
  -0.5 <= fst rg <= 0.5 /\ -0.5 <= snd rg <= 0.5.

Definition ranges_valid (c : Curriculum) : Prop :=
  range_valid (start_pos_range c) /\
  range_valid (end_pos_range c) /\
  Forall range_valid (start_pos_range_cur c) /\
  Forall range_valid (end_pos_range_cur c).


(** The scenario after its first tick. *)
Definition scenario_flying : EnemyMissiles counting_prng :=
  exec (step scenario_cfg 0) scenario_start.

(** Launch probability below 0, and speed 0. *)
Definition never_cfg : CONFIG :=
  {| WIDTH := 20; HEIGHT := 10; NUMBER := 3; PROBA_IN := -1; SPEED := 2;
     START_POS_RANGE_CUR := None; END_POS_RANGE_CUR := None |}.

Definition still_cfg : CONFIG :=
  {| WIDTH := 20; HEIGHT := 10; NUMBER := 1; PROBA_IN := 1; SPEED := 0;
     START_POS_RANGE_CUR := None; END_POS_RANGE_CUR := None |}.

(** * The training script, [rl/rllib/scripts/dqn.py]

    The script drives Ray, RLlib and Gym, none of which is in the
    repository.  What is modelled is what the script itself decides:
    which calls it makes on them, in which order and how often.  A run
    is the list of those calls, ended normally or by an exception the
    script's own arithmetic raises; the calls themselves are taken to
    return. *)

Module Dqn.

Import String.

(** The [argparse.Namespace]: [--checkpoint] (a string, default
    [None]), [-v] (0, 1 or 2), and for the sub-command [train]
    [--saving-steps] and [--training-steps]. *)
Record Args : Type := {
  checkpoint : option String.string;
  verbose : Z;
  saving_steps : Z;
  training_steps : Z
}.

(** Values of the configuration dict; what is neither a bool, an int
    nor a string is kept as a tag. *)
Inductive pyval : Type :=
| PyBool (b : bool)
| PyInt (z : Z)
| PyStr (s : String.string)
| PyOther (tag : nat).

(** A dict with string keys; [d[k] = v] is [setitem]. *)
Definition config : Type := String.string -> option pyval.

Definition setitem (k : String.string) (v : pyval) (d : config) : config :=
  fun k' => if String.eqb k' k then Some v else d k'.

Inductive call : Type :=
| ray_init                       (* ray.init() *)
| DQNTrainer (c : config)        (* dqn.DQNTrainer(env=MissileCommand, config=config) *)
| agent_restore (path : String.string)   (* agent.restore(args.checkpoint) *)
| agent_get_policy_model         (* agent.get_policy().model *)
| print_summary_type             (* print(type(model.base_model.summary())) *)
| print_model                    (* print(model) *)
| agent_train                    (* agent.train() *)
| print_result                   (* print(pretty_print(result)) *)
| agent_save                     (* agent.save() *)
| print_checkpoint               (* print("checkpoint saved at", checkpoint) *)
| gym_make                       (* gym.make(..., custom_config=ENV_CONFIG) *)
| env_reset                      (* env.reset() *)
| agent_compute_action           (* agent.compute_action(observation) *)
| env_step                       (* env.step(action) *)
| env_render.                    (* env.render() *)

Inductive script_exn : Type := ZeroDivisionError.

(** [if args.checkpoint:], on [None] or a string *)
Definition truthy (s : option String.string) : bool :=
  match s with
  | None => false
  | Some p => negb (String.eqb p ""%string)
  end.

(** The configuration [create_agent] builds from [dqn.DEFAULT_CONFIG]. *)
Definition agent_config (DEFAULT_CONFIG : config) : config :=
  let config := DEFAULT_CONFIG in                      (* .copy() *)
  let config := setitem "double_q"%string (PyBool true) config in
  let config := setitem "dueling"%string (PyBool true) config in
  let config := setitem "framework"%string (PyStr "torch"%string) config in
  let config := setitem "horizon"%string (PyInt 1150) config in
  let config := setitem "num_gpus"%string (PyInt 1) config in
  let config := setitem "num_workers"%string (PyInt 19) config in
  let config := setitem "train_batch_size"%string (PyInt 128) config in
  config.

Definition create_agent (DEFAULT_CONFIG : config) (args : Args) : list call :=
  let config := agent_config DEFAULT_CONFIG in
  [DQNTrainer config]
  ++ (match checkpoint args with
      | Some p => if truthy (Some p) then [agent_restore p] else []
      | None => []
      end)
  ++ (if (0 <? verbose args)%Z then
        agent_get_policy_model ::
        match config "framework"%string with
        | Some (PyStr f) =>
            if String.eqb f "tf"%string then [print_summary_type]
            else if String.eqb f "torch"%string then [print_model]
            else []
        | _ => []
        end
      else []).

(** [range(n)] *)
Definition py_range (n : Z) : list Z := map Z.of_nat (seq 0 (Z.to_nat n)).

(** The body of the loop of [train] for the index [i], with
    [saving_steps] other than 0. *)
Definition train_body (args : Args) (i : Z) : list call :=
  [agent_train]
  ++ (if (0 <? verbose args)%Z then [print_result] else [])
  ++ (if (i mod saving_steps args =? 0)%Z then [agent_save; print_checkpoint] else []).

(** The loop of [train] over the indices left; [i % 0] raises. *)
Fixpoint train_loop (args : Args) (indices : list Z) : list call * option script_exn :=
  match indices with
  | [] => ([], None)
  | i :: rest =>
      if (saving_steps args =? 0)%Z then
        ([agent_train] ++ (if (0 <? verbose args)%Z then [print_result] else []),
         Some ZeroDivisionError)
      else
        let (calls, e) := train_loop args rest in
        (train_body args i ++ calls, e)
  end.

Definition train (DEFAULT_CONFIG : config) (args : Args) : list call * option script_exn :=
  let (calls, e) := train_loop args (py_range (training_steps args)) in
  ([ray_init] ++ create_agent DEFAULT_CONFIG args ++ calls, e).

Definition is_train (c : call) : bool :=
  match c with agent_train => true | _ => false end.

Definition is_save (c : call) : bool :=
  match c with agent_save => true | _ => false end.

(** How many [agent.train()] calls have been made since the last
    [agent.save()] (since the start when there is none). *)
Definition unsaved (calls : list call) : nat :=
  fold_left (fun n c => match c with
                        | agent_save => O
                        | agent_train => S n
                        | _ => n
                        end) calls O.

(** The calls one iteration of the loop of [test] makes. *)
Definition iteration_calls (args : Args) : list call :=
  [agent_compute_action; env_step]
  ++ (if (1 <? verbose args)%Z then [env_render] else []).

(** ** [test]

    The environment and the agent are outside the repository: they are
    taken as two state machines.  [env_step_fn] gives the observation,
    the [done] flag and the next state of the environment;
    [compute_action_fn] gives the action and the next state of the
    agent.  The [while] loop may run for ever, so it is given fuel: the
    number of iterations allowed; [None] is fuel used up. *)

Section Test.

Variables (Obs Act EnvState AgentState : Type).
Variable env_step_fn : EnvState -> Act -> Obs * bool * EnvState.
Variable compute_action_fn : AgentState -> Obs -> Act * AgentState.

(** One iteration of the loop: the calls it makes, the flag and the
    states it leaves. *)
Definition test_body (args : Args) (a : AgentState) (e : EnvState) (obs : Obs)
  : list call * bool * (AgentState * EnvState * Obs) :=
  let (action, a') := compute_action_fn a obs in
  let '(obs', done, e') := env_step_fn e action in
  ([agent_compute_action; env_step]
   ++ (if (1 <? verbose args)%Z then [env_render] else []),
   done, (a', e', obs')).

Fixpoint test_loop (fuel : nat) (args : Args) (a : AgentState) (e : EnvState) (obs : Obs)
  : option (list call) :=
  match fuel with
  | O => None
  | S fuel' =>
      let '(calls, done, (a', e', obs')) := test_body args a e obs in
      if done then Some calls
      else option_map (app calls) (test_loop fuel' args a' e' obs')
  end.

(** The states before iteration [k], whatever the flags. *)
Fixpoint played (k : nat) (args : Args) (a : AgentState) (e : EnvState) (obs : Obs)
  : AgentState * EnvState * Obs :=
  match k with
  | O => (a, e, obs)
  | S k' =>
      let '(_, _, (a', e', obs')) := test_body args a e obs in
      played k' args a' e' obs'
  end.

(** The flag iteration [k] (counted from 0) gets from [env.step]. *)
Definition done_in (k : nat) (args : Args) (a : AgentState) (e : EnvState) (obs : Obs)
  : bool :=
  let '(a', e', obs') := played k args a e obs in
  snd (fst (test_body args a' e' obs')).

(** [test] from the object [env.reset()] leaves: initialisation, then
    the loop. *)
Definition test (fuel : nat) (DEFAULT_CONFIG : config) (args : Args)
    (a : AgentState) (e : EnvState) (obs : Obs) : option (list call) :=
  option_map (app ([ray_init] ++ create_agent DEFAULT_CONFIG args
                   ++ [gym_make; env_reset]))
             (test_loop fuel args a e obs).

End Test.

Arguments test_body {Obs Act EnvState AgentState} _ _ _ _ _ _.
Arguments test_loop {Obs Act EnvState AgentState} _ _ _ _ _ _ _.
Arguments played {Obs Act EnvState AgentState} _ _ _ _ _ _ _.
Arguments done_in {Obs Act EnvState AgentState} _ _ _ _ _ _ _.
Arguments test {Obs Act EnvState AgentState} _ _ _ _ _ _ _ _.

(** The default arguments of [train], and a default configuration that
    names [tf] as framework. *)
Definition default_args : Args :=
  {| checkpoint := None; verbose := 0; saving_steps := 100;
     training_steps := 1000000 |}.

Definition tf_config : config :=
  fun k => if String.eqb k "framework"%string then Some (PyStr "tf"%string) else None.

End Dqn.

(** * The arithmetic of the code: binary64 and binary32

    The definitions above compute on exact reals.  The code does not:
    [_launch_missile] computes on Python floats and [np.float64]
    scalars (binary64) and stores the row with [dtype=np.float32];
    the movement phase of [step] computes on the [np.float32] columns
    (binary32).  This module is the same class with that arithmetic:
    every operation is the correctly rounded IEEE 754 operation
    (round to nearest, ties to even) of [SpecFloat], with NaN, the
    infinities and the two zeros.  A configured Python [int] stands
    for the float of the same value, to which Python and NumPy convert
    it before they compute. *)

Module Binary.

Definition float : Type := spec_float.

(** Python's [float], NumPy's [float64] *)
Definition add64 : float -> float -> float := SFadd 53 1024.
Definition sub64 : float -> float -> float := SFsub 53 1024.
Definition mul64 : float -> float -> float := SFmul 53 1024.
Definition div64 : float -> float -> float := SFdiv 53 1024.
Definition sqrt64 : float -> float := SFsqrt 53 1024.

(** NumPy's [float32] *)
Definition add32 : float -> float -> float := SFadd 24 128.
Definition sub32 : float -> float -> float := SFsub 24 128.
Definition mul32 : float -> float -> float := SFmul 24 128.

(** The cast of [np.array(..., dtype=np.float32)] applied to a binary64
    value. *)
Definition float32 (x : float) : float :=
  match x with
  | S754_finite s m e => binary_round 24 128 s m e
  | _ => x
  end.

(** Literals: the binary64 float of an integer, and of the decimal
    fraction [n / d] (the float nearest to it, as Python reads a decimal
    literal); the binary32 float of an integer. *)
Definition of_Z (z : Z) : float := binary_normalize 53 1024 z 0 false.
Definition decimal (n : Z) (d : positive) : float := div64 (of_Z n) (of_Z (Zpos d)).
Definition of_Z32 (z : Z) : float := binary_normalize 24 128 z 0 false.

(** [<], [<=] and [==] on floats: false whenever an operand is NaN. *)
Definition ltb : float -> float -> bool := SFltb.
Definition leb : float -> float -> bool := SFleb.
Definition eqb : float -> float -> bool := SFeqb.

Definition isnan (x : float) : bool :=
  match x with S754_nan => true | _ => false end.

Definition finite (x : float) : bool :=
  match x with S754_zero _ | S754_finite _ _ _ => true | _ => false end.

(** [np.abs] on [float32], [np.square] on [float64] *)
Definition abs : float -> float := SFabs.
Definition square (x : float) : float := mul64 x x.

(** [np.minimum] returns a NaN operand; otherwise the smaller operand.
    Whether operands that are [==] give the first or the second is not
    the same in every NumPy version; here both are absolute values, so
    operands that are [==] are the same float. *)
Definition minimum (x y : float) : float :=
  if isnan x then x else if leb x y then x else y.

(** [np.sign] on [float32]: 1.0, -1.0 or 0.0, and NaN for NaN. *)
Definition sign (x : float) : float :=
  if ltb (of_Z32 0) x then of_Z32 1
  else if ltb x (of_Z32 0) then of_Z32 (-1)
  else if eqb x (of_Z32 0) then of_Z32 0
  else x.

(** The real number a float stands for (0 for NaN and the infinities). *)
Definition pow2 (e : Z) : R :=
  match e with
  | Z0 => 1
  | Zpos p => IZR (Z.pow_pos 2 p)
  | Zneg p => / IZR (Z.pow_pos 2 p)
  end.

Definition real (x : float) : R :=
  match x with
  | S754_finite s m e => IZR (cond_Zopp s (Zpos m)) * pow2 e
  | _ => 0
  end.

(** [random()] returns a float in [[0, 1)]. *)
Definition unit_interval (r : float) : bool := leb (of_Z 0) r && ltb r (of_Z 1).

Record PRNG : Type := {
  gen : Type;
  Random : Z -> gen;
  random : gen -> float * gen;
  random_range : forall g, unit_interval (fst (random g)) = true
}.

Definition range : Type := (float * float)%type.

Record CONFIG : Type := {
  WIDTH : float;      (* CONFIG.EPISODE.WIDTH *)
  HEIGHT : float;     (* CONFIG.EPISODE.HEIGHT *)
  NUMBER : nat;       (* CONFIG.ENEMY_MISSILES.NUMBER *)
  PROBA_IN : float;   (* CONFIG.ENEMY_MISSILES.PROBA_IN *)
  SPEED : float       (* CONFIG.ENEMY_MISSILES.SPEED *)
}.

(** One row of [enemy_missiles], eight [np.float32] values. *)
Record missile : Type := {
  init_x : float;   (* column 0 *)
  init_y : float;   (* column 1 *)
  cur_x : float;    (* column 2 *)
  cur_y : float;    (* column 3 *)
  final_x : float;  (* column 4 *)
  final_y : float;  (* column 5 *)
  vx : float;       (* column 6 *)
  vy : float        (* column 7 *)
}.

(** The object after [__init__] and [reset]: the two active ranges and
    the three episode attributes.  The queues of ranges still to come
    play no part in [reset], [_launch_missile] and [step]. *)
Record EnemyMissiles (P : PRNG) : Type := {
  start_pos_range : range;
  end_pos_range : range;
  enemy_missiles : list missile;
  nb_missiles_launched : nat;
  _rng_python : gen P
}.

Arguments start_pos_range {P} _.
Arguments end_pos_range {P} _.
Arguments enemy_missiles {P} _.
Arguments nb_missiles_launched {P} _.
Arguments _rng_python {P} _.

Definition set_enemy_missiles {P} (ms : list missile) (s : EnemyMissiles P)
  : EnemyMissiles P :=
  {| start_pos_range := start_pos_range s;
     end_pos_range := end_pos_range s;
     enemy_missiles := ms;
     nb_missiles_launched := nb_missiles_launched s;
     _rng_python := _rng_python s |}.

Definition set_nb_missiles_launched {P} (n : nat) (s : EnemyMissiles P)
  : EnemyMissiles P :=
  {| start_pos_range := start_pos_range s;
     end_pos_range := end_pos_range s;
     enemy_missiles := enemy_missiles s;
     nb_missiles_launched := n;
     _rng_python := _rng_python s |}.

Definition set_rng_python {P} (g : gen P) (s : EnemyMissiles P) : EnemyMissiles P :=
  {| start_pos_range := start_pos_range s;
     end_pos_range := end_pos_range s;
     enemy_missiles := enemy_missiles s;
     nb_missiles_launched := nb_missiles_launched s;
     _rng_python := g |}.

(** [reset] on an object whose active ranges are [sr] and [er]. *)
Definition reset {P} (sr er : range) (seed : Z) : EnemyMissiles P :=
  {| start_pos_range := sr;
     end_pos_range := er;
     enemy_missiles := [];
     nb_missiles_launched := 0;
     _rng_python := Random P seed |}.

(** [self._rng_python.random()] *)
Definition rng_random {P} : Method (EnemyMissiles P) float :=
  fun s => let (r, g) := random P (_rng_python s) in Ok r (set_rng_python g s).

(** [self._rng_python.uniform(a, b)], which is [a + (b - a) * self.random()] *)
Definition rng_uniform {P} (a b : float) : Method (EnemyMissiles P) float :=
  r <- rng_random ;; ret (add64 a (mul64 (sub64 b a) r)).

(** [np.sqrt(np.square(x1 - x0) + np.square(y1 - y0))] *)
Definition norm (x0 y0 x1 y1 : float) : float :=
  sqrt64 (add64 (square (sub64 x1 x0)) (square (sub64 y1 y0))).

(** The row built from the two positions drawn: computed in binary64,
    stored as [np.float32]. *)
Definition new_missile (cfg : CONFIG) (x0 x1 : float) : missile :=
  let y0 := HEIGHT cfg in
  let y1 := of_Z 0 in
  let norm := norm x0 y0 x1 y1 in
  let ux := div64 (sub64 x1 x0) norm in
  let uy := div64 (sub64 y1 y0) norm in
  let vx := mul64 (SPEED cfg) ux in
  let vy := mul64 (SPEED cfg) uy in
  {| init_x := float32 x0; init_y := float32 y0;
     cur_x := float32 x0; cur_y := float32 y0;
     final_x := float32 x1; final_y := float32 y1;
     vx := float32 vx; vy := float32 vy |}.

Definition _launch_missile {P} (cfg : CONFIG) : Method (EnemyMissiles P) unit :=
  sr <- gets start_pos_range ;;
  x0 <- rng_uniform (mul64 (fst sr) (WIDTH cfg)) (mul64 (snd sr) (WIDTH cfg)) ;;
  er <- gets end_pos_range ;;
  x1 <- rng_uniform (mul64 (fst er) (WIDTH cfg)) (mul64 (snd er) (WIDTH cfg)) ;;
  modify (fun s => set_enemy_missiles (enemy_missiles s ++ [new_missile cfg x0 x1]) s) ;;;
  modify (fun s => set_nb_missiles_launched (nb_missiles_launched s + 1) s).

(** What the movement phase does to one row, in binary32. *)
Definition move (m : missile) : missile :=
  let dx := abs (sub32 (final_x m) (cur_x m)) in
  let dy := abs (sub32 (final_y m) (cur_y m)) in
  let movement_x := mul32 (minimum (abs (vx m)) dx) (sign (vx m)) in
  let movement_y := mul32 (minimum (abs (vy m)) dy) (sign (vy m)) in
  {| init_x := init_x m; init_y := init_y m;
     cur_x := add32 (cur_x m) movement_x; cur_y := add32 (cur_y m) movement_y;
     final_x := final_x m; final_y := final_y m;
     vx := vx m; vy := vy m |}.

(** The mask of the removal phase. *)
Definition hit (m : missile) : bool :=
  eqb (cur_x m) (final_x m) && eqb (cur_y m) (final_y m).

Definition moving_missiles {P} : Method (EnemyMissiles P) unit :=
  modify (fun s => set_enemy_missiles (map move (enemy_missiles s)) s).

Definition potentially_launch {P} (cfg : CONFIG) : Method (EnemyMissiles P) unit :=
  n <- gets nb_missiles_launched ;;
  if (n <? NUMBER cfg)%nat then
    r <- rng_random ;;
    if leb r (PROBA_IN cfg) then _launch_missile cfg else ret tt
  else ret tt.

Definition remove_missiles {P} : Method (EnemyMissiles P) unit :=
  modify (fun s => set_enemy_missiles (filter (fun m => negb (hit m)) (enemy_missiles s)) s).

Definition step {P} (cfg : CONFIG) (action : Z) : Method (EnemyMissiles P) bool :=
  moving_missiles ;;;
  potentially_launch cfg ;;;
  remove_missiles ;;;
  ms <- gets enemy_missiles ;;
  n <- gets nb_missiles_launched ;;
  ret ((length ms =? 0)%nat && (n =? NUMBER cfg)%nat).

Fixpoint run {P} (cfg : CONFIG) (act : nat -> Z) (n : nat) (s : EnemyMissiles P)
  : EnemyMissiles P :=
  match n with
  | O => s
  | S k => exec (step cfg (act k)) (run cfg act k s)
  end.

Definition done_at {P} (cfg : CONFIG) (act : nat -> Z) (n : nat) (s : EnemyMissiles P)
  : option bool :=
  result (step cfg (act n)) (run cfg act n s).

(** A generator whose every draw is 0.0. *)
Definition counting_prng : PRNG :=
  {| gen := Z;
     Random := fun seed => seed;
     random := fun g => (of_Z 0, Z.succ g);
     random_range := fun _ => eq_refl |}.

(** Width 20, height 10, one missile, launched for sure, speed 2. *)
Definition scenario_cfg : CONFIG :=
  {| WIDTH := of_Z 20; HEIGHT := of_Z 10; NUMBER := 1;
     PROBA_IN := of_Z 1; SPEED := of_Z 2 |}.

(** A range whose two ends are the same fraction of the width. *)
Definition point (v : float) : range := (v, v).

(** The rows left after [n] ticks in which nothing is launched: each
    tick moves every row and removes those that hit. *)
Definition airborne (n : nat) (ms : list missile) : list missile :=
  Nat.iter n (fun l => filter (fun m => negb (hit m)) (map move l)) ms.

(** [m] has the start, the target and the velocity that some launch
    stores: the six columns [_launch_missile] writes and the movement
    phase does not. *)
Definition as_launched (cfg : CONFIG) (m : missile) : Prop :=
  exists x0 x1 : float,
    init_x m = float32 x0 /\ init_y m = float32 (HEIGHT cfg) /\
    final_x m = float32 x1 /\ final_y m = S754_zero false /\
    vx m = vx (new_missile cfg x0 x1) /\ vy m = vy (new_missile cfg x0 x1).

(** The start lies left of the target and the current position right of
    it, by the code's own [<]. *)
Definition beyond_target (m : missile) : bool :=
  ltb (init_x m) (final_x m) && ltb (final_x m) (cur_x m).

(** [m] and its next [k] positions are all beyond the target. *)
Fixpoint stays_beyond (k : nat) (m : missile) : bool :=
  beyond_target m &&
  match k with
  | O => true
  | S k' => stays_beyond k' (move m)
  end.

(** Neither [m] nor any of its next [k] positions is on the target. *)
Fixpoint never_hits (k : nat) (m : missile) : bool :=
  negb (hit m) &&
  match k with
  | O => true
  | S k' => never_hits k' (move m)
  end.

(** Start x = -0.5 * 20 = -10, target x = -0.02 * 20. *)
Definition runaway_start : range := point (decimal (-5) 10).
Definition runaway_end : range := point (decimal (-2) 100).

(** Start x = -0.4 * 20 = -8, target x = 0.01 * 20. *)
Definition late_start : range := point (decimal (-4) 10).
Definition late_end : range := point (decimal 1 100).

(** The rows these two launches store. *)
Definition runaway_launch : missile :=
  new_missile scenario_cfg
    (mul64 (fst runaway_start) (WIDTH scenario_cfg))
    (mul64 (fst runaway_end) (WIDTH scenario_cfg)).

Definition late_launch : missile :=
  new_missile scenario_cfg
    (mul64 (fst late_start) (WIDTH scenario_cfg))
    (mul64 (fst late_end) (WIDTH scenario_cfg)).

(** The example scenario of the specification: the default ranges on
    the generator that draws 0.0. *)
Definition full_range : range := (decimal (-5) 10, decimal 5 10).

Definition scenario_start : EnemyMissiles counting_prng :=
  reset full_range full_range 42.

End Binary.

(** The row of exact reals a binary32 row stands for. *)
Definition exact_row (m : Binary.missile) : missile :=
  {| init_x := Binary.real (Binary.init_x m);
     init_y := Binary.real (Binary.init_y m);
     cur_x := Binary.real (Binary.cur_x m);
     cur_y := Binary.real (Binary.cur_y m);
     final_x := Binary.real (Binary.final_x m);
     final_y := Binary.real (Binary.final_y m);
     vx := Binary.real (Binary.vx m);
     vy := Binary.real (Binary.vy m) |}.

(** * Proofs *)

(** ** Comparisons *)

Lemma Rleb_true a b : a <= b -> Rleb a b = true.
Proof. intros H. unfold Rleb. destruct (Rle_dec a b); [reflexivity | contradiction]. Qed.

Lemma Rleb_spec a b : Rleb a b = true <-> a <= b.
Proof. unfold Rleb. destruct (Rle_dec a b); split; intros; try easy. Qed.

Lemma Rltb_true a b : a < b -> Rltb a b = true.
Proof. intros H. unfold Rltb. destruct (Rlt_dec a b); [reflexivity | contradiction]. Qed.

Lemma Rltb_false a b : b <= a -> Rltb a b = false.
Proof. intros H. unfold Rltb. destruct (Rlt_dec a b); [lra | reflexivity]. Qed.

Lemma Reqb_true a b : a = b -> Reqb a b = true.
Proof. intros H. unfold Reqb. destruct (Req_dec_T a b); [reflexivity | contradiction]. Qed.

Lemma Reqb_false a b : a <> b -> Reqb a b = false.
Proof. intros H. unfold Reqb. destruct (Req_dec_T a b); [contradiction | reflexivity]. Qed.

Lemma Reqb_spec a b : Reqb a b = true <-> a = b.
Proof. unfold Reqb. destruct (Req_dec_T a b); split; intros; try easy. Qed.

Lemma sign_pos v : 0 < v -> sign v = 1.
Proof. intros H. unfold sign. now rewrite Rltb_true. Qed.

Lemma sign_neg v : v < 0 -> sign v = -1.
Proof. intros H. unfold sign. rewrite Rltb_false by lra. now rewrite Rltb_true. Qed.

Lemma sign_zero : sign 0 = 0.
Proof. unfold sign. now rewrite !Rltb_false by lra. Qed.

Lemma hit_spec m : hit m = true <-> at_target m.
Proof.
  unfold hit, at_target. rewrite andb_true_iff, !Reqb_spec. tauto.
Qed.

Lemma in_half_spec v : in_half v = true <-> -0.5 <= v <= 0.5.
Proof. unfold in_half. rewrite andb_true_iff, !Rleb_spec. tauto. Qed.

(** ** The phases of [step] *)

Section Phases.

Context {P : PRNG}.
Implicit Types (s : EnemyMissiles P) (cfg : CONFIG).

Lemma rng_random_eq s :
  rng_random s =
  Ok (fst (random P (_rng_python s)))
     (set_rng_python (snd (random P (_rng_python s))) s).
Proof. unfold rng_random. destruct (random P (_rng_python s)); reflexivity. Qed.

(** [_launch_missile] has no failing path: it appends one row built by
    [new_missile] and adds one to the count. *)
Lemma launch_missile_eq cfg s :
  exists x0 x1 g,
    _launch_missile cfg s =
    Ok tt {| curriculum := curriculum s;
             enemy_missiles := enemy_missiles s ++ [new_missile cfg x0 x1];
             nb_missiles_launched := nb_missiles_launched s + 1;
             _rng_python := g |}.
Proof.
  unfold _launch_missile, rng_uniform, bind, gets, modify, ret.
  rewrite rng_random_eq. cbn [curriculum set_rng_python].
  rewrite rng_random_eq. cbn.
  do 3 eexists. reflexivity.
Qed.

(** The launch phase appends no row or one row; one row only below the
    configured maximum. *)
Lemma potentially_launch_eq cfg s :
  exists l g,
    potentially_launch cfg s =
    Ok tt {| curriculum := curriculum s;
             enemy_missiles := enemy_missiles s ++ l;
             nb_missiles_launched := nb_missiles_launched s + length l;
             _rng_python := g |} /\
    (l = [] \/
     (nb_missiles_launched s < NUMBER cfg)%nat /\
     exists x0 x1, l = [new_missile cfg x0 x1]).
Proof.
  unfold potentially_launch, bind, gets.
  destruct (nb_missiles_launched s <? NUMBER cfg)%nat eqn:Hlt.
  - rewrite rng_random_eq.
    destruct (Rleb _ _).
    + destruct (launch_missile_eq cfg
                  (set_rng_python (snd (random P (_rng_python s))) s))
        as (x0 & x1 & g & E).
      rewrite E. exists [new_missile cfg x0 x1], g. cbn. split.
      * reflexivity.
      * right. apply Nat.ltb_lt in Hlt. eauto.
    + exists [], (snd (random P (_rng_python s))). unfold ret. cbn.
      rewrite app_nil_r, Nat.add_0_r. auto.
  - exists [], (_rng_python s). unfold ret. cbn.
    rewrite app_nil_r, Nat.add_0_r. destruct s; auto.
Qed.

(** At or above the maximum the launch phase does nothing and draws
    nothing. *)
Lemma potentially_launch_full cfg s :
  (NUMBER cfg <= nb_missiles_launched s)%nat ->
  potentially_launch cfg s = Ok tt s.
Proof.
  intros H. unfold potentially_launch, bind, gets.
  apply Nat.ltb_ge in H. now rewrite H.
Qed.

(** Below the maximum with launch probability at least 1, it launches. *)
Lemma potentially_launch_sure cfg s :
  (nb_missiles_launched s < NUMBER cfg)%nat ->
  1 <= PROBA_IN cfg ->
  exists x0 x1 g,
    potentially_launch cfg s =
    Ok tt {| curriculum := curriculum s;
             enemy_missiles := enemy_missiles s ++ [new_missile cfg x0 x1];
             nb_missiles_launched := nb_missiles_launched s + 1;
             _rng_python := g |}.
Proof.
  intros Hlt Hp. unfold potentially_launch, bind, gets.
  apply Nat.ltb_lt in Hlt. rewrite Hlt, rng_random_eq.
  rewrite Rleb_true.
  - destruct (launch_missile_eq cfg
                (set_rng_python (snd (random P (_rng_python s))) s))
      as (x0 & x1 & g & E).
    rewrite E. cbn. eauto.
  - pose proof (random_range P (_rng_python s)). lra.
Qed.

End Phases.

Section StepFacts.

Context {P : PRNG}.
Implicit Types (s : EnemyMissiles P) (cfg : CONFIG).

Lemma exec_moving_missiles s :
  exec moving_missiles s = set_enemy_missiles (map move (enemy_missiles s)) s.
Proof. reflexivity. Qed.

Lemma skipn_length_app {A} (l1 l2 : list A) n :
  n = length l1 -> skipn n (l1 ++ l2) = l2.
Proof.
  intros ->. induction l1; simpl; auto.
Qed.

(** [launched_by] is empty or the one row of a launch below the
    maximum. *)
Lemma launched_by_cases cfg s :
  launched_by cfg s = [] \/
  (nb_missiles_launched s < NUMBER cfg)%nat /\
  exists x0 x1, launched_by cfg s = [new_missile cfg x0 x1].
Proof.
  unfold launched_by. rewrite exec_moving_missiles.
  destruct (potentially_launch_eq cfg
              (set_enemy_missiles (map move (enemy_missiles s)) s))
    as (l & g & E & Hl).
  unfold exec. rewrite E. cbn.
  rewrite skipn_length_app by now rewrite length_map.
  exact Hl.
Qed.

(** [step] in terms of the row(s) its launch phase appends. *)
Lemma step_launched cfg action s :
  exists g,
    step cfg action s =
    Ok ((length (filter (fun m => negb (hit m))
                   (map move (enemy_missiles s) ++ launched_by cfg s)) =? 0)%nat
          && (nb_missiles_launched s + length (launched_by cfg s) =? NUMBER cfg)%nat)
       {| curriculum := curriculum s;
          enemy_missiles :=
            filter (fun m => negb (hit m))
                   (map move (enemy_missiles s) ++ launched_by cfg s);
          nb_missiles_launched := nb_missiles_launched s + length (launched_by cfg s);
          _rng_python := g |}.
Proof.
  unfold step, moving_missiles, remove_missiles.
  unfold bind at 1. unfold modify at 1.
  unfold launched_by. rewrite exec_moving_missiles.
  destruct (potentially_launch_eq cfg
              (set_enemy_missiles (map move (enemy_missiles s)) s))
    as (l & g & E & Hl).
  exists g. unfold exec. unfold bind at 1. rewrite E. cbn.
  rewrite skipn_length_app by now rewrite length_map.
  reflexivity.
Qed.

Lemma step_missiles cfg action s :
  enemy_missiles (exec (step cfg action) s) =
  filter (fun m => negb (hit m)) (map move (enemy_missiles s) ++ launched_by cfg s).
Proof.
  destruct (step_launched cfg action s) as (g & E).
  unfold exec. now rewrite E.
Qed.

Lemma step_count cfg action s :
  nb_missiles_launched (exec (step cfg action) s) =
  (nb_missiles_launched s + length (launched_by cfg s))%nat.
Proof.
  destruct (step_launched cfg action s) as (g & E).
  unfold exec. now rewrite E.
Qed.

Lemma step_curriculum cfg action s :
  curriculum (exec (step cfg action) s) = curriculum s.
Proof.
  destruct (step_launched cfg action s) as (g & E).
  unfold exec. now rewrite E.
Qed.

(** The flag returned is computed from the object [step] leaves. *)
Lemma step_result cfg action s :
  result (step cfg action) s =
  Some ((length (enemy_missiles (exec (step cfg action) s)) =? 0)%nat
          && (nb_missiles_launched (exec (step cfg action) s) =? NUMBER cfg)%nat).
Proof.
  destruct (step_launched cfg action s) as (g & E).
  unfold exec, result. now rewrite E.
Qed.

(** With nothing left to launch, [step] moves and removes, and leaves
    the generator alone. *)
Lemma step_full cfg action s :
  (NUMBER cfg <= nb_missiles_launched s)%nat ->
  exec (step cfg action) s =
  set_enemy_missiles
    (filter (fun m => negb (hit m)) (map move (enemy_missiles s))) s.
Proof.
  intros H. unfold exec, step, moving_missiles, remove_missiles.
  unfold bind at 1. unfold modify at 1. unfold bind at 1.
  rewrite potentially_launch_full by exact H. reflexivity.
Qed.

(** A finished episode is a fixed point of [step]. *)
Lemma step_finished cfg action s :
  enemy_missiles s = [] ->
  nb_missiles_launched s = NUMBER cfg ->
  exec (step cfg action) s = s.
Proof.
  intros Hm Hn. rewrite step_full by lia.
  rewrite Hm. cbn. rewrite <- Hm. destruct s; reflexivity.
Qed.

Lemma run_finished cfg act n s :
  enemy_missiles s = [] ->
  nb_missiles_launched s = NUMBER cfg ->
  run cfg act n s = s.
Proof.
  intros Hm Hn. induction n; cbn; [reflexivity |].
  rewrite IHn. now apply step_finished.
Qed.

Lemma filter_none_at_target (l : list missile) :
  Forall (fun m => ~ at_target m) (filter (fun m => negb (hit m)) l).
Proof.
  apply Forall_forall. intros m Hin. apply filter_In in Hin as [_ Hh].
  intros Ht. apply hit_spec in Ht. rewrite Ht in Hh. discriminate.
Qed.

Lemma new_missile_not_at_target cfg x0 x1 :
  HEIGHT cfg <> 0 -> ~ at_target (new_missile cfg x0 x1).
Proof.
  intros H [_ Hy]. cbn in Hy. contradiction.
Qed.

End StepFacts.

(** ** Removal of impacted missiles and the episode flag *)

(** C10.  After every [step] no active row has its current position
    equal to its final position on both axes: a row that the movement
    phase brings onto its target is absent from the rows the same call
    leaves.  A newly launched row starts at height [HEIGHT] and is
    aimed at height 0, so with a non-zero height it does not start on
    its target. *)
Theorem step_leaves_no_impacted_missile {P : PRNG} (cfg : CONFIG) (action : Z)
    (s : EnemyMissiles P) :
  Forall (fun m => ~ at_target m) (enemy_missiles (exec (step cfg action) s)) /\
  (forall m, In m (enemy_missiles (exec moving_missiles s)) -> at_target m ->
             ~ In m (enemy_missiles (exec (step cfg action) s))) /\
  (forall x0 x1, HEIGHT cfg <> 0 -> ~ at_target (new_missile cfg x0 x1)).
Proof.
  assert (F : Forall (fun m => ~ at_target m)
                (enemy_missiles (exec (step cfg action) s))).
  { rewrite step_missiles. apply filter_none_at_target. }
  split; [exact F |]. split.
  - intros m _ Ht Hin. rewrite Forall_forall in F. exact (F m Hin Ht).
  - intros x0 x1. apply new_missile_not_at_target.
Qed.

(** The first tick of the scenario, and a launch from [x = -10] to
    [x = 3]. *)
Lemma step_leaves_no_impacted_missile_witness :
  Forall (fun m => ~ at_target m)
         (enemy_missiles (exec (step scenario_cfg 0) scenario_start)) /\
  ~ at_target (new_missile scenario_cfg (-10) 3).
Proof.
  split.
  - apply (step_leaves_no_impacted_missile scenario_cfg 0 scenario_start).
  - apply (step_leaves_no_impacted_missile scenario_cfg 0 scenario_start).
    cbn. lra.
Defined.

(** C2.  [step] returns [done = True] exactly when the rows it leaves
    are none and the count of launched missiles equals the configured
    number; and once it has returned [True], every later [step] returns
    [True] ([reset] is the only method that changes this). *)
Theorem done_iff_and_stable {P : PRNG} (cfg : CONFIG) (action : Z)
    (s : EnemyMissiles P) :
  exists done : bool,
    result (step cfg action) s = Some done /\
    (done = true <->
     enemy_missiles (exec (step cfg action) s) = [] /\
     nb_missiles_launched (exec (step cfg action) s) = NUMBER cfg) /\
    (done = true ->
     forall (act : nat -> Z) (n : nat),
       done_at cfg act n (exec (step cfg action) s) = Some true).
Proof.
  eexists. split; [apply step_result |].
  assert (Hiff :
    ((length (enemy_missiles (exec (step cfg action) s)) =? 0)%nat
       && (nb_missiles_launched (exec (step cfg action) s) =? NUMBER cfg)%nat
     = true) <->
    enemy_missiles (exec (step cfg action) s) = [] /\
    nb_missiles_launched (exec (step cfg action) s) = NUMBER cfg).
  { rewrite andb_true_iff, !Nat.eqb_eq, length_zero_iff_nil. tauto. }
  split; [exact Hiff |].
  intros Hd act n. apply Hiff in Hd as [Hm Hn].
  unfold done_at. rewrite run_finished by assumption.
  rewrite step_result, step_finished by assumption.
  rewrite Hm, Hn. cbn. now rewrite Nat.eqb_refl.
Qed.

(** The last missile of the scenario has just been launched and has
    landed: the next [step] returns [True], and so does every later one. *)
Lemma done_iff_and_stable_witness :
  exists done : bool,
    result (step scenario_cfg 0) scenario_end = Some done /\
    done = true /\
    done_at scenario_cfg (fun _ => 0%Z) 7 (exec (step scenario_cfg 0) scenario_end)
      = Some true.
Proof.
  destruct (done_iff_and_stable scenario_cfg 0 scenario_end)
    as (d & Hr & Hiff & Hst).
  assert (Hd : d = true).
  { apply Hiff. rewrite step_finished by reflexivity. split; reflexivity. }
  exists d. split; [exact Hr |]. split; [exact Hd |].
  apply Hst. exact Hd.
Defined.

(** ** The count of launched missiles *)

Lemma on_curriculum_count {P : PRNG} {A} (m : Method Curriculum A) (s : EnemyMissiles P) :
  nb_missiles_launched (exec (on_curriculum m) s) = nb_missiles_launched s.
Proof. unfold exec, on_curriculum. destruct (m (curriculum s)); reflexivity. Qed.

Lemma on_curriculum_missiles {P : PRNG} {A} (m : Method Curriculum A) (s : EnemyMissiles P) :
  enemy_missiles (exec (on_curriculum m) s) = enemy_missiles s.
Proof. unfold exec, on_curriculum. destruct (m (curriculum s)); reflexivity. Qed.

Lemma launched_by_length {P : PRNG} cfg (s : EnemyMissiles P) :
  (length (launched_by cfg s) <= 1)%nat /\
  (launched_by cfg s <> [] -> (nb_missiles_launched s < NUMBER cfg)%nat).
Proof.
  destruct (launched_by_cases cfg s) as [E | (Hlt & x0 & x1 & E)]; rewrite E; cbn.
  - split; [lia | congruence].
  - split; [lia | auto].
Qed.

Lemma reachable_count {P : PRNG} cfg (s : EnemyMissiles P) :
  reachable cfg s -> (nb_missiles_launched s <= NUMBER cfg)%nat.
Proof.
  induction 1.
  - cbn. lia.
  - cbn. lia.
  - rewrite step_count.
    destruct (launched_by_cases cfg s) as [E | (Hlt & x0 & x1 & E)];
      rewrite E; cbn; lia.
  - now rewrite on_curriculum_count.
  - now rewrite on_curriculum_count.
  - now rewrite on_curriculum_count.
Qed.

(** C5.  In every reachable object the count of launched missiles lies
    between 0 and the configured number.  A [step] never lowers it and
    raises it by at most 1, namely by the number of rows its launch
    phase appends; and that phase appends a row only when the count was
    below the configured number. *)
Theorem launched_count_bounded {P : PRNG} (cfg : CONFIG) (s : EnemyMissiles P) :
  reachable cfg s ->
  (0 <= nb_missiles_launched s <= NUMBER cfg)%nat /\
  forall action : Z,
    (nb_missiles_launched s <= nb_missiles_launched (exec (step cfg action) s))%nat /\
    (nb_missiles_launched (exec (step cfg action) s) <= nb_missiles_launched s + 1)%nat /\
    nb_missiles_launched (exec (step cfg action) s) =
      (nb_missiles_launched s + length (launched_by cfg s))%nat /\
    (launched_by cfg s <> [] -> (nb_missiles_launched s < NUMBER cfg)%nat).
Proof.
  intros Hr. split.
  - split; [lia | now apply reachable_count].
  - intros action. rewrite step_count.
    destruct (launched_by_length cfg s) as [Hlen Hlt].
    repeat split; try lia. exact Hlt.
Qed.

(** The object after the first tick of the scenario. *)
Lemma launched_count_bounded_witness :
  (0 <= nb_missiles_launched (exec (step scenario_cfg 5) scenario_start) <= 1)%nat /\
  (nb_missiles_launched (exec (step scenario_cfg 5) scenario_start)
   <= nb_missiles_launched
        (exec (step scenario_cfg 0) (exec (step scenario_cfg 5) scenario_start)))%nat.
Proof.
  destruct (launched_count_bounded scenario_cfg
              (exec (step scenario_cfg 5) scenario_start)) as [Hb Hs].
  - apply reach_step, reach_reset.
  - split; [exact Hb | apply (Hs 0%Z)].
Defined.

(** ** Curriculum ranges *)

Lemma set_start_pos_range_cases (left right : R) (c : Curriculum) :
  (-0.5 <= left <= 0.5 /\ -0.5 <= right <= 0.5 /\
   set_start_pos_range left right c = Ok tt (assign_start_pos_range (left, right) c)) \/
  (~ (-0.5 <= left <= 0.5 /\ -0.5 <= right <= 0.5) /\
   set_start_pos_range left right c = Err AssertionError c).
Proof.
  unfold set_start_pos_range, bind.
  destruct (in_half left) eqn:Hl.
  - destruct (in_half right) eqn:Hr.
    + left. apply in_half_spec in Hl, Hr. cbn. auto.
    + right. split.
      * intros (_ & H). apply in_half_spec in H. congruence.
      * reflexivity.
  - right. split.
    + intros (H & _). apply in_half_spec in H. congruence.
    + reflexivity.
Qed.

Lemma set_end_pos_range_cases (left right : R) (c : Curriculum) :
  (-0.5 <= left <= 0.5 /\ -0.5 <= right <= 0.5 /\
   set_end_pos_range left right c = Ok tt (assign_end_pos_range (left, right) c)) \/
  (~ (-0.5 <= left <= 0.5 /\ -0.5 <= right <= 0.5) /\
   set_end_pos_range left right c = Err AssertionError c).
Proof.
  unfold set_end_pos_range, bind.
  destruct (in_half left) eqn:Hl.
  - destruct (in_half right) eqn:Hr.
    + left. apply in_half_spec in Hl, Hr. cbn. auto.
    + right. split.
      * intros (_ & H). apply in_half_spec in H. congruence.
      * reflexivity.
  - right. split.
    + intros (H & _). apply in_half_spec in H. congruence.
    + reflexivity.
Qed.

(** C8.  [set_start_pos_range] and [set_end_pos_range] raise
    [AssertionError] exactly when one of the two bounds is outside
    [[-0.5, 0.5]], and then leave the object as it was; otherwise they
    return normally and the active range is the pair given, everything
    else being kept.  [set_start_pos_range(0.6, 0.0)] raises. *)
Theorem set_pos_range_asserts (left right : R) (c : Curriculum) :
  let inside := -0.5 <= left <= 0.5 /\ -0.5 <= right <= 0.5 in
  (set_start_pos_range left right c = Err AssertionError c <-> ~ inside) /\
  (set_start_pos_range left right c
     = Ok tt (assign_start_pos_range (left, right) c) <-> inside) /\
  (set_end_pos_range left right c = Err AssertionError c <-> ~ inside) /\
  (set_end_pos_range left right c
     = Ok tt (assign_end_pos_range (left, right) c) <-> inside) /\
  start_pos_range (assign_start_pos_range (left, right) c) = (left, right) /\
  end_pos_range (assign_end_pos_range (left, right) c) = (left, right) /\
  set_start_pos_range 0.6 0.0 c = Err AssertionError c.
Proof.
  intros inside. unfold inside.
  pose proof (set_start_pos_range_cases left right c) as Hs.
  pose proof (set_end_pos_range_cases left right c) as He.
  split; [| split; [| split; [| split; [| split; [| split]]]]];
    try reflexivity.
  - destruct Hs as [(Hl & Hr & E) | (Hn & E)]; rewrite E;
      intuition (try discriminate; auto).
  - destruct Hs as [(Hl & Hr & E) | (Hn & E)]; rewrite E;
      intuition (try discriminate; auto).
  - destruct He as [(Hl & Hr & E) | (Hn & E)]; rewrite E;
      intuition (try discriminate; auto).
  - destruct He as [(Hl & Hr & E) | (Hn & E)]; rewrite E;
      intuition (try discriminate; auto).
  - destruct (set_start_pos_range_cases 0.6 0.0 c)
      as [(Hl & _) | (_ & E')]; [lra | exact E'].
Qed.

(** One call accepted, one rejected. *)
Lemma set_pos_range_asserts_witness :
  set_start_pos_range (-0.25) 0.25 default_curriculum
    = Ok tt (assign_start_pos_range (-0.25, 0.25) default_curriculum) /\
  set_end_pos_range 0 0.75 default_curriculum = Err AssertionError default_curriculum.
Proof.
  split.
  - apply (set_pos_range_asserts (-0.25) 0.25 default_curriculum). lra.
  - apply (set_pos_range_asserts 0 0.75 default_curriculum). lra.
Defined.

Lemma exec_advance_curriculum (c : Curriculum) :
  exec advance_curriculum c =
  {| start_pos_range_cur := tl (start_pos_range_cur c);
     end_pos_range_cur := tl (end_pos_range_cur c);
     start_pos_range := hd full_range (start_pos_range_cur c);
     end_pos_range := hd full_range (end_pos_range_cur c) |}.
Proof.
  destruct c as [sq eq sr er]. unfold exec, advance_curriculum, bind, gets.
  cbn. destruct sq, eq; reflexivity.
Qed.

Lemma nth_hd_tl (n : nat) (q : list range) :
  nth n (hd full_range q :: tl q) full_range = nth n q full_range.
Proof.
  destruct q; [| reflexivity].
  destruct n as [| [| n]]; reflexivity.
Qed.

(** After [n] calls the active range is entry [n] of the queue headed
    by the active range, and the full range beyond its end. *)
Lemma advanced_nth (n : nat) (c : Curriculum) :
  start_pos_range (advanced n c)
    = nth n (start_pos_range c :: start_pos_range_cur c) full_range /\
  end_pos_range (advanced n c)
    = nth n (end_pos_range c :: end_pos_range_cur c) full_range.
Proof.
  revert c. induction n as [| n IH]; intros c.
  - split; reflexivity.
  - unfold advanced in *. rewrite Nat.iter_succ_r.
    destruct (IH (exec advance_curriculum c)) as [Hs He].
    rewrite Hs, He, exec_advance_curriculum. cbn [start_pos_range end_pos_range
      start_pos_range_cur end_pos_range_cur].
    rewrite !nth_hd_tl. split; reflexivity.
Qed.

Lemma init_queues (cfg : CONFIG) (c : Curriculum) :
  __init__ cfg = inr c ->
  start_pos_range c :: start_pos_range_cur c = or_default (START_POS_RANGE_CUR cfg) /\
  end_pos_range c :: end_pos_range_cur c = or_default (END_POS_RANGE_CUR cfg).
Proof.
  unfold __init__.
  destruct (or_default (START_POS_RANGE_CUR cfg)) as [| sr sq]; cbn; [discriminate |].
  destruct (or_default (END_POS_RANGE_CUR cfg)) as [| er eq]; cbn; [discriminate |].
  intros E. injection E as <-. split; reflexivity.
Qed.

(** C7.  Let the configured queue have length [L] and let [__init__]
    succeed.  The active range right after construction and after each
    of the following calls of [advance_curriculum] runs through the
    configured entries in their order: after [n] calls it is entry [n]
    (counted from 0) when [n < L], and the full range [(-0.5, 0.5)] when
    [n >= L].  This holds for the start queue and for the end queue. *)
Theorem advance_curriculum_sequence (cfg : CONFIG) (c : Curriculum) :
  __init__ cfg = inr c ->
  forall n : nat,
    start_pos_range (advanced n c)
      = nth n (or_default (START_POS_RANGE_CUR cfg)) full_range /\
    end_pos_range (advanced n c)
      = nth n (or_default (END_POS_RANGE_CUR cfg)) full_range /\
    ((length (or_default (START_POS_RANGE_CUR cfg)) <= n)%nat ->
     start_pos_range (advanced n c) = full_range) /\
    ((length (or_default (END_POS_RANGE_CUR cfg)) <= n)%nat ->
     end_pos_range (advanced n c) = full_range).
Proof.
  intros Hinit n.
  destruct (init_queues cfg c Hinit) as [Hs He].
  destruct (advanced_nth n c) as [As Ae].
  rewrite Hs in As. rewrite He in Ae.
  repeat split; try assumption.
  - intros Hlen. rewrite As. now apply nth_overflow.
  - intros Hlen. rewrite Ae. now apply nth_overflow.
Qed.

(** Three configured start ranges and one end range. *)
Lemma advance_curriculum_sequence_witness :
  exists c : Curriculum,
    __init__ curriculum_cfg = inr c /\
    start_pos_range (advanced 0 c) = (-0.1, 0.1) /\
    start_pos_range (advanced 1 c) = (-0.3, 0.3) /\
    start_pos_range (advanced 2 c) = (-0.5, 0.5) /\
    start_pos_range (advanced 7 c) = full_range /\
    end_pos_range (advanced 0 c) = (-0.2, 0.2) /\
    end_pos_range (advanced 1 c) = full_range.
Proof.
  eexists. split; [reflexivity |].
  pose proof (advance_curriculum_sequence curriculum_cfg _ eq_refl) as H.
  split; [exact (proj1 (H 0%nat)) |].
  split; [exact (proj1 (H 1%nat)) |].
  split; [exact (proj1 (H 2%nat)) |].
  split; [exact (proj1 (H 7%nat)) |].
  split; [exact (proj1 (proj2 (H 0%nat))) |].
  exact (proj1 (proj2 (H 1%nat))).
Defined.

(** ** Movement along one axis

    [p] is the current coordinate, [a] the initial one, [b] the final
    one and [v] the velocity component. *)

Lemma axis_between a b v p :
  between a p b -> 0 <= (b - a) * v ->
  between a (p + Rmin (Rabs v) (Rabs (b - p)) * sign v) b.
Proof.
  intros Hb Hv. unfold between in *.
  destruct (Rtotal_order v 0) as [Hneg | [Hz | Hpos]].
  - rewrite sign_neg by assumption.
    unfold Rmin, Rabs.
    destruct (Rcase_abs v); destruct (Rcase_abs (b - p));
      destruct (Rle_dec _ _); nra.
  - subst v. rewrite sign_zero. rewrite Rmult_0_r, Rplus_0_r. exact Hb.
  - rewrite sign_pos by assumption.
    unfold Rmin, Rabs.
    destruct (Rcase_abs v); destruct (Rcase_abs (b - p));
      destruct (Rle_dec _ _); nra.
Qed.

(** After [j] moves from [a] the coordinate has covered [j * |v|], capped
    by the whole way [|b - a|]. *)
Lemma axis_closed_form a b v p (j : nat) :
  0 <= (b - a) * v ->
  p = a + Rmin (INR j * Rabs v) (Rabs (b - a)) * sign v ->
  p + Rmin (Rabs v) (Rabs (b - p)) * sign v
    = a + Rmin (INR (S j) * Rabs v) (Rabs (b - a)) * sign v.
Proof.
  intros Hv ->. rewrite S_INR. pose proof (pos_INR j) as Hj.
  destruct (Rtotal_order v 0) as [Hneg | [Hz | Hpos]].
  - rewrite sign_neg by assumption.
    unfold Rmin, Rabs.
    destruct (Rcase_abs v); try lra.
    destruct (Rcase_abs (b - a)); repeat destruct (Rle_dec _ _);
      repeat destruct (Rcase_abs _); try nra.
  - subst v. rewrite sign_zero. lra.
  - rewrite sign_pos by assumption.
    unfold Rmin, Rabs.
    destruct (Rcase_abs v); try lra.
    destruct (Rcase_abs (b - a)); repeat destruct (Rle_dec _ _);
      repeat destruct (Rcase_abs _); try nra.
Qed.

(** ** No overshoot, in exact arithmetic

    The docstring of [step] notes that "from one step to another, a
    missile could exceed its final position, so we need to do some
    verification", and lines 159-165 clamp the movement to the distance
    left.  On exact reals the clamp does what the note asks for.  The
    binary32 computation of the code does not; see the part on the
    code's arithmetic. *)

Lemma move_no_overshoot (m : missile) :
  heading_to_target m -> no_overshoot m -> no_overshoot (move m).
Proof.
  intros [Hx Hy] [Bx By]. split; cbn.
  - now apply axis_between.
  - now apply axis_between.
Qed.

Lemma move_heading (m : missile) : heading_to_target m -> heading_to_target (move m).
Proof. intros H. exact H. Qed.

Lemma norm_nonneg x0 y0 x1 y1 : 0 <= norm x0 y0 x1 y1.
Proof. apply sqrt_pos. Qed.

Lemma norm_zero x0 y0 x1 y1 : norm x0 y0 x1 y1 = 0 -> x1 - x0 = 0 /\ y1 - y0 = 0.
Proof.
  unfold norm. intros H. apply sqrt_eq_0 in H.
  - pose proof (Rle_0_sqr (x1 - x0)). pose proof (Rle_0_sqr (y1 - y0)).
    split; apply Rsqr_0_uniq; lra.
  - pose proof (Rle_0_sqr (x1 - x0)). pose proof (Rle_0_sqr (y1 - y0)). lra.
Qed.

(** With a different height at the two ends the norm is positive. *)
Lemma norm_pos x0 y0 x1 y1 : y1 - y0 <> 0 -> 0 < norm x0 y0 x1 y1.
Proof.
  intros H. destruct (norm_nonneg x0 y0 x1 y1) as [Hlt | Heq]; [exact Hlt |].
  symmetry in Heq. apply norm_zero in Heq. tauto.
Qed.

Lemma scaled_direction (speed d n : R) :
  0 <= speed -> 0 <= n -> (n = 0 -> d = 0) -> 0 <= d * (speed * (d / n)).
Proof.
  intros Hs Hn Hz. destruct Hn as [Hpos | Heq].
  - unfold Rdiv. pose proof (Rinv_0_lt_compat n Hpos) as Hi.
    assert (0 <= d * d) by nra. assert (0 <= speed * / n) by nra. nra.
  - rewrite (Hz (eq_sym Heq)). lra.
Qed.

Lemma new_missile_heading (cfg : CONFIG) (x0 x1 : R) :
  0 <= SPEED cfg -> heading_to_target (new_missile cfg x0 x1).
Proof.
  intros Hs. split; cbn.
  - apply scaled_direction; [exact Hs | apply norm_nonneg |].
    intros H. now apply norm_zero in H.
  - apply scaled_direction; [exact Hs | apply norm_nonneg |].
    intros H. now apply norm_zero in H.
Qed.

Lemma new_missile_no_overshoot (cfg : CONFIG) (x0 x1 : R) :
  no_overshoot (new_missile cfg x0 x1).
Proof.
  split; cbn; unfold between.
  - destruct (Rle_dec x0 x1); [left | right]; lra.
  - destruct (Rle_dec (HEIGHT cfg) 0); [left | right]; lra.
Qed.

Lemma reachable_on_course {P : PRNG} (cfg : CONFIG) (s : EnemyMissiles P) :
  0 <= SPEED cfg -> reachable cfg s ->
  Forall (fun m => heading_to_target m /\ no_overshoot m) (enemy_missiles s).
Proof.
  intros Hs. induction 1.
  - constructor.
  - constructor.
  - rewrite step_missiles. apply Forall_forall. intros m Hin.
    apply filter_In in Hin as [Hin _]. apply in_app_or in Hin as [Hin | Hin].
    + apply in_map_iff in Hin as (m' & <- & Hin').
      rewrite Forall_forall in IHreachable.
      destruct (IHreachable m' Hin') as [Hh Hb].
      split; [now apply move_heading | now apply move_no_overshoot].
    + destruct (launched_by_cases cfg s) as [E | (_ & x0 & x1 & E)];
        rewrite E in Hin; [contradiction |].
      destruct Hin as [<- | []].
      split; [now apply new_missile_heading | apply new_missile_no_overshoot].
  - now rewrite on_curriculum_missiles.
  - now rewrite on_curriculum_missiles.
  - now rewrite on_curriculum_missiles.
Qed.

(** In exact arithmetic, for every configured speed that is not
    negative: in every reachable object (so after every [step]) the
    current position of every active missile lies, on each axis on its
    own, between its initial and its final coordinate, ends included;
    this covers speeds larger than the remaining distance. *)
Theorem no_overshoot_when_speed_nonneg {P : PRNG} (cfg : CONFIG) (s : EnemyMissiles P) :
  0 <= SPEED cfg ->
  reachable cfg s ->
  Forall no_overshoot (enemy_missiles s).
Proof.
  intros Hs Hr. eapply Forall_impl; [| apply (reachable_on_course cfg s Hs Hr)].
  intros m [_ H]. exact H.
Qed.

(** A speed of 2 and the object after the first tick. *)
Lemma no_overshoot_when_speed_nonneg_witness :
  0 <= SPEED scenario_cfg /\
  Forall no_overshoot (enemy_missiles (exec (step scenario_cfg 0) scenario_start)).
Proof.
  assert (H : 0 <= SPEED scenario_cfg) by (cbn; lra).
  split; [exact H |].
  apply (no_overshoot_when_speed_nonneg scenario_cfg); [exact H |].
  apply reach_step, reach_reset.
Defined.

(** ** Ticks that surely launch, ticks that cannot *)

Section Ticks.

Context {P : PRNG}.
Implicit Types (s : EnemyMissiles P) (cfg : CONFIG).

Lemma launched_by_sure cfg s :
  (nb_missiles_launched s < NUMBER cfg)%nat ->
  1 <= PROBA_IN cfg ->
  exists x0 x1, launched_by cfg s = [new_missile cfg x0 x1].
Proof.
  intros Hlt Hp. unfold launched_by. rewrite exec_moving_missiles.
  destruct (potentially_launch_sure cfg
              (set_enemy_missiles (map move (enemy_missiles s)) s) Hlt Hp)
    as (x0 & x1 & g & E).
  exists x0, x1. unfold exec. rewrite E. cbn.
  now rewrite skipn_length_app by now rewrite length_map.
Qed.

Lemma hit_false_y (m : missile) : cur_y m <> final_y m -> hit m = false.
Proof.
  intros H. unfold hit. rewrite (Reqb_false (cur_y m)) by exact H.
  apply andb_false_r.
Qed.

(** A tick with nothing left to launch. *)
Lemma later_tick cfg action s :
  (NUMBER cfg <= nb_missiles_launched s)%nat ->
  enemy_missiles (exec (step cfg action) s)
    = filter (fun m => negb (hit m)) (map move (enemy_missiles s)) /\
  nb_missiles_launched (exec (step cfg action) s) = nb_missiles_launched s.
Proof.
  intros H. rewrite step_full by exact H. split; reflexivity.
Qed.

End Ticks.

Lemma norm_vertical (x y0 y1 : R) : norm x y0 x y1 = Rabs (y1 - y0).
Proof.
  unfold norm. replace (x - x) with 0 by lra.
  rewrite Rsqr_0, Rplus_0_l. apply sqrt_Rsqr_abs.
Qed.

(** A launch with target straight below the start. *)
Lemma new_missile_vertical (cfg : CONFIG) (x : R) :
  0 < HEIGHT cfg ->
  new_missile cfg x x =
  {| init_x := x; init_y := HEIGHT cfg; cur_x := x; cur_y := HEIGHT cfg;
     final_x := x; final_y := 0; vx := 0; vy := - SPEED cfg |}.
Proof.
  intros H. unfold new_missile. rewrite norm_vertical.
  rewrite Rabs_left by lra.
  f_equal; field; lra.
Qed.

(** ** The example scenario *)

Lemma move_scenario_row (xc y : R) :
  2 <= y -> move (scenario_row xc y) = scenario_row xc (y - 2).
Proof.
  intros Hy. unfold move, scenario_row. cbn.
  rewrite sign_zero, sign_neg by lra.
  rewrite (Rabs_left (-2)) by lra. rewrite (Rabs_left1 (0 - y)) by lra.
  rewrite (Rmin_left (- -2)) by lra.
  f_equal; lra.
Qed.

Lemma run_stays_finished {P : PRNG} cfg act (k d : nat) (s : EnemyMissiles P) :
  enemy_missiles (run cfg act k s) = [] ->
  nb_missiles_launched (run cfg act k s) = NUMBER cfg ->
  run cfg act (d + k) s = run cfg act k s.
Proof.
  intros Hm Hn. induction d; cbn; [reflexivity |].
  rewrite IHd. now apply step_finished.
Qed.

(** One tick of the falling row while it is still above height 2. *)
Lemma scenario_fall {P : PRNG} cfg action (s : EnemyMissiles P) (xc y : R) :
  enemy_missiles s = [scenario_row xc y] ->
  nb_missiles_launched s = NUMBER cfg ->
  2 < y ->
  enemy_missiles (exec (step cfg action) s) = [scenario_row xc (y - 2)] /\
  nb_missiles_launched (exec (step cfg action) s) = NUMBER cfg.
Proof.
  intros Hm Hn Hy.
  destruct (later_tick cfg action s) as [E1 E2]; [lia |].
  rewrite E1, E2, Hm. cbn [map filter].
  rewrite move_scenario_row by lra.
  rewrite hit_false_y by (cbn; lra). auto.
Qed.

(** The tick in which the row reaches the ground. *)
Lemma scenario_land {P : PRNG} cfg action (s : EnemyMissiles P) (xc : R) :
  enemy_missiles s = [scenario_row xc 2] ->
  nb_missiles_launched s = NUMBER cfg ->
  enemy_missiles (exec moving_missiles s) = [scenario_row xc 0] /\
  enemy_missiles (exec (step cfg action) s) = [] /\
  nb_missiles_launched (exec (step cfg action) s) = NUMBER cfg.
Proof.
  intros Hm Hn.
  assert (Hmv : move (scenario_row xc 2) = scenario_row xc 0).
  { rewrite move_scenario_row by lra. f_equal. lra. }
  destruct (later_tick cfg action s) as [E1 E2]; [lia |].
  rewrite E1, E2, exec_moving_missiles, Hm. cbn [map filter enemy_missiles
    set_enemy_missiles].
  rewrite Hmv. unfold hit. cbn. rewrite !Reqb_true by reflexivity. auto.
Qed.

(** The whole scenario, tick by tick. *)
Lemma scenario_ticks {P : PRNG} (cfg : CONFIG) (c : Curriculum) (seed : Z)
    (act : nat -> Z) :
  NUMBER cfg = 1%nat -> PROBA_IN cfg = 1 -> SPEED cfg = 2 -> HEIGHT cfg = 10 ->
  (forall m, In m (enemy_missiles (run cfg act 1 (reset (P := P) c seed))) ->
             init_x m = final_x m) ->
  exists xc : R,
    launched_by cfg (reset (P := P) c seed) = [scenario_row xc 10] /\
    enemy_missiles (run cfg act 1 (reset (P := P) c seed)) = [scenario_row xc 10] /\
    enemy_missiles (run cfg act 2 (reset (P := P) c seed)) = [scenario_row xc 8] /\
    enemy_missiles (run cfg act 3 (reset (P := P) c seed)) = [scenario_row xc 6] /\
    enemy_missiles (run cfg act 4 (reset (P := P) c seed)) = [scenario_row xc 4] /\
    enemy_missiles (run cfg act 5 (reset (P := P) c seed)) = [scenario_row xc 2] /\
    enemy_missiles (exec moving_missiles (run cfg act 5 (reset (P := P) c seed)))
      = [scenario_row xc 0] /\
    at_target (scenario_row xc 0) /\
    enemy_missiles (run cfg act 6 (reset (P := P) c seed)) = [] /\
    (forall n, (n < 5)%nat -> done_at cfg act n (reset (P := P) c seed) = Some false) /\
    (forall n, (5 <= n)%nat -> done_at cfg act n (reset (P := P) c seed) = Some true).
Proof.
  intros Hnum Hp Hsp Hh Hx.
  set (s0 := reset (P := P) c seed) in *.
  destruct (launched_by_sure cfg s0) as (x0 & x1 & El);
    [cbn; lia | lra |].
  assert (M1 : enemy_missiles (run cfg act 1 s0) = [new_missile cfg x0 x1]).
  { cbn [run]. rewrite step_missiles, El. cbn.
    rewrite hit_false_y by (cbn; lra). reflexivity. }
  assert (Hxx : x0 = x1).
  { apply (Hx (new_missile cfg x0 x1)). rewrite M1. now left. }
  subst x1.
  assert (Hrow : new_missile cfg x0 x0 = scenario_row x0 10).
  { rewrite new_missile_vertical by lra. rewrite Hh, Hsp. reflexivity. }
  rewrite Hrow in *.
  assert (N1 : nb_missiles_launched (run cfg act 1 s0) = NUMBER cfg).
  { cbn [run]. rewrite step_count, El, Hnum. reflexivity. }
  destruct (scenario_fall cfg (act 1%nat) _ x0 10 M1 N1) as [M2 N2]; [lra |].
  replace (10 - 2) with 8 in M2 by lra.
  destruct (scenario_fall cfg (act 2%nat) _ x0 8 M2 N2) as [M3 N3]; [lra |].
  replace (8 - 2) with 6 in M3 by lra.
  destruct (scenario_fall cfg (act 3%nat) _ x0 6 M3 N3) as [M4 N4]; [lra |].
  replace (6 - 2) with 4 in M4 by lra.
  destruct (scenario_fall cfg (act 4%nat) _ x0 4 M4 N4) as [M5 N5]; [lra |].
  replace (4 - 2) with 2 in M5 by lra.
  destruct (scenario_land cfg (act 5%nat) _ x0 M5 N5) as (Mv & M6 & N6).
  change (exec (step cfg (act 1%nat)) (run cfg act 1 s0)) with (run cfg act 2 s0) in *.
  change (exec (step cfg (act 2%nat)) (run cfg act 2 s0)) with (run cfg act 3 s0) in *.
  change (exec (step cfg (act 3%nat)) (run cfg act 3 s0)) with (run cfg act 4 s0) in *.
  change (exec (step cfg (act 4%nat)) (run cfg act 4 s0)) with (run cfg act 5 s0) in *.
  change (exec (step cfg (act 5%nat)) (run cfg act 5 s0)) with (run cfg act 6 s0) in *.
  exists x0. repeat (split; [assumption |]).
  split; [split; reflexivity |].
  split; [assumption |].
  assert (D : forall n, done_at cfg act n s0 =
                Some ((length (enemy_missiles (run cfg act (S n) s0)) =? 0)%nat
                      && (nb_missiles_launched (run cfg act (S n) s0) =? NUMBER cfg)%nat)).
  { intros n. unfold done_at. now rewrite step_result. }
  split.
  - intros n Hn. rewrite D.
    destruct n as [| [| [| [| [| n]]]]]; [| | | | | lia].
    + now rewrite M1.
    + now rewrite M2.
    + now rewrite M3.
    + now rewrite M4.
    + now rewrite M5.
  - intros n Hn. rewrite D.
    replace (S n) with ((n - 5) + 6)%nat by lia.
    rewrite run_stays_finished by assumption.
    rewrite M6, N6. cbn. now rewrite Nat.eqb_refl.
Qed.

(** On the counting generator every draw is 0: a launch is certain as
    soon as the probability is not negative, and both positions drawn
    are the left ends of the active ranges. *)
Lemma counting_launched_by (cfg : CONFIG) (s : EnemyMissiles counting_prng) :
  (nb_missiles_launched s < NUMBER cfg)%nat ->
  0 <= PROBA_IN cfg ->
  launched_by cfg s =
  [new_missile cfg
     (fst (start_pos_range (curriculum s)) * WIDTH cfg
      + (snd (start_pos_range (curriculum s)) * WIDTH cfg
         - fst (start_pos_range (curriculum s)) * WIDTH cfg) * 0)
     (fst (end_pos_range (curriculum s)) * WIDTH cfg
      + (snd (end_pos_range (curriculum s)) * WIDTH cfg
         - fst (end_pos_range (curriculum s)) * WIDTH cfg) * 0)].
Proof.
  intros Hlt Hp. apply Nat.ltb_lt in Hlt.
  unfold launched_by, exec, moving_missiles, potentially_launch, _launch_missile,
    rng_uniform, rng_random, bind, gets, modify, ret.
  cbn [nb_missiles_launched set_enemy_missiles]. rewrite Hlt.
  cbn. rewrite Rleb_true by exact Hp. cbn.
  now rewrite skipn_length_app by now rewrite length_map.
Qed.

Lemma scenario_start_vertical (act : nat -> Z) :
  forall m, In m (enemy_missiles (run scenario_cfg act 1 scenario_start)) ->
            init_x m = final_x m.
Proof.
  intros m. cbn [run]. rewrite step_missiles.
  rewrite counting_launched_by by (cbn; try lia; lra).
  intros Hin. apply filter_In in Hin as [Hin _].
  destruct Hin as [<- | []]. reflexivity.
Qed.

(** C6, amended.  With one missile to launch, launch probability 1,
    speed 2 and height 10, and a launch whose start and target have the
    same x: the missile is launched in tick 1 at height 10 towards
    height 0 and moves straight down; the ticks 1 to 5 leave it at
    heights 10, 8, 6, 4, 2; the movement phase of tick 6 brings it to
    height 0, its target, and the removal phase of the same tick 6
    deletes it; [done] is [False] in the ticks 1 to 5 and [True] in tick
    6 and every later tick. *)
Theorem example_scenario {P : PRNG} (cfg : CONFIG) (c : Curriculum) (seed : Z)
    (act : nat -> Z) :
  NUMBER cfg = 1%nat -> PROBA_IN cfg = 1 -> SPEED cfg = 2 -> HEIGHT cfg = 10 ->
  (forall m, In m (enemy_missiles (run cfg act 1 (reset (P := P) c seed))) ->
             init_x m = final_x m) ->
  exists xc : R,
    launched_by cfg (reset (P := P) c seed) = [scenario_row xc 10] /\
    enemy_missiles (run cfg act 1 (reset (P := P) c seed)) = [scenario_row xc 10] /\
    enemy_missiles (run cfg act 2 (reset (P := P) c seed)) = [scenario_row xc 8] /\
    enemy_missiles (run cfg act 3 (reset (P := P) c seed)) = [scenario_row xc 6] /\
    enemy_missiles (run cfg act 4 (reset (P := P) c seed)) = [scenario_row xc 4] /\
    enemy_missiles (run cfg act 5 (reset (P := P) c seed)) = [scenario_row xc 2] /\
    enemy_missiles (exec moving_missiles (run cfg act 5 (reset (P := P) c seed)))
      = [scenario_row xc 0] /\
    at_target (scenario_row xc 0) /\
    enemy_missiles (run cfg act 6 (reset (P := P) c seed)) = [] /\
    (forall n, (n < 5)%nat -> done_at cfg act n (reset (P := P) c seed) = Some false) /\
    (forall n, (5 <= n)%nat -> done_at cfg act n (reset (P := P) c seed) = Some true).
Proof.
  exact (scenario_ticks cfg c seed act).
Qed.

(** The scenario on the counting generator, the default ranges and a
    width of 20: both positions drawn are [-10]. *)
Lemma example_scenario_witness :
  exists xc : R,
    enemy_missiles (run scenario_cfg (fun _ => 0%Z) 3 scenario_start)
      = [scenario_row xc 6] /\
    enemy_missiles (run scenario_cfg (fun _ => 0%Z) 6 scenario_start) = [] /\
    done_at scenario_cfg (fun _ => 0%Z) 4 scenario_start = Some false /\
    done_at scenario_cfg (fun _ => 0%Z) 5 scenario_start = Some true.
Proof.
  destruct (example_scenario (P := counting_prng) scenario_cfg default_curriculum 42
              (fun _ => 0%Z) eq_refl eq_refl eq_refl eq_refl
              (scenario_start_vertical (fun _ => 0%Z)))
    as (xc & _ & _ & _ & M3 & _ & _ & _ & _ & M6 & Df & Dt).
  exists xc. split; [exact M3 |]. split; [exact M6 |].
  split; [apply Df; lia | apply Dt; lia].
Defined.

(** C6 as stated has the missile reach its target at tick 5.  In the
    scenario on the counting generator the fifth [step] leaves the
    missile at height 2, not on its target at height 0, and returns
    [done = False]; the target is reached by the movement phase of the
    sixth [step]. *)
Lemma scenario_target_not_reached_at_tick_5 :
  enemy_missiles (run scenario_cfg (fun _ => 0%Z) 5 scenario_start)
    = [scenario_row (-10) 2] /\
  ~ at_target (scenario_row (-10) 2) /\
  done_at scenario_cfg (fun _ => 0%Z) 4 scenario_start = Some false /\
  enemy_missiles (exec moving_missiles (run scenario_cfg (fun _ => 0%Z) 5 scenario_start))
    = [scenario_row (-10) 0].
Proof.
  destruct (scenario_ticks (P := counting_prng) scenario_cfg default_curriculum 42
              (fun _ => 0%Z) eq_refl eq_refl eq_refl eq_refl
              (scenario_start_vertical (fun _ => 0%Z)))
    as (xc & L & _ & _ & _ & _ & M5 & Mv & _ & _ & Df & _).
  assert (Hxc : xc = -10).
  { rewrite counting_launched_by in L by (cbn; try lia; lra).
    injection L as Hx _. cbn in Hx. lra. }
  subst xc. split; [exact M5 |]. split.
  - intros [_ Hy]. cbn in Hy. lra.
  - split; [apply Df; lia | exact Mv].
Qed.

(** ** The zero-distance launch *)

(** C9, amended.  [_launch_missile] has no guard: for every object and
    configuration it returns normally, having appended one row and
    added one to the count, whatever the norm.  When the configured
    height is strictly positive the norm from a start at that height to
    a target on the ground is strictly positive, so neither division by
    it divides by zero. *)
Theorem launch_missile_norm_positive {P : PRNG} (cfg : CONFIG) (s : EnemyMissiles P) :
  (exists x0 x1 g,
     _launch_missile cfg s =
     Ok tt {| curriculum := curriculum s;
              enemy_missiles := enemy_missiles s ++ [new_missile cfg x0 x1];
              nb_missiles_launched := nb_missiles_launched s + 1;
              _rng_python := g |}) /\
  (0 < HEIGHT cfg ->
   forall x0 x1 : R,
     0 < norm x0 (HEIGHT cfg) x1 0 /\ norm x0 (HEIGHT cfg) x1 0 <> 0).
Proof.
  split; [apply launch_missile_eq |].
  intros Hh x0 x1.
  assert (0 < norm x0 (HEIGHT cfg) x1 0) by (apply norm_pos; lra).
  split; lra.
Qed.

(** Height 10, start at [x = -10], target at [x = 3]. *)
Lemma launch_missile_norm_positive_witness :
  0 < HEIGHT scenario_cfg /\ 0 < norm (-10) (HEIGHT scenario_cfg) 3 0.
Proof.
  assert (H : 0 < HEIGHT scenario_cfg) by (cbn; lra).
  split; [exact H |].
  apply (launch_missile_norm_positive scenario_cfg scenario_start); exact H.
Defined.

(** C9 as stated has [_launch_missile] reject a launch of norm 0 by an
    assertion.  With height 0, width 20 and the default ranges on the
    counting generator, both positions drawn are [-10]: start and target
    are the same point, the norm is 0, and the call returns normally
    with the row appended and the count raised. *)
Lemma zero_distance_launch_not_rejected :
  norm (-10) (HEIGHT flat_cfg) (-10) 0 = 0 /\
  _launch_missile flat_cfg scenario_start =
  Ok tt {| curriculum := default_curriculum;
           enemy_missiles := [new_missile flat_cfg (-10) (-10)];
           nb_missiles_launched := 1;
           _rng_python := (44%Z : gen counting_prng) |} /\
  _launch_missile flat_cfg scenario_start <> Err AssertionError scenario_start.
Proof.
  assert (E : _launch_missile flat_cfg scenario_start =
              Ok tt {| curriculum := default_curriculum;
                       enemy_missiles := [new_missile flat_cfg (-10) (-10)];
                       nb_missiles_launched := 1;
                       _rng_python := (44%Z : gen counting_prng) |}).
  { unfold _launch_missile, rng_uniform, rng_random, bind, gets, modify, ret.
    cbn.
    replace (-0.5 * 20 + (0.5 * 20 - -0.5 * 20) * 0) with (-10) by lra.
    reflexivity. }
  split; [| split].
  - rewrite norm_vertical. cbn. replace (0 - 0) with 0 by lra. apply Rabs_R0.
  - exact E.
  - rewrite E. discriminate.
Qed.

(** ** Determinism *)

Section Determinism.

Context {P : PRNG}.
Implicit Types (s : EnemyMissiles P) (cfg : CONFIG).

(** [step] on two objects with the same episode attributes and active
    ranges: the same rows launched, the same flag, and again the same
    episode attributes. *)
Lemma step_same_episode cfg (a1 a2 : Z) s1 s2 :
  same_episode s1 s2 ->
  launched_by cfg s1 = launched_by cfg s2 /\
  result (step cfg a1) s1 = result (step cfg a2) s2 /\
  same_episode (exec (step cfg a1) s1) (exec (step cfg a2) s2).
Proof.
  destruct s1 as [[sq1 eq1 sr1 er1] ms1 n1 g1].
  destruct s2 as [[sq2 eq2 sr2 er2] ms2 n2 g2].
  unfold same_episode. cbn. intros (-> & -> & -> & -> & ->).
  unfold launched_by, result, exec, step, moving_missiles, potentially_launch,
    _launch_missile, rng_uniform, rng_random, remove_missiles, bind, gets,
    modify, ret.
  cbn -[Nat.ltb]. destruct (n2 <? NUMBER cfg)%nat; cbn.
  - destruct (random P g2) as [r ga]. cbn.
    destruct (Rleb r (PROBA_IN cfg)); cbn.
    + destruct (random P ga) as [r1 gb]. cbn.
      destruct (random P gb) as [r2 gc]. cbn.
      repeat split; reflexivity.
    + repeat split; reflexivity.
  - repeat split; reflexivity.
Qed.

Lemma run_same_episode cfg (act : nat -> Z) (n : nat) s1 s2 :
  same_episode s1 s2 ->
  same_episode (run cfg act n s1) (run cfg act n s2).
Proof.
  intros H. induction n; cbn; [exact H |].
  now apply step_same_episode.
Qed.

Lemma observe_same_episode cfg (act : nat -> Z) (n : nat) s1 s2 :
  same_episode s1 s2 ->
  observe cfg act n s1 = observe cfg act n s2.
Proof.
  intros H. unfold observe, done_at.
  pose proof (run_same_episode cfg act n s1 s2 H) as Hn.
  destruct (step_same_episode cfg (act n) (act n) _ _ Hn) as (El & Er & _).
  pose proof (run_same_episode cfg act (S n) s1 s2 H) as (_ & _ & Em & _).
  now rewrite El, Er, Em.
Qed.

End Determinism.

(** C4.  Take any two objects with the same active ranges, whatever
    their rows, counts, generators and queues, the same configuration,
    the same seed and the same sequence of actions.  After [reset] with
    that seed, every tick of the two runs shows the same launch (none,
    or the same start and target), returns the same [done] and leaves
    the same active rows. *)
Theorem seeded_runs_agree {P : PRNG} (cfg : CONFIG) (seed : Z) (act : nat -> Z)
    (s1 s2 : EnemyMissiles P) :
  start_pos_range (curriculum s1) = start_pos_range (curriculum s2) ->
  end_pos_range (curriculum s1) = end_pos_range (curriculum s2) ->
  forall n : nat,
    observe cfg act n (reset (P := P) (curriculum s1) seed)
    = observe cfg act n (reset (P := P) (curriculum s2) seed).
Proof.
  intros Hs He n. apply observe_same_episode.
  unfold same_episode. cbn. auto.
Qed.

(** A second episode started on the finished scenario and on the
    scenario after its first tick. *)
Lemma seeded_runs_agree_witness :
  observe scenario_cfg (fun _ => 5%Z) 3
    (reset (P := counting_prng) (curriculum scenario_end) 42)
  = observe scenario_cfg (fun _ => 5%Z) 3
      (reset (P := counting_prng)
         (curriculum (exec (step scenario_cfg 0) scenario_start)) 42).
Proof.
  apply (seeded_runs_agree scenario_cfg 42 (fun _ => 5%Z)
           scenario_end (exec (step scenario_cfg 0) scenario_start)).
  - now rewrite step_curriculum.
  - now rewrite step_curriculum.
Defined.

(** ** Time of flight, in exact arithmetic

    Removal is by exact equality of current and final position (lines
    181-184), so the code counts on the clamp to land a missile on its
    target.  On exact reals it lands after [ceil(distance / speed)]
    moves.  In binary32 it can land a tick late, or pass its target and
    not land in thousands of ticks; see the part on the code's
    arithmetic. *)

Lemma ceil_spec (r : R) : IZR (ceil r) - 1 < r <= IZR (ceil r).
Proof.
  unfold ceil. destruct (archimed (- r)) as [H1 H2].
  rewrite minus_IZR. lra.
Qed.

Lemma lt_ceil (j : nat) (r : R) : (j < Z.to_nat (ceil r))%nat <-> INR j < r.
Proof.
  destruct (ceil_spec r) as [Hlo Hhi]. rewrite INR_IZR_INZ. split.
  - intros H. assert (Hz : (Z.of_nat j <= ceil r - 1)%Z) by lia.
    apply IZR_le in Hz. rewrite minus_IZR in Hz. lra.
  - intros H. assert (Hz : IZR (Z.of_nat j) < IZR (ceil r)) by lra.
    apply lt_IZR in Hz. lia.
Qed.

(** The coordinate after [j] moves, as the final coordinate minus the
    fraction of the way that remains; [k] is speed over distance. *)
Lemma axis_fraction (a b v k : R) (j : nat) :
  0 < k -> v = k * (b - a) ->
  a + Rmin (INR j * Rabs v) (Rabs (b - a)) * sign v
    = b - (b - a) * Rmax 0 (1 - INR j * k).
Proof.
  intros Hk ->. pose proof (pos_INR j) as Hj.
  destruct (Rtotal_order (b - a) 0) as [Hneg | [Hz | Hpos]].
  - rewrite sign_neg by nra.
    rewrite (Rabs_left (k * (b - a))) by nra. rewrite (Rabs_left (b - a)) by lra.
    unfold Rmin, Rmax. repeat destruct (Rle_dec _ _); nra.
  - rewrite Hz. rewrite Rmult_0_r, sign_zero. lra.
  - rewrite sign_pos by nra.
    rewrite (Rabs_right (k * (b - a))) by nra. rewrite (Rabs_right (b - a)) by lra.
    unfold Rmin, Rmax. repeat destruct (Rle_dec _ _); nra.
Qed.

Lemma iter_move_static (j : nat) (m : missile) :
  init_x (Nat.iter j move m) = init_x m /\
  init_y (Nat.iter j move m) = init_y m /\
  final_x (Nat.iter j move m) = final_x m /\
  final_y (Nat.iter j move m) = final_y m /\
  vx (Nat.iter j move m) = vx m /\
  vy (Nat.iter j move m) = vy m.
Proof.
  induction j; cbn; [repeat split; reflexivity | exact IHj].
Qed.

Lemma cur_x_move (m : missile) :
  cur_x (move m)
    = cur_x m + Rmin (Rabs (vx m)) (Rabs (final_x m - cur_x m)) * sign (vx m).
Proof. reflexivity. Qed.

Lemma cur_y_move (m : missile) :
  cur_y (move m)
    = cur_y m + Rmin (Rabs (vy m)) (Rabs (final_y m - cur_y m)) * sign (vy m).
Proof. reflexivity. Qed.

Lemma iter_move_x (j : nat) (m : missile) :
  cur_x m = init_x m ->
  0 <= (final_x m - init_x m) * vx m ->
  cur_x (Nat.iter j move m)
    = init_x m + Rmin (INR j * Rabs (vx m)) (Rabs (final_x m - init_x m)) * sign (vx m).
Proof.
  intros H0 Hv. induction j.
  - cbn. rewrite Rmult_0_l, H0.
    rewrite Rmin_left by apply Rabs_pos. lra.
  - destruct (iter_move_static j m) as (_ & _ & Ef & _ & Ev & _).
    change (Nat.iter (S j) move m) with (move (Nat.iter j move m)).
    rewrite cur_x_move, Ef, Ev. now apply axis_closed_form.
Qed.

Lemma iter_move_y (j : nat) (m : missile) :
  cur_y m = init_y m ->
  0 <= (final_y m - init_y m) * vy m ->
  cur_y (Nat.iter j move m)
    = init_y m + Rmin (INR j * Rabs (vy m)) (Rabs (final_y m - init_y m)) * sign (vy m).
Proof.
  intros H0 Hv. induction j.
  - cbn. rewrite Rmult_0_l, H0.
    rewrite Rmin_left by apply Rabs_pos. lra.
  - destruct (iter_move_static j m) as (_ & _ & _ & Ef & _ & Ev).
    change (Nat.iter (S j) move m) with (move (Nat.iter j move m)).
    rewrite cur_y_move, Ef, Ev. now apply axis_closed_form.
Qed.

(** The fraction of the way that remains after [j] moves. *)
Lemma launched_position (cfg : CONFIG) (x0 x1 : R) (j : nat) :
  0 < SPEED cfg -> 0 < HEIGHT cfg ->
  let n := norm x0 (HEIGHT cfg) x1 0 in
  let r := Rmax 0 (1 - INR j * (SPEED cfg / n)) in
  cur_x (Nat.iter j move (new_missile cfg x0 x1)) = x1 - (x1 - x0) * r /\
  cur_y (Nat.iter j move (new_missile cfg x0 x1)) = 0 - (0 - HEIGHT cfg) * r /\
  dist_to_target (Nat.iter j move (new_missile cfg x0 x1)) = n * r.
Proof.
  intros Hs Hh n r.
  assert (Hn : 0 < n) by (apply norm_pos; lra).
  assert (Hk : 0 < SPEED cfg / n) by (apply Rdiv_lt_0_compat; assumption).
  pose proof (new_missile_heading cfg x0 x1 (Rlt_le _ _ Hs)) as [Hx Hy].
  assert (Ex : cur_x (Nat.iter j move (new_missile cfg x0 x1)) = x1 - (x1 - x0) * r).
  { rewrite iter_move_x by (try reflexivity; exact Hx). cbn [init_x final_x vx new_missile].
    apply axis_fraction; [exact Hk |]. fold n. field. lra. }
  assert (Ey : cur_y (Nat.iter j move (new_missile cfg x0 x1)) = 0 - (0 - HEIGHT cfg) * r).
  { rewrite iter_move_y by (try reflexivity; exact Hy). cbn [init_y final_y vy new_missile].
    apply axis_fraction; [exact Hk |]. fold n. field. lra. }
  split; [exact Ex |]. split; [exact Ey |].
  unfold dist_to_target.
  destruct (iter_move_static j (new_missile cfg x0 x1)) as (_ & _ & Efx & Efy & _).
  rewrite Efx, Efy, Ex, Ey. cbn [final_x final_y new_missile].
  assert (Hr : 0 <= r) by apply Rmax_l.
  unfold norm.
  replace (Rsqr (x1 - (x1 - (x1 - x0) * r)) + Rsqr (0 - (0 - (0 - HEIGHT cfg) * r)))
    with (Rsqr r * (Rsqr (x1 - x0) + Rsqr (0 - HEIGHT cfg))) by (unfold Rsqr; ring).
  rewrite sqrt_mult_alt by apply Rle_0_sqr.
  rewrite sqrt_Rsqr by exact Hr. unfold n, norm. ring.
Qed.

Lemma before_arrival (speed n : R) (j : nat) :
  0 < speed -> 0 < n ->
  ((j < Z.to_nat (ceil (n / speed)))%nat <-> INR j * (speed / n) < 1).
Proof.
  intros Hs Hn. rewrite lt_ceil.
  assert (E1 : n / speed * speed = n) by (field; lra).
  assert (E2 : speed / n * n = speed) by (field; lra).
  assert (Hq : 0 < n / speed) by (apply Rdiv_lt_0_compat; assumption).
  assert (Hk : 0 < speed / n) by (apply Rdiv_lt_0_compat; assumption).
  split; intros H.
  - assert (INR j * speed < n) by nra.
    apply (Rmult_lt_reg_r n); [exact Hn |]. nra.
  - assert (INR j * speed < n) by nra.
    apply (Rmult_lt_reg_r speed); [exact Hs |]. nra.
Qed.

(** Flight of one launched row under [move] alone. *)
Lemma flight (cfg : CONFIG) (x0 x1 : R) :
  0 < SPEED cfg -> 0 < HEIGHT cfg ->
  let m0 := new_missile cfg x0 x1 in
  let N := ticks_to_target cfg m0 in
  (1 <= N)%nat /\
  (forall j, (j < N)%nat ->
     ~ at_target (Nat.iter j move m0) /\
     dist_to_target (Nat.iter (S j) move m0) < dist_to_target (Nat.iter j move m0)) /\
  at_target (Nat.iter N move m0) /\
  (forall j, dist_to_target (Nat.iter (S j) move m0)
             <= dist_to_target (Nat.iter j move m0)).
Proof.
  intros Hs Hh m0 N.
  set (n := norm x0 (HEIGHT cfg) x1 0).
  assert (Hn : 0 < n) by (apply norm_pos; lra).
  assert (Hk : 0 < SPEED cfg / n) by (apply Rdiv_lt_0_compat; assumption).
  assert (HN : forall j, (j < N)%nat <-> INR j * (SPEED cfg / n) < 1).
  { intros j. unfold N, ticks_to_target, distance, m0. cbn [init_x init_y final_x
      final_y new_missile]. now apply before_arrival. }
  assert (Hpos : forall j,
            cur_x (Nat.iter j move m0)
              = x1 - (x1 - x0) * Rmax 0 (1 - INR j * (SPEED cfg / n)) /\
            cur_y (Nat.iter j move m0)
              = 0 - (0 - HEIGHT cfg) * Rmax 0 (1 - INR j * (SPEED cfg / n)) /\
            dist_to_target (Nat.iter j move m0)
              = n * Rmax 0 (1 - INR j * (SPEED cfg / n))).
  { intros j. now apply launched_position. }
  assert (Hfin : forall j, final_x (Nat.iter j move m0) = x1 /\
                           final_y (Nat.iter j move m0) = 0).
  { intros j. destruct (iter_move_static j m0) as (_ & _ & Efx & Efy & _).
    now rewrite Efx, Efy. }
  split; [| split; [| split]].
  - assert (H0 : (0 < N)%nat) by (apply HN; cbn; lra). lia.
  - intros j Hj. apply HN in Hj.
    destruct (Hpos j) as (_ & Ey & Ed). destruct (Hpos (S j)) as (_ & _ & Ed').
    destruct (Hfin j) as [_ Efy].
    split.
    + intros [_ Hy]. rewrite Efy, Ey in Hy.
      rewrite Rmax_right in Hy by lra. nra.
    + rewrite Ed, Ed', S_INR. apply Rmult_lt_compat_l; [exact Hn |].
      rewrite (Rmax_right 0 (1 - INR j * _)) by lra.
      apply Rmax_lub_lt; lra.
  - assert (HNN : ~ INR N * (SPEED cfg / n) < 1).
    { intros H. apply HN in H. lia. }
    destruct (Hpos N) as (Ex & Ey & _). destruct (Hfin N) as [Efx Efy].
    unfold at_target. rewrite Efx, Efy, Ex, Ey.
    rewrite Rmax_left by lra. split; ring.
  - intros j. destruct (Hpos j) as (_ & _ & Ed). destruct (Hpos (S j)) as (_ & _ & Ed').
    rewrite Ed, Ed', S_INR. apply Rmult_le_compat_l; [lra |].
    apply Rmax_lub; [apply Rmax_l |].
    eapply Rle_trans; [| apply Rmax_r]. lra.
Qed.

(** A row that [move] does not bring onto its target is still there,
    moved, after the tick. *)
Lemma step_keeps_moving {P : PRNG} cfg action (s : EnemyMissiles P) (m : missile) :
  In m (enemy_missiles s) -> ~ at_target (move m) ->
  In (move m) (enemy_missiles (exec (step cfg action) s)).
Proof.
  intros Hin Hn. rewrite step_missiles. apply filter_In. split.
  - apply in_or_app. left. now apply in_map.
  - destruct (hit (move m)) eqn:Hh; [| reflexivity].
    apply hit_spec in Hh. contradiction.
Qed.

(** In exact arithmetic, let the speed and the height be strictly
    positive.  A missile launched in some tick is among the active rows
    that tick leaves.
    With [N = ceil(distance / speed)], [distance] being the Euclidean
    distance from its start to its target: [N >= 1]; after each of the
    next [j < N] ticks it is still active, moved [j] times, not on its
    target, and its next move brings it strictly closer to the target;
    the movement phase of the [N]-th further tick puts it on its target
    on both axes exactly; and no move ever takes it farther from the
    target. *)
Theorem launched_missile_reaches_target {P : PRNG} (cfg : CONFIG) (action : Z)
    (act : nat -> Z) (s0 : EnemyMissiles P) (m0 : missile) :
  0 < SPEED cfg -> 0 < HEIGHT cfg ->
  In m0 (launched_by cfg s0) ->
  let s := exec (step cfg action) s0 in
  let N := ticks_to_target cfg m0 in
  (1 <= N)%nat /\
  (forall j, (j < N)%nat ->
     In (Nat.iter j move m0) (enemy_missiles (run cfg act j s)) /\
     ~ at_target (Nat.iter j move m0) /\
     dist_to_target (Nat.iter (S j) move m0) < dist_to_target (Nat.iter j move m0)) /\
  In (Nat.iter N move m0)
     (enemy_missiles (exec moving_missiles (run cfg act (N - 1) s))) /\
  at_target (Nat.iter N move m0) /\
  (forall j, dist_to_target (Nat.iter (S j) move m0)
             <= dist_to_target (Nat.iter j move m0)).
Proof.
  intros Hs Hh Hin s N.
  assert (Hm0 : exists x0 x1, m0 = new_missile cfg x0 x1).
  { destruct (launched_by_cases cfg s0) as [E | (_ & x0 & x1 & E)];
      rewrite E in Hin; [contradiction |].
    destruct Hin as [<- | []]. eauto. }
  destruct Hm0 as (x0 & x1 & Em0).
  destruct (flight cfg x0 x1 Hs Hh) as (HN & Hbefore & Hat & Hmono).
  rewrite <- Em0 in HN, Hbefore, Hat, Hmono. fold N in HN, Hbefore, Hat.
  assert (Hactive : forall j, (j < N)%nat ->
            In (Nat.iter j move m0) (enemy_missiles (run cfg act j s))).
  { induction j; intros Hj.
    - cbn. unfold s. rewrite step_missiles. apply filter_In. split.
      + apply in_or_app. now right.
      + rewrite Em0, hit_false_y by (cbn; lra). reflexivity.
    - cbn [run]. change (Nat.iter (S j) move m0) with (move (Nat.iter j move m0)).
      apply step_keeps_moving; [apply IHj; lia |].
      apply (Hbefore (S j) Hj). }
  split; [exact HN |]. split; [| split; [| split]].
  - intros j Hj. split; [now apply Hactive |]. now apply Hbefore.
  - clearbody N. destruct N as [| k]; [lia |].
    replace (S k - 1)%nat with k by lia.
    change (Nat.iter (S k) move m0) with (move (Nat.iter k move m0)).
    rewrite exec_moving_missiles. cbn. apply in_map. apply Hactive. lia.
  - exact Hat.
  - exact Hmono.
Qed.

Lemma ceil_IZR (z : Z) : ceil (IZR z) = z.
Proof.
  unfold ceil. rewrite <- opp_IZR.
  rewrite <- (tech_up (IZR (- z)) (- z + 1)).
  - lia.
  - rewrite plus_IZR. lra.
  - rewrite plus_IZR. lra.
Qed.

(** The scenario: a missile launched at height 10 with speed 2 straight
    down needs 5 ticks. *)
Lemma launched_missile_reaches_target_witness :
  ticks_to_target scenario_cfg (new_missile scenario_cfg (-10) (-10)) = 5%nat /\
  at_target (Nat.iter 5 move (new_missile scenario_cfg (-10) (-10))) /\
  ~ at_target (Nat.iter 4 move (new_missile scenario_cfg (-10) (-10))).
Proof.
  set (m0 := new_missile scenario_cfg (-10) (-10)).
  assert (Hs : 0 < SPEED scenario_cfg) by (cbn; lra).
  assert (Hh : 0 < HEIGHT scenario_cfg) by (cbn; lra).
  assert (Hin : In m0 (launched_by scenario_cfg scenario_start)).
  { rewrite counting_launched_by by (cbn; try lia; lra).
    left. unfold m0. cbn [scenario_start reset curriculum default_curriculum
      start_pos_range end_pos_range full_range fst snd WIDTH scenario_cfg].
    f_equal; lra. }
  assert (HN : ticks_to_target scenario_cfg m0 = 5%nat).
  { unfold ticks_to_target, distance, m0. cbn [init_x init_y final_x final_y
      new_missile scenario_cfg HEIGHT SPEED].
    rewrite norm_vertical. rewrite Rabs_left by lra.
    replace (- (0 - 10) / 2) with (IZR 5) by lra.
    rewrite ceil_IZR. reflexivity. }
  destruct (launched_missile_reaches_target scenario_cfg 0 (fun _ => 0%Z)
              scenario_start m0 Hs Hh Hin) as (_ & Hb & _ & Hat & _).
  rewrite HN in Hb, Hat.
  split; [exact HN |]. split; [exact Hat |]. apply (Hb 4%nat). lia.
Defined.

(** * Further properties of the enemy missiles *)

(** ** What a tick draws and launches *)

Lemma Rleb_false_gt a b : b < a -> Rleb a b = false.
Proof. intros H. unfold Rleb. destruct (Rle_dec a b); [lra | reflexivity]. Qed.

Section Draws.

Context {P : PRNG}.
Implicit Types (s : EnemyMissiles P) (cfg : CONFIG).

Lemma potentially_launch_exact cfg s :
  potentially_launch cfg s =
  Ok tt
    (if (nb_missiles_launched s <? NUMBER cfg)%nat
     then if Rleb (draw P 0 (_rng_python s)) (PROBA_IN cfg)
          then {| curriculum := curriculum s;
                  enemy_missiles :=
                    enemy_missiles s ++
                    [new_missile cfg
                       (scaled cfg (start_pos_range (curriculum s))
                               (draw P 1 (_rng_python s)))
                       (scaled cfg (end_pos_range (curriculum s))
                               (draw P 2 (_rng_python s)))];
                  nb_missiles_launched := nb_missiles_launched s + 1;
                  _rng_python := after_draws P 3 (_rng_python s) |}
          else set_rng_python (after_draws P 1 (_rng_python s)) s
     else s).
Proof.
  unfold potentially_launch, bind, gets.
  destruct (nb_missiles_launched s <? NUMBER cfg)%nat; [| reflexivity].
  rewrite rng_random_eq. unfold draw, after_draws. cbn [Nat.iter].
  destruct (Rleb _ _); [| reflexivity].
  unfold _launch_missile, rng_uniform, bind, gets, modify, ret.
  rewrite rng_random_eq. cbn [curriculum set_rng_python _rng_python].
  rewrite rng_random_eq. reflexivity.
Qed.

Lemma launched_by_exact cfg s :
  launched_by cfg s =
  if (nb_missiles_launched s <? NUMBER cfg)%nat
       && Rleb (draw P 0 (_rng_python s)) (PROBA_IN cfg)
  then [new_missile cfg
          (scaled cfg (start_pos_range (curriculum s)) (draw P 1 (_rng_python s)))
          (scaled cfg (end_pos_range (curriculum s)) (draw P 2 (_rng_python s)))]
  else [].
Proof.
  unfold launched_by, exec. rewrite potentially_launch_exact.
  change (moving_missiles s) with
    (Ok (A := unit) tt (set_enemy_missiles (map move (enemy_missiles s)) s)).
  cbn [nb_missiles_launched set_enemy_missiles _rng_python curriculum].
  assert (Hnone : skipn (length (enemy_missiles s)) (map move (enemy_missiles s)) = []).
  { apply skipn_all2. now rewrite length_map. }
  destruct (nb_missiles_launched s <? NUMBER cfg)%nat; cbn [andb].
  - destruct (Rleb _ _); cbn [enemy_missiles set_rng_python].
    + cbn. now rewrite skipn_length_app by now rewrite length_map.
    + exact Hnone.
  - exact Hnone.
Qed.

Lemma step_generator cfg action s :
  _rng_python (exec (step cfg action) s) =
  if (nb_missiles_launched s <? NUMBER cfg)%nat
  then if Rleb (draw P 0 (_rng_python s)) (PROBA_IN cfg)
       then after_draws P 3 (_rng_python s)
       else after_draws P 1 (_rng_python s)
  else _rng_python s.
Proof.
  unfold exec, step, moving_missiles, remove_missiles.
  unfold bind at 1. unfold modify at 1. unfold bind at 1.
  rewrite potentially_launch_exact.
  cbn [nb_missiles_launched set_enemy_missiles _rng_python curriculum].
  destruct (nb_missiles_launched s <? NUMBER cfg)%nat.
  - destruct (Rleb _ _); reflexivity.
  - reflexivity.
Qed.

End Draws.

(** X1.  What one [step] draws from the generator and what it launches.
    At or above the configured number it draws nothing and launches
    nothing.  Below it, it draws once; if that draw exceeds [PROBA_IN]
    nothing is launched and nothing more is drawn; otherwise two more
    draws are made, the first placing the start in the active start
    range and the second placing the target in the active end range
    (each scaled by [WIDTH]), and that one missile is launched. *)
Theorem step_draws_and_launch {P : PRNG} (cfg : CONFIG) (action : Z)
    (s : EnemyMissiles P) :
  ((NUMBER cfg <= nb_missiles_launched s)%nat ->
     launched_by cfg s = [] /\
     _rng_python (exec (step cfg action) s) = _rng_python s) /\
  ((nb_missiles_launched s < NUMBER cfg)%nat ->
   PROBA_IN cfg < draw P 0 (_rng_python s) ->
     launched_by cfg s = [] /\
     _rng_python (exec (step cfg action) s) = after_draws P 1 (_rng_python s)) /\
  ((nb_missiles_launched s < NUMBER cfg)%nat ->
   draw P 0 (_rng_python s) <= PROBA_IN cfg ->
     launched_by cfg s =
       [new_missile cfg
          (scaled cfg (start_pos_range (curriculum s)) (draw P 1 (_rng_python s)))
          (scaled cfg (end_pos_range (curriculum s)) (draw P 2 (_rng_python s)))] /\
     _rng_python (exec (step cfg action) s) = after_draws P 3 (_rng_python s)).
Proof.
  rewrite launched_by_exact, step_generator.
  split; [| split].
  - intros H. apply Nat.ltb_ge in H. rewrite H. auto.
  - intros H Hp. apply Nat.ltb_lt in H. rewrite H, Rleb_false_gt by exact Hp. auto.
  - intros H Hp. apply Nat.ltb_lt in H. rewrite H, Rleb_true by exact Hp. auto.
Qed.

(** The first tick of the scenario on the counting generator: three
    draws, one launch from [x = -10] to [x = -10]. *)
Lemma step_draws_and_launch_witness :
  launched_by scenario_cfg scenario_start
    = [new_missile scenario_cfg
         (scaled scenario_cfg full_range 0) (scaled scenario_cfg full_range 0)] /\
  _rng_python (exec (step scenario_cfg 0) scenario_start) = 45%Z.
Proof.
  apply (step_draws_and_launch scenario_cfg 0 scenario_start).
  - cbn. lia.
  - cbn. lra.
Defined.

(** ** Ranges within [[-0.5, 0.5]], launches within the width *)


Lemma draw_range {P : PRNG} (k : nat) (g : gen P) : 0 <= draw P k g < 1.
Proof. unfold draw. apply random_range. Qed.

Lemma full_range_valid : range_valid full_range.
Proof. unfold range_valid, full_range. cbn. lra. Qed.

Lemma exec_set_start_pos_range (l r : R) (c : Curriculum) :
  exec (set_start_pos_range l r) c = c \/
  (range_valid (l, r) /\
   exec (set_start_pos_range l r) c = assign_start_pos_range (l, r) c).
Proof.
  unfold exec.
  destruct (set_start_pos_range_cases l r c) as [(Hl & Hr & E) | (_ & E)];
    rewrite E; [right | left]; auto.
  split; [split; assumption | reflexivity].
Qed.

Lemma exec_set_end_pos_range (l r : R) (c : Curriculum) :
  exec (set_end_pos_range l r) c = c \/
  (range_valid (l, r) /\
   exec (set_end_pos_range l r) c = assign_end_pos_range (l, r) c).
Proof.
  unfold exec.
  destruct (set_end_pos_range_cases l r c) as [(Hl & Hr & E) | (_ & E)];
    rewrite E; [right | left]; auto.
  split; [split; assumption | reflexivity].
Qed.

Lemma Forall_tl {A} (Q : A -> Prop) (l : list A) : Forall Q l -> Forall Q (tl l).
Proof. intros H. destruct H; [constructor | assumption]. Qed.

Lemma Forall_hd {A} (Q : A -> Prop) (d : A) (l : list A) :
  Q d -> Forall Q l -> Q (hd d l).
Proof. intros Hd H. destruct H; assumption. Qed.

(** X3.  The active ranges and the ranges still queued all lie in
    [[-0.5, 0.5]] after [__init__] when every configured entry does (the
    default entry does), and this is kept by [advance_curriculum] and by
    [set_start_pos_range] and [set_end_pos_range], whether these two
    return or raise: [__init__] and [advance_curriculum] check nothing,
    so the bound on the active range rests on the configured entries. *)
Theorem valid_ranges_kept (cfg : CONFIG) (c : Curriculum) (l r : R) :
  (__init__ cfg = inr c ->
   Forall range_valid (or_default (START_POS_RANGE_CUR cfg)) ->
   Forall range_valid (or_default (END_POS_RANGE_CUR cfg)) ->
   ranges_valid c) /\
  (ranges_valid c ->
   ranges_valid (exec advance_curriculum c) /\
   ranges_valid (exec (set_start_pos_range l r) c) /\
   ranges_valid (exec (set_end_pos_range l r) c)).
Proof.
  split.
  - intros Hinit Hs He. destruct (init_queues cfg c Hinit) as [Es Ee].
    rewrite <- Es in Hs. rewrite <- Ee in He.
    apply Forall_cons_iff in Hs as [Hs1 Hs2].
    apply Forall_cons_iff in He as [He1 He2].
    unfold ranges_valid. auto.
  - intros (Hs & He & Hsq & Heq). split; [| split].
    + rewrite exec_advance_curriculum. unfold ranges_valid. cbn.
      split; [apply Forall_hd; [apply full_range_valid | exact Hsq] |].
      split; [apply Forall_hd; [apply full_range_valid | exact Heq] |].
      split; apply Forall_tl; assumption.
    + destruct (exec_set_start_pos_range l r c) as [E | [Hv E]]; rewrite E;
        unfold ranges_valid; cbn; auto.
    + destruct (exec_set_end_pos_range l r c) as [E | [Hv E]]; rewrite E;
        unfold ranges_valid; cbn; auto.
Qed.

(** The curriculum of three configured ranges. *)
Lemma valid_ranges_kept_witness :
  exists c : Curriculum,
    __init__ curriculum_cfg = inr c /\
    ranges_valid c /\
    ranges_valid (exec advance_curriculum c) /\
    ranges_valid (exec (set_start_pos_range 0.7 0) c).
Proof.
  exists {| start_pos_range_cur := [(-0.3, 0.3); (-0.5, 0.5)];
            end_pos_range_cur := [];
            start_pos_range := (-0.1, 0.1);
            end_pos_range := (-0.2, 0.2) |}.
  split; [reflexivity |].
  destruct (valid_ranges_kept curriculum_cfg
              {| start_pos_range_cur := [(-0.3, 0.3); (-0.5, 0.5)];
                 end_pos_range_cur := [];
                 start_pos_range := (-0.1, 0.1);
                 end_pos_range := (-0.2, 0.2) |} 0.7 0) as [Hinit Hkeep].
  assert (Hc : ranges_valid
                 {| start_pos_range_cur := [(-0.3, 0.3); (-0.5, 0.5)];
                    end_pos_range_cur := [];
                    start_pos_range := (-0.1, 0.1);
                    end_pos_range := (-0.2, 0.2) |}).
  { apply Hinit; [reflexivity | |]; cbn; unfold three_ranges;
      repeat constructor; cbn; lra. }
  split; [exact Hc |]. split; apply Hkeep; exact Hc.
Defined.






(** ** Counting rows *)

Lemma filter_length_le {A} (f : A -> bool) (l : list A) :
  (length (filter f l) <= length l)%nat.
Proof.
  induction l as [| a l IH]; cbn; [lia |]. destruct (f a); cbn; lia.
Qed.

Lemma step_active_length {P : PRNG} cfg action (s : EnemyMissiles P) :
  (length (enemy_missiles (exec (step cfg action) s))
   <= length (enemy_missiles s) + length (launched_by cfg s))%nat.
Proof.
  rewrite step_missiles.
  eapply Nat.le_trans; [apply filter_length_le |].
  rewrite length_app, length_map. lia.
Qed.

(** X5.  In every reachable object the active missiles are at most as
    many as the missiles launched, which are at most the configured
    number; and a [step] adds at most one active missile. *)
Theorem active_at_most_launched {P : PRNG} (cfg : CONFIG) (s : EnemyMissiles P) :
  reachable cfg s ->
  (length (enemy_missiles s) <= nb_missiles_launched s <= NUMBER cfg)%nat /\
  forall action : Z,
    (length (enemy_missiles (exec (step cfg action) s))
     <= length (enemy_missiles s) + 1)%nat.
Proof.
  intros Hr. split.
  - split; [| now apply reachable_count].
    induction Hr.
    + cbn. lia.
    + cbn. lia.
    + rewrite step_count.
      pose proof (step_active_length cfg action s). lia.
    + now rewrite on_curriculum_missiles, on_curriculum_count.
    + now rewrite on_curriculum_missiles, on_curriculum_count.
    + now rewrite on_curriculum_missiles, on_curriculum_count.
  - intros action.
    pose proof (step_active_length cfg action s).
    destruct (launched_by_length cfg s) as [Hlen _]. lia.
Qed.

(** The scenario after its first tick. *)
Lemma active_at_most_launched_witness :
  (length (enemy_missiles scenario_flying)
   <= nb_missiles_launched scenario_flying <= 1)%nat.
Proof.
  apply (active_at_most_launched scenario_cfg scenario_flying).
  apply reach_step, reach_reset.
Defined.

(** ** The shape of a row *)

Lemma iter_move_launched_row (cfg : CONFIG) (m : missile) :
  launched_row cfg m -> launched_row cfg (move m).
Proof.
  intros (j & x0 & x1 & ->). exists (S j), x0, x1. reflexivity.
Qed.

Lemma reachable_launched_rows {P : PRNG} cfg (s : EnemyMissiles P) :
  reachable cfg s -> Forall (launched_row cfg) (enemy_missiles s).
Proof.
  induction 1.
  - constructor.
  - constructor.
  - rewrite step_missiles. apply Forall_forall. intros m Hin.
    apply filter_In in Hin as [Hin _]. apply in_app_or in Hin as [Hin | Hin].
    + apply in_map_iff in Hin as (m' & <- & Hin').
      apply iter_move_launched_row.
      rewrite Forall_forall in IHreachable. now apply IHreachable.
    + destruct (launched_by_cases cfg s) as [E | (_ & x0 & x1 & E)];
        rewrite E in Hin; [contradiction |].
      destruct Hin as [<- | []]. exists 0%nat, x0, x1. reflexivity.
  - now rewrite on_curriculum_missiles.
  - now rewrite on_curriculum_missiles.
  - now rewrite on_curriculum_missiles.
Qed.

(** ** Launch probability at its ends *)

Section Probability.

Context {P : PRNG}.
Implicit Types (s : EnemyMissiles P) (cfg : CONFIG).

Lemma run_count_never cfg act n s :
  PROBA_IN cfg < 0 ->
  nb_missiles_launched (run cfg act n s) = nb_missiles_launched s /\
  (enemy_missiles s = [] -> enemy_missiles (run cfg act n s) = []).
Proof.
  intros Hp. induction n as [| n [IHc IHm]]; [split; auto |].
  cbn [run].
  assert (Hl : launched_by cfg (run cfg act n s) = []).
  { rewrite launched_by_exact. rewrite Rleb_false_gt.
    - now rewrite andb_false_r.
    - pose proof (@draw_range P 0 (_rng_python (run cfg act n s))). lra. }
  rewrite step_count, step_missiles, Hl. cbn [length]. split; [lia |].
  intros Hm. rewrite (IHm Hm). reflexivity.
Qed.

Lemma run_count_sure cfg act n s :
  1 <= PROBA_IN cfg ->
  (nb_missiles_launched s <= NUMBER cfg)%nat ->
  nb_missiles_launched (run cfg act n s)
    = Nat.min (nb_missiles_launched s + n) (NUMBER cfg).
Proof.
  intros Hp Hle. induction n as [| n IH]; cbn [run].
  - rewrite Nat.add_0_r. lia.
  - rewrite step_count, IH.
    destruct (Nat.lt_ge_cases (nb_missiles_launched s + n) (NUMBER cfg)) as [Hlt | Hge].
    + destruct (launched_by_sure cfg (run cfg act n s)) as (x0 & x1 & E);
        [rewrite IH; lia | exact Hp |].
      rewrite E. cbn [length]. lia.
    + destruct (launched_by_cases cfg (run cfg act n s)) as [E | (Hlt & _)].
      * rewrite E. cbn [length]. lia.
      * rewrite IH in Hlt. lia.
Qed.

End Probability.

(** X7.  With a launch probability below 0 no missile is ever launched:
    after [reset] the count stays 0 and there is never an active
    missile, so every [step] returns [done = True] when the configured
    number is 0 and [done = False] otherwise: an episode with missiles
    to launch never ends. *)
Theorem negative_probability_never_launches {P : PRNG} (cfg : CONFIG)
    (c : Curriculum) (seed : Z) (act : nat -> Z) (n : nat) :
  PROBA_IN cfg < 0 ->
  nb_missiles_launched (run cfg act n (reset (P := P) c seed)) = 0%nat /\
  enemy_missiles (run cfg act n (reset (P := P) c seed)) = [] /\
  done_at cfg act n (reset (P := P) c seed) = Some (0 =? NUMBER cfg)%nat.
Proof.
  intros Hp.
  destruct (run_count_never cfg act n (reset (P := P) c seed) Hp) as [Hc Hm].
  destruct (run_count_never cfg act (S n) (reset (P := P) c seed) Hp) as [Hc' Hm'].
  split; [exact Hc |]. split; [now apply Hm |].
  unfold done_at. rewrite step_result.
  change (exec (step cfg (act n)) (run cfg act n (reset (P := P) c seed)))
    with (run cfg act (S n) (reset (P := P) c seed)).
  rewrite Hc', Hm' by reflexivity. reflexivity.
Qed.

(** Probability [-1], three missiles configured, eight ticks. *)
Lemma negative_probability_never_launches_witness :
  done_at never_cfg (fun _ => 0%Z) 8 (reset (P := counting_prng) default_curriculum 42)
    = Some false.
Proof.
  apply (negative_probability_never_launches (P := counting_prng) never_cfg
           default_curriculum 42 (fun _ => 0%Z) 8).
  cbn. lra.
Defined.

(** X8.  With a launch probability of at least 1 one missile is
    launched in every tick until the configured number is reached:
    [n] ticks after [reset] the count is the smaller of [n] and
    [NUMBER]. *)
Theorem sure_probability_launches_every_tick {P : PRNG} (cfg : CONFIG)
    (c : Curriculum) (seed : Z) (act : nat -> Z) (n : nat) :
  1 <= PROBA_IN cfg ->
  nb_missiles_launched (run cfg act n (reset (P := P) c seed))
    = Nat.min n (NUMBER cfg).
Proof.
  intros Hp. rewrite run_count_sure by (try exact Hp; cbn; lia). reflexivity.
Qed.

(** The scenario: one missile configured, four ticks. *)
Lemma sure_probability_launches_every_tick_witness :
  nb_missiles_launched (run scenario_cfg (fun _ => 0%Z) 4 scenario_start) = 1%nat.
Proof.
  apply (sure_probability_launches_every_tick (P := counting_prng) scenario_cfg
           default_curriculum 42 (fun _ => 0%Z) 4).
  cbn. lra.
Defined.

(** ** How long an episode lasts *)

Lemma run_count_le {P : PRNG} cfg act n (s : EnemyMissiles P) :
  (nb_missiles_launched (run cfg act n s) <= nb_missiles_launched s + n)%nat.
Proof.
  induction n as [| n IH]; cbn [run]; [lia |].
  rewrite step_count.
  destruct (launched_by_length cfg (run cfg act n s)) as [Hlen _]. lia.
Qed.

(** X9.  With a height other than 0 and at least one missile
    configured, [done] is not returned before tick [NUMBER + 1] after
    [reset]: the count grows by at most one per tick, and the tick that
    launches the last missile leaves it active. *)
Theorem episode_lasts_beyond_number {P : PRNG} (cfg : CONFIG) (c : Curriculum)
    (seed : Z) (act : nat -> Z) (n : nat) :
  HEIGHT cfg <> 0 ->
  (0 < NUMBER cfg)%nat ->
  done_at cfg act n (reset (P := P) c seed) = Some true ->
  (NUMBER cfg <= n)%nat.
Proof.
  intros Hh Hnum Hd.
  set (s0 := reset (P := P) c seed) in *.
  unfold done_at in Hd. rewrite step_result in Hd.
  injection Hd as Hd. apply andb_true_iff in Hd as [Hm Hc].
  apply Nat.eqb_eq in Hm, Hc. apply length_zero_iff_nil in Hm.
  destruct (Nat.le_gt_cases (NUMBER cfg) n) as [Hle | Hgt]; [exact Hle | exfalso].
  pose proof (run_count_le cfg act n s0) as Hn. cbn in Hn.
  rewrite step_count in Hc.
  destruct (launched_by_cases cfg (run cfg act n s0)) as [E | (_ & x0 & x1 & E)].
  - rewrite E in Hc. cbn in Hc. lia.
  - rewrite step_missiles, E in Hm.
    assert (Hin : In (new_missile cfg x0 x1)
                     (filter (fun m => negb (hit m))
                        (map move (enemy_missiles (run cfg act n s0))
                         ++ [new_missile cfg x0 x1]))).
    { apply filter_In. split.
      - apply in_or_app. right. now left.
      - rewrite hit_false_y by (cbn; lra). reflexivity. }
    rewrite Hm in Hin. contradiction.
Qed.

(** The scenario: [done] comes with the sixth tick, after the first. *)
Lemma episode_lasts_beyond_number_witness : (NUMBER scenario_cfg <= 5)%nat.
Proof.
  apply (episode_lasts_beyond_number (P := counting_prng) scenario_cfg
           default_curriculum 42 (fun _ => 0%Z) 5).
  - cbn. lra.
  - cbn. lia.
  - destruct (scenario_ticks (P := counting_prng) scenario_cfg default_curriculum 42
                (fun _ => 0%Z) eq_refl eq_refl eq_refl eq_refl
                (scenario_start_vertical (fun _ => 0%Z)))
      as (xc & _ & _ & _ & _ & _ & _ & _ & _ & _ & _ & Dt).
    apply Dt. lia.
Defined.

(** ** Speed 0 *)

Lemma new_missile_still (cfg : CONFIG) (x0 x1 : R) :
  SPEED cfg = 0 -> move (new_missile cfg x0 x1) = new_missile cfg x0 x1.
Proof.
  intros Hs. unfold move, new_missile.
  cbn [init_x init_y cur_x cur_y final_x final_y vx vy].
  rewrite Hs, !Rmult_0_l, sign_zero. f_equal; lra.
Qed.

Lemma launched_row_still (cfg : CONFIG) (m : missile) :
  SPEED cfg = 0 -> launched_row cfg m -> exists x0 x1, m = new_missile cfg x0 x1.
Proof.
  intros Hs (j & x0 & x1 & ->). exists x0, x1.
  induction j; [reflexivity |].
  change (Nat.iter (S j) move (new_missile cfg x0 x1))
    with (move (Nat.iter j move (new_missile cfg x0 x1))).
  rewrite IHj. now apply new_missile_still.
Qed.

(** X14.  With speed 0 and a height other than 0 a missile never moves
    and never lands: an active missile of a reachable object is still
    there, unchanged, after any number of ticks, and every [step]
    returns [done = False]. *)
Theorem zero_speed_never_ends {P : PRNG} (cfg : CONFIG) (act : nat -> Z)
    (s : EnemyMissiles P) (m : missile) :
  SPEED cfg = 0 -> HEIGHT cfg <> 0 ->
  reachable cfg s ->
  In m (enemy_missiles s) ->
  forall n : nat,
    In m (enemy_missiles (run cfg act n s)) /\
    done_at cfg act n s = Some false.
Proof.
  intros Hs Hh Hr Hin.
  pose proof (reachable_launched_rows cfg s Hr) as Hrows.
  rewrite Forall_forall in Hrows.
  destruct (launched_row_still cfg m Hs (Hrows m Hin)) as (x0 & x1 & Em).
  assert (Hmove : move m = m) by (rewrite Em; now apply new_missile_still).
  assert (Hnot : ~ at_target m)
    by (rewrite Em; now apply new_missile_not_at_target).
  assert (Hall : forall n, In m (enemy_missiles (run cfg act n s))).
  { induction n; [exact Hin |]. cbn [run].
    rewrite <- Hmove at 1. apply step_keeps_moving; [exact IHn |].
    now rewrite Hmove. }
  intros n. split; [apply Hall |].
  unfold done_at. rewrite step_result.
  change (exec (step cfg (act n)) (run cfg act n s)) with (run cfg act (S n) s).
  pose proof (Hall (S n)) as HS.
  destruct (enemy_missiles (run cfg act (S n) s)); [contradiction | reflexivity].
Qed.

(** Speed 0: the missile launched in the first tick stays at height 10. *)
Lemma zero_speed_never_ends_witness :
  done_at still_cfg (fun _ => 0%Z) 9
    (exec (step still_cfg 0) (reset (P := counting_prng) default_curriculum 42))
  = Some false.
Proof.
  assert (Hin : In (new_missile still_cfg
                      (scaled still_cfg full_range 0) (scaled still_cfg full_range 0))
                   (enemy_missiles
                      (exec (step still_cfg 0)
                         (reset (P := counting_prng) default_curriculum 42)))).
  { rewrite step_missiles, counting_launched_by by (cbn; try lia; lra).
    apply filter_In. split.
    - left. reflexivity.
    - rewrite hit_false_y by (cbn; lra). reflexivity. }
  apply (zero_speed_never_ends still_cfg (fun _ => 0%Z) _ _ eq_refl) with (n := 9%nat)
    in Hin.
  - apply Hin.
  - cbn. lra.
  - apply reach_step, reach_reset.
Defined.

(** * Further properties of the curriculum *)

(** X16.  [__init__] raises exactly when a configured queue is the empty
    list, and then it is [IndexError]; with both queues unconfigured it
    starts from the full range with nothing queued.  On success the
    active range and the queue of each kind are the head and the tail
    of what was configured. *)
Theorem init_raises_on_empty_queue (cfg : CONFIG) :
  (__init__ cfg = inl IndexError <->
   START_POS_RANGE_CUR cfg = Some [] \/ END_POS_RANGE_CUR cfg = Some []) /\
  (forall e, __init__ cfg = inl e -> e = IndexError) /\
  (START_POS_RANGE_CUR cfg = None -> END_POS_RANGE_CUR cfg = None ->
   __init__ cfg = inr default_curriculum) /\
  (forall c, __init__ cfg = inr c ->
     start_pos_range c :: start_pos_range_cur c = or_default (START_POS_RANGE_CUR cfg) /\
     end_pos_range c :: end_pos_range_cur c = or_default (END_POS_RANGE_CUR cfg)).
Proof.
  split; [| split; [| split]].
  - unfold __init__.
    destruct (START_POS_RANGE_CUR cfg) as [[| sr sq] |];
      destruct (END_POS_RANGE_CUR cfg) as [[| er eq] |]; cbn;
      split; intros H; auto; try discriminate;
      destruct H as [H | H]; discriminate.
  - unfold __init__. intros e.
    destruct (pop0 _) as [[sr sq] |]; [| congruence].
    destruct (pop0 _) as [[er eq] |]; congruence.
  - intros Hs He. unfold __init__. rewrite Hs, He. reflexivity.
  - apply init_queues.
Qed.

(** A configured empty start queue. *)
Lemma init_raises_on_empty_queue_witness :
  __init__ {| WIDTH := 20; HEIGHT := 10; NUMBER := 1; PROBA_IN := 1; SPEED := 2;
              START_POS_RANGE_CUR := Some []; END_POS_RANGE_CUR := None |}
  = inl IndexError.
Proof.
  apply (init_raises_on_empty_queue
           {| WIDTH := 20; HEIGHT := 10; NUMBER := 1; PROBA_IN := 1; SPEED := 2;
              START_POS_RANGE_CUR := Some []; END_POS_RANGE_CUR := None |}).
  left. reflexivity.
Defined.

Lemma exec_set_start_queues (l r : R) (c : Curriculum) :
  start_pos_range_cur (exec (set_start_pos_range l r) c) = start_pos_range_cur c /\
  end_pos_range_cur (exec (set_start_pos_range l r) c) = end_pos_range_cur c /\
  end_pos_range (exec (set_start_pos_range l r) c) = end_pos_range c.
Proof.
  destruct (exec_set_start_pos_range l r c) as [E | [_ E]]; rewrite E; auto.
Qed.

Lemma exec_set_end_queues (l r : R) (c : Curriculum) :
  start_pos_range_cur (exec (set_end_pos_range l r) c) = start_pos_range_cur c /\
  end_pos_range_cur (exec (set_end_pos_range l r) c) = end_pos_range_cur c /\
  start_pos_range (exec (set_end_pos_range l r) c) = start_pos_range c.
Proof.
  destruct (exec_set_end_pos_range l r c) as [E | [_ E]]; rewrite E; auto.
Qed.

(** X17.  A range set directly lasts until the next
    [advance_curriculum]: that call replaces both active ranges from
    the queues (or by the full range), so after it the object is the
    same as if [set_start_pos_range] or [set_end_pos_range] had not been
    called.  The two setters leave the queues and the range of the
    other kind alone.  [advance_curriculum] never raises. *)
Theorem direct_range_lasts_until_advance (l r : R) (c : Curriculum) :
  exec advance_curriculum (exec (set_start_pos_range l r) c)
    = exec advance_curriculum c /\
  exec advance_curriculum (exec (set_end_pos_range l r) c)
    = exec advance_curriculum c /\
  (start_pos_range_cur (exec (set_start_pos_range l r) c) = start_pos_range_cur c /\
   end_pos_range_cur (exec (set_start_pos_range l r) c) = end_pos_range_cur c /\
   end_pos_range (exec (set_start_pos_range l r) c) = end_pos_range c) /\
  (start_pos_range_cur (exec (set_end_pos_range l r) c) = start_pos_range_cur c /\
   end_pos_range_cur (exec (set_end_pos_range l r) c) = end_pos_range_cur c /\
   start_pos_range (exec (set_end_pos_range l r) c) = start_pos_range c) /\
  result advance_curriculum c = Some tt.
Proof.
  destruct (exec_set_start_queues l r c) as (S1 & S2 & S3).
  destruct (exec_set_end_queues l r c) as (E1 & E2 & E3).
  split; [| split; [| split; [| split]]]; auto.
  - rewrite !exec_advance_curriculum, S1, S2. reflexivity.
  - rewrite !exec_advance_curriculum, E1, E2. reflexivity.
  - destruct c as [sq eq sr er].
    unfold result, advance_curriculum, bind, gets. cbn.
    destruct sq, eq; reflexivity.
Qed.

(** * Properties of the training script *)

Module DqnFacts.

Import String.
Import Dqn.

Local Open Scope Z_scope.

Lemma mod_abs_zero (i s : Z) :
  s <> 0 -> (i mod s =? 0) = (i mod Z.abs s =? 0).
Proof.
  intros Hs.
  destruct (Z.eqb_spec (i mod s) 0) as [E | E];
    destruct (Z.eqb_spec (i mod Z.abs s) 0) as [E' | E']; try reflexivity.
  - exfalso. apply E'. apply Z.mod_divide; [lia |].
    apply Z.divide_abs_l. apply Z.mod_divide; assumption.
  - exfalso. apply E. apply Z.mod_divide; [lia |].
    apply Z.divide_abs_l. apply Z.mod_divide; [lia | assumption].
Qed.

Lemma ceil_div_succ (m k : Z) :
  0 < m -> 0 <= k ->
  (k + 1 + m - 1) / m = (k + m - 1) / m + (if k mod m =? 0 then 1 else 0).
Proof.
  intros Hm Hk.
  pose proof (Z.div_mod k m ltac:(lia)) as Hdm.
  pose proof (Z.mod_pos_bound k m Hm) as Hr.
  destruct (Z.eqb_spec (k mod m) 0) as [E | E].
  - rewrite <- (Z.div_unique (k + 1 + m - 1) m (k / m + 1) 0) by lia.
    rewrite <- (Z.div_unique (k + m - 1) m (k / m) (m - 1)) by lia. lia.
  - rewrite <- (Z.div_unique (k + 1 + m - 1) m (k / m + 1) (k mod m)) by lia.
    rewrite <- (Z.div_unique (k + m - 1) m (k / m + 1) (k mod m - 1)) by lia. lia.
Qed.

Lemma mod_succ (m k : Z) :
  0 < m -> 0 <= k ->
  (k + 1) mod m = if (k + 1) mod m =? 0 then 0 else k mod m + 1.
Proof.
  intros Hm Hk.
  pose proof (Z.div_mod k m ltac:(lia)) as Hdm.
  pose proof (Z.mod_pos_bound k m Hm) as Hr.
  destruct (Z.eqb_spec ((k + 1) mod m) 0) as [E | E]; [exact E |].
  destruct (Z.eq_dec (k mod m + 1) m) as [Em | Em].
  - exfalso. apply E.
    symmetry. apply (Z.mod_unique (k + 1) m (k / m + 1) 0); lia.
  - symmetry. apply (Z.mod_unique (k + 1) m (k / m) (k mod m + 1)); lia.
Qed.

Lemma train_loop_nonzero (args : Args) (indices : list Z) :
  saving_steps args <> 0 ->
  train_loop args indices = (flat_map (train_body args) indices, None).
Proof.
  intros Hs. apply Z.eqb_neq in Hs.
  induction indices as [| i rest IH]; [reflexivity |].
  cbn [train_loop flat_map]. rewrite Hs, IH. reflexivity.
Qed.

Lemma py_range_succ (k : nat) :
  map Z.of_nat (seq 0 (S k)) = map Z.of_nat (seq 0 k) ++ [Z.of_nat k].
Proof. rewrite seq_S, map_app. reflexivity. Qed.

Lemma train_body_trains (args : Args) (i : Z) :
  filter is_train (train_body args i) = [agent_train].
Proof.
  unfold train_body.
  destruct (0 <? verbose args); destruct (i mod saving_steps args =? 0); reflexivity.
Qed.

Lemma train_body_saves (args : Args) (i : Z) :
  filter is_save (train_body args i)
    = if i mod saving_steps args =? 0 then [agent_save] else [].
Proof.
  unfold train_body.
  destruct (0 <? verbose args); destruct (i mod saving_steps args =? 0); reflexivity.
Qed.

Lemma train_body_unsaved (args : Args) (i : Z) (t : nat) :
  fold_left (fun n c => match c with
                        | agent_save => O
                        | agent_train => S n
                        | _ => n
                        end) (train_body args i) t
    = if i mod saving_steps args =? 0 then O else S t.
Proof.
  unfold train_body.
  destruct (0 <? verbose args); destruct (i mod saving_steps args =? 0); reflexivity.
Qed.

Lemma create_agent_quiet (D : config) (args : Args) :
  filter is_train (create_agent D args) = [] /\
  filter is_save (create_agent D args) = [] /\
  forall t, fold_left (fun n c => match c with
                                  | agent_save => O
                                  | agent_train => S n
                                  | _ => n
                                  end) (create_agent D args) t = t.
Proof.
  unfold create_agent. cbn.
  destruct (checkpoint args) as [p |]; [destruct (negb (p =? ""%string))%string |];
    destruct (0 <? verbose args); cbn; auto.
Qed.

Lemma loop_trains (args : Args) (k : nat) :
  List.length (filter is_train
                 (flat_map (train_body args) (map Z.of_nat (seq 0 k)))) = k.
Proof.
  induction k as [| k IH]; [reflexivity |].
  rewrite py_range_succ, flat_map_app, filter_app, length_app, IH.
  cbn [flat_map]. rewrite app_nil_r, train_body_trains. cbn. lia.
Qed.

Lemma loop_saves (args : Args) (k : nat) :
  saving_steps args <> 0 ->
  Z.of_nat (List.length (filter is_save
                           (flat_map (train_body args) (map Z.of_nat (seq 0 k)))))
    = (Z.of_nat k + Z.abs (saving_steps args) - 1) / Z.abs (saving_steps args).
Proof.
  intros Hs. induction k as [| k IH].
  - cbn [seq map flat_map filter List.length]. symmetry. apply Z.div_small. lia.
  - rewrite py_range_succ, flat_map_app, filter_app, length_app, Nat2Z.inj_add, IH.
    cbn [flat_map]. rewrite app_nil_r, train_body_saves.
    replace (Z.of_nat (S k)) with (Z.of_nat k + 1) by lia.
    rewrite ceil_div_succ by lia. rewrite (mod_abs_zero _ _ Hs).
    destruct (_ =? 0); reflexivity.
Qed.

Lemma loop_unsaved (args : Args) (k : nat) :
  saving_steps args <> 0 ->
  unsaved (flat_map (train_body args) (map Z.of_nat (seq 0 (S k))))
    = Z.to_nat (Z.of_nat k mod Z.abs (saving_steps args)).
Proof.
  intros Hs. unfold unsaved. induction k as [| k IH].
  - cbn [seq map flat_map]. rewrite app_nil_r, train_body_unsaved.
    rewrite Z.mod_0_l by exact Hs. reflexivity.
  - rewrite py_range_succ, flat_map_app, fold_left_app, IH.
    cbn [flat_map]. rewrite app_nil_r, train_body_unsaved.
    rewrite (mod_abs_zero _ _ Hs).
    replace (Z.of_nat (S k)) with (Z.of_nat k + 1) by lia.
    pose proof (mod_succ (Z.abs (saving_steps args)) (Z.of_nat k)) as Hm.
    destruct (Z.eqb_spec ((Z.of_nat k + 1) mod Z.abs (saving_steps args)) 0) as [E | E].
    + now rewrite E.
    + rewrite Hm by lia.
      pose proof (Z.mod_pos_bound (Z.of_nat k) (Z.abs (saving_steps args))). lia.
Qed.

(** X18.  [train] with [saving_steps] other than 0 returns normally.
    After [ray.init()] and [create_agent] it runs the loop body once
    for each index of [range(training_steps)]: it calls [agent.train()]
    [training_steps] times (never, when that is not positive) and
    [agent.save()] once for each index divisible by [saving_steps],
    index 0 first, so [ceil(training_steps / |saving_steps|)] times. *)
Theorem train_schedule (D : config) (args : Args) :
  saving_steps args <> 0 ->
  snd (train D args) = None /\
  fst (train D args)
    = [ray_init] ++ create_agent D args
      ++ flat_map (train_body args) (py_range (training_steps args)) /\
  List.length (filter is_train (fst (train D args)))
    = Z.to_nat (training_steps args) /\
  List.length (filter is_save (fst (train D args)))
    = Z.to_nat ((training_steps args + Z.abs (saving_steps args) - 1)
                / Z.abs (saving_steps args)).
Proof.
  intros Hs. unfold train. rewrite train_loop_nonzero by exact Hs.
  cbn [fst snd]. destruct (create_agent_quiet D args) as (Qt & Qs & _).
  split; [reflexivity |]. split; [reflexivity |].
  unfold py_range. split.
  - cbn [app filter is_train]. rewrite filter_app, length_app, Qt. cbn [List.length].
    apply loop_trains.
  - cbn [app filter is_save]. rewrite filter_app, length_app, Qs. cbn [List.length Nat.add].
    apply Nat2Z.inj. rewrite loop_saves by exact Hs.
    destruct (Z.le_gt_cases 0 (training_steps args)) as [Hn | Hn].
    + rewrite !Z2Nat.id; try lia. apply Z.div_pos; lia.
    + replace (Z.to_nat (training_steps args)) with O by lia.
      change (Z.of_nat 0) with 0.
      rewrite (Z.div_small (0 + _ - 1)) by lia.
      assert ((training_steps args + Z.abs (saving_steps args) - 1)
              / Z.abs (saving_steps args) <= 0).
      { apply Z.lt_succ_r. apply Z.div_lt_upper_bound; lia. }
      lia.
Qed.

(** The defaults: a million training steps, a checkpoint every 100. *)
Lemma train_schedule_witness :
  Z.of_nat (List.length (filter is_save (fst (train tf_config default_args)))) = 10000.
Proof.
  assert (H : saving_steps default_args <> 0) by (cbn; lia).
  destruct (train_schedule tf_config default_args H) as (_ & _ & _ & Hsaves).
  rewrite Hsaves. reflexivity.
Defined.

(** X19.  [train] with [saving_steps = 0]: when [training_steps] is at
    least 1 it raises [ZeroDivisionError] in the first iteration, after
    one [agent.train()] and without any [agent.save()]; when
    [training_steps] is not positive the loop body is never run and
    [train] returns normally. *)
Theorem train_zero_saving_steps (D : config) (args : Args) :
  saving_steps args = 0 ->
  (1 <= training_steps args ->
   snd (train D args) = Some ZeroDivisionError /\
   fst (train D args)
     = [ray_init] ++ create_agent D args ++ [agent_train]
       ++ (if 0 <? verbose args then [print_result] else []) /\
   List.length (filter is_train (fst (train D args))) = 1%nat /\
   filter is_save (fst (train D args)) = []) /\
  (training_steps args <= 0 ->
   train D args = ([ray_init] ++ create_agent D args, None)).
Proof.
  intros Hs. split.
  - intros Hn. unfold train, py_range.
    destruct (Z.to_nat (training_steps args)) as [| k] eqn:Ek; [lia |].
    cbn [seq map train_loop]. rewrite Hs. cbn [Z.eqb fst snd].
    destruct (create_agent_quiet D args) as (Qt & Qs & _).
    split; [reflexivity |]. split; [reflexivity |].
    cbn [app filter is_train is_save].
    rewrite !filter_app, Qt, Qs.
    destruct (0 <? verbose args); split; reflexivity.
  - intros Hn. unfold train, py_range.
    replace (Z.to_nat (training_steps args)) with O by lia.
    cbn. now rewrite app_nil_r.
Qed.

(** The defaults with [--saving-steps 0]. *)
Lemma train_zero_saving_steps_witness :
  snd (train tf_config
         {| checkpoint := None; verbose := 0; saving_steps := 0;
            training_steps := 1000000 |})
  = Some ZeroDivisionError.
Proof.
  apply (train_zero_saving_steps tf_config
           {| checkpoint := None; verbose := 0; saving_steps := 0;
              training_steps := 1000000 |} eq_refl).
  cbn. lia.
Defined.

(** X20.  [train] saves at the indices divisible by [saving_steps] only,
    not at the end: with [saving_steps] other than 0 and
    [training_steps >= 1], the number of [agent.train()] calls made
    after the last [agent.save()] is [(training_steps - 1) mod
    |saving_steps|].  The model [train] ends with is the one saved
    exactly when [saving_steps] divides [training_steps - 1]. *)
Theorem train_leaves_steps_unsaved (D : config) (args : Args) :
  saving_steps args <> 0 ->
  1 <= training_steps args ->
  unsaved (fst (train D args))
    = Z.to_nat ((training_steps args - 1) mod Z.abs (saving_steps args)) /\
  (unsaved (fst (train D args)) = O <-> (saving_steps args | training_steps args - 1)).
Proof.
  intros Hs Hn.
  assert (E : unsaved (fst (train D args))
              = Z.to_nat ((training_steps args - 1) mod Z.abs (saving_steps args))).
  { unfold train. rewrite train_loop_nonzero by exact Hs. cbn [fst].
    unfold unsaved. rewrite !fold_left_app.
    destruct (create_agent_quiet D args) as (_ & _ & Qf).
    cbn [fold_left]. rewrite Qf. unfold py_range.
    destruct (Z.to_nat (training_steps args)) as [| k] eqn:Ek; [lia |].
    pose proof (loop_unsaved args k Hs) as Hu. unfold unsaved in Hu. rewrite Hu.
    f_equal. f_equal. lia. }
  split; [exact E |]. rewrite E.
  pose proof (Z.mod_pos_bound (training_steps args - 1) (Z.abs (saving_steps args))
                ltac:(lia)) as Hb.
  split; intros H.
  - apply Z.divide_abs_l. apply Z.mod_divide; lia.
  - apply Z.divide_abs_l in H. apply Z.mod_divide in H; lia.
Qed.

(** The defaults: the last 99 training steps are not in any checkpoint. *)
Lemma train_leaves_steps_unsaved_witness :
  unsaved (fst (train tf_config default_args)) = 99%nat.
Proof.
  assert (H : saving_steps default_args <> 0) by (cbn; lia).
  assert (Hn : 1 <= training_steps default_args) by (cbn; lia).
  destruct (train_leaves_steps_unsaved tf_config default_args H Hn) as [E _].
  rewrite E. reflexivity.
Defined.

(** X21.  [create_agent] builds the trainer first, with a
    configuration that has the seven values of the script whatever
    [DEFAULT_CONFIG] holds and the value of [DEFAULT_CONFIG] at every
    other key.  It then restores a checkpoint exactly when
    [--checkpoint] is a string other than the empty one, and with
    [-v] above 0 it fetches the model and prints it.  The framework has
    just been set to [torch], so the summary of the [tf] branch is
    never printed. *)
Theorem create_agent_calls (D : config) (args : Args) :
  create_agent D args
    = [DQNTrainer (agent_config D)]
      ++ (match checkpoint args with
          | Some p => if (p =? ""%string)%string then [] else [agent_restore p]
          | None => []
          end)
      ++ (if 0 <? verbose args then [agent_get_policy_model; print_model] else []) /\
  agent_config D "double_q"%string = Some (PyBool true) /\
  agent_config D "dueling"%string = Some (PyBool true) /\
  agent_config D "framework"%string = Some (PyStr "torch"%string) /\
  agent_config D "horizon"%string = Some (PyInt 1150) /\
  agent_config D "num_gpus"%string = Some (PyInt 1) /\
  agent_config D "num_workers"%string = Some (PyInt 19) /\
  agent_config D "train_batch_size"%string = Some (PyInt 128) /\
  (forall k : string,
     ~ In k ["double_q"%string; "dueling"%string; "framework"%string; "horizon"%string; "num_gpus"%string;
             "num_workers"%string; "train_batch_size"%string]%string ->
     agent_config D k = D k) /\
  ~ In print_summary_type (create_agent D args).
Proof.
  assert (Hcalls : create_agent D args
    = [DQNTrainer (agent_config D)]
      ++ (match checkpoint args with
          | Some p => if (p =? ""%string)%string then [] else [agent_restore p]
          | None => []
          end)
      ++ (if 0 <? verbose args then [agent_get_policy_model; print_model] else [])).
  { unfold create_agent. cbn.
    destruct (checkpoint args) as [p |]; [destruct (p =? ""%string)%string |];
      destruct (0 <? verbose args); reflexivity. }
  split; [exact Hcalls |].
  repeat (split; [reflexivity |]).
  split.
  - intros k Hk. unfold agent_config, setitem.
    repeat match goal with
           | |- context [(k =? ?key)%string] =>
               destruct (String.eqb_spec k key) as [-> | _];
               [exfalso; apply Hk; cbn; tauto |]
           end.
    reflexivity.
  - rewrite Hcalls. intros Hin.
    apply in_app_or in Hin as [Hin | Hin]; [destruct Hin as [H | []]; discriminate |].
    apply in_app_or in Hin as [Hin | Hin].
    + destruct (checkpoint args) as [p |]; [destruct (p =? ""%string)%string |];
        try contradiction. destruct Hin as [H | []]; discriminate.
    + destruct (0 <? verbose args); [| contradiction].
      destruct Hin as [H | [H | []]]; discriminate.
Qed.

(** A default configuration that names [tf], verbosity 1, and an empty
    checkpoint string: the trainer, then the model fetched and printed. *)
Lemma create_agent_calls_witness :
  create_agent tf_config
    {| checkpoint := Some ""%string; verbose := 1; saving_steps := 100;
       training_steps := 10 |}
  = [DQNTrainer (agent_config tf_config); agent_get_policy_model; print_model] /\
  agent_config tf_config "gamma"%string = tf_config "gamma"%string.
Proof.
  pose proof (create_agent_calls tf_config
                {| checkpoint := Some ""%string; verbose := 1; saving_steps := 100;
                   training_steps := 10 |})
    as (Hc & _ & _ & _ & _ & _ & _ & _ & Hk & _).
  split; [exact Hc |].
  apply Hk. cbn. intros H.
  repeat (destruct H as [H | H]; [discriminate |]). exact H.
Defined.

(** ** The loop of [test] *)

Section TestLoop.

Variables (Obs Act EnvState AgentState : Type).
Variable stepf : EnvState -> Act -> Obs * bool * EnvState.
Variable actf : AgentState -> Obs -> Act * AgentState.

Lemma body_calls args (a : AgentState) e obs :
  fst (fst (test_body stepf actf args a e obs)) = iteration_calls args.
Proof.
  unfold test_body, iteration_calls.
  destruct (actf a obs) as [action a'].
  destruct (stepf e action) as [[obs' done] e']. reflexivity.
Qed.

Lemma done_in_zero args (a : AgentState) e obs :
  done_in stepf actf 0%nat args a e obs
    = snd (fst (test_body stepf actf args a e obs)).
Proof. reflexivity. Qed.

Lemma done_in_succ k args (a : AgentState) e obs :
  done_in stepf actf (S k) args a e obs
    = done_in stepf actf k args
        (fst (fst (snd (test_body stepf actf args a e obs))))
        (snd (fst (snd (test_body stepf actf args a e obs))))
        (snd (snd (test_body stepf actf args a e obs))).
Proof.
  unfold done_in. cbn [played].
  destruct (test_body stepf actf args a e obs) as [[calls done] [[a' e'] obs']].
  reflexivity.
Qed.

Lemma loop_stops (k : nat) :
  forall args (a : AgentState) e obs,
    (forall i, (i < k)%nat -> done_in stepf actf i args a e obs = false) ->
    done_in stepf actf k args a e obs = true ->
    forall fuel,
      test_loop stepf actf fuel args a e obs
        = if (k <? fuel)%nat
          then Some (List.concat (repeat (iteration_calls args) (S k)))
          else None.
Proof.
  induction k as [| k IH]; intros args a e obs Hbefore Hk fuel.
  - destruct fuel as [| fuel]; [reflexivity |].
    cbn [test_loop Nat.ltb Nat.leb]. rewrite done_in_zero in Hk.
    pose proof (body_calls args a e obs) as Hc.
    destruct (test_body stepf actf args a e obs) as [[calls done] [[a' e'] obs']].
    cbn in Hk, Hc. subst. cbn. now rewrite app_nil_r.
  - destruct fuel as [| fuel]; [reflexivity |].
    pose proof (Hbefore 0%nat ltac:(lia)) as H0. rewrite done_in_zero in H0.
    rewrite done_in_succ in Hk.
    assert (Hb : forall i, (i < k)%nat ->
              done_in stepf actf i args
                (fst (fst (snd (test_body stepf actf args a e obs))))
                (snd (fst (snd (test_body stepf actf args a e obs))))
                (snd (snd (test_body stepf actf args a e obs))) = false).
    { intros i Hi. rewrite <- done_in_succ. apply Hbefore. lia. }
    pose proof (body_calls args a e obs) as Hc.
    cbn [test_loop].
    destruct (test_body stepf actf args a e obs) as [[calls done] [[a' e'] obs']].
    cbn in H0, Hc, Hk, Hb. subst.
    rewrite (IH args a' e' obs' Hb Hk fuel).
    change (S k <? S fuel)%nat with (k <? fuel)%nat.
    destruct (k <? fuel)%nat; reflexivity.
Qed.

Lemma loop_runs_on :
  forall fuel args (a : AgentState) e obs,
    (forall i, done_in stepf actf i args a e obs = false) ->
    test_loop stepf actf fuel args a e obs = None.
Proof.
  induction fuel as [| fuel IH]; intros args a e obs Hnever; [reflexivity |].
  pose proof (Hnever 0%nat) as H0. rewrite done_in_zero in H0.
  assert (Hb : forall i,
            done_in stepf actf i args
              (fst (fst (snd (test_body stepf actf args a e obs))))
              (snd (fst (snd (test_body stepf actf args a e obs))))
              (snd (snd (test_body stepf actf args a e obs))) = false).
  { intros i. rewrite <- done_in_succ. apply Hnever. }
  cbn [test_loop].
  destruct (test_body stepf actf args a e obs) as [[calls done] [[a' e'] obs']].
  cbn in H0, Hb. subst. now rewrite (IH args a' e' obs' Hb).
Qed.

(** X22.  [test], after [ray.init()], [create_agent], [gym.make] and
    [env.reset()], repeats "compute the action, step the environment,
    render if [-v] is above 1" until [env.step] returns [done]: if that
    first happens in iteration [k] (counted from 0), it makes exactly
    [k + 1] iterations, so at least one, and then returns; fewer
    iterations do not end it.  If [env.step] never returns [done],
    [test] does not return, whatever the number of iterations. *)
Theorem test_runs_until_done (D : config) (args : Args) (a : AgentState)
    (e : EnvState) (obs : Obs) :
  (forall k : nat,
     (forall i, (i < k)%nat -> done_in stepf actf i args a e obs = false) ->
     done_in stepf actf k args a e obs = true ->
     forall fuel : nat,
       test stepf actf fuel D args a e obs
       = if (k <? fuel)%nat
         then Some ([ray_init] ++ create_agent D args ++ [gym_make; env_reset]
                    ++ List.concat (repeat (iteration_calls args) (S k)))
         else None) /\
  ((forall i, done_in stepf actf i args a e obs = false) ->
   forall fuel : nat, test stepf actf fuel D args a e obs = None).
Proof.
  split.
  - intros k Hbefore Hk fuel. unfold test.
    rewrite (loop_stops k args a e obs Hbefore Hk fuel).
    destruct (k <? fuel)%nat; [| reflexivity].
    cbn [option_map]. now rewrite <- !app_assoc.
  - intros Hnever fuel. unfold test.
    now rewrite (loop_runs_on fuel args a e obs Hnever).
Qed.

End TestLoop.

(** An environment that counts its steps and is done with the third;
    the agent always plays 0. *)
Lemma test_runs_until_done_witness :
  test (Obs := nat) (Act := Z) (EnvState := nat) (AgentState := unit)
       (fun e _ => (S e, (2 <=? e)%nat, S e)) (fun a _ => (0, a))
       7 tf_config default_args tt 0%nat 0%nat
  = Some ([ray_init] ++ create_agent tf_config default_args ++ [gym_make; env_reset]
          ++ List.concat (repeat (iteration_calls default_args) 3)).
Proof.
  apply (test_runs_until_done nat Z nat unit
           (fun e _ => (S e, (2 <=? e)%nat, S e)) (fun a _ => (0, a))
           tf_config default_args tt 0%nat 0%nat) with (k := 2%nat) (fuel := 7%nat).
  - intros i Hi. destruct i as [| [| i]]; [reflexivity | reflexivity | lia].
  - reflexivity.
Defined.

End DqnFacts.

(** * The code's arithmetic

    What follows is about [Binary], the class computed in binary64 and
    binary32 as the code computes it. *)

Module BinaryFacts.
Import Binary.

(** ** Draws *)

Lemma unit_interval_cases (r : float) :
  unit_interval r = true ->
  (exists s, r = S754_zero s) \/ (exists m e, r = S754_finite false m e).
Proof.
  destruct r as [s | s | | s m e]; try discriminate.
  - intros _. left. now exists s.
  - destruct s; discriminate.
  - destruct s; [discriminate |]. intros _. right. now exists m, e.
Qed.

Lemma unit_interval_below_one (r : float) :
  unit_interval r = true -> leb r (of_Z 1) = true.
Proof.
  unfold unit_interval, leb, ltb, SFleb, SFltb. intros H.
  apply andb_prop in H as [_ H].
  destruct (SFcompare r (of_Z 1)) as [[ | | ] | ]; try discriminate. reflexivity.
Qed.

(** [x - x] is [+0.0] for a finite [x] other than 0. *)
Lemma sub64_diag s m e :
  sub64 (S754_finite s m e) (S754_finite s m e) = S754_zero false.
Proof.
  unfold sub64, SFsub. rewrite Z.sub_diag. reflexivity.
Qed.

(** [uniform(x, x)] is [x], whatever is drawn. *)
Lemma uniform_point s m e (r : float) :
  unit_interval r = true ->
  add64 (S754_finite s m e) (mul64 (sub64 (S754_finite s m e) (S754_finite s m e)) r)
  = S754_finite s m e.
Proof.
  intros H. rewrite sub64_diag.
  destruct (unit_interval_cases r H) as [[s' ->] | (m' & e' & ->)]; reflexivity.
Qed.

(** ** The phases of [step] *)

Section BinaryPhases.

Context {P : PRNG}.
Implicit Types (s : EnemyMissiles P) (cfg : CONFIG).

Lemma next_draw s :
  rng_random s =
  Ok (fst (random P (_rng_python s)))
     (set_rng_python (snd (random P (_rng_python s))) s).
Proof. unfold rng_random. destruct (random P (_rng_python s)); reflexivity. Qed.

(** With both ranges reduced to a point, the two draws do not matter. *)
Lemma rng_uniform_point s b m e :
  rng_uniform (S754_finite b m e) (S754_finite b m e) s =
  Ok (S754_finite b m e) (set_rng_python (snd (random P (_rng_python s))) s).
Proof.
  unfold rng_uniform, bind, ret. rewrite next_draw.
  now rewrite uniform_point by apply random_range.
Qed.

Lemma launch_missile_points cfg s (lo hi : float) b0 m0 e0 b1 m1 e1 :
  start_pos_range s = point lo ->
  end_pos_range s = point hi ->
  mul64 lo (WIDTH cfg) = S754_finite b0 m0 e0 ->
  mul64 hi (WIDTH cfg) = S754_finite b1 m1 e1 ->
  exists g,
    _launch_missile cfg s =
    Ok tt {| start_pos_range := start_pos_range s;
             end_pos_range := end_pos_range s;
             enemy_missiles :=
               enemy_missiles s ++
               [new_missile cfg (S754_finite b0 m0 e0) (S754_finite b1 m1 e1)];
             nb_missiles_launched := nb_missiles_launched s + 1;
             _rng_python := g |}.
Proof.
  intros Hs He H0 H1. eexists. unfold _launch_missile.
  unfold bind at 1. unfold gets at 1. cbv beta. rewrite Hs at 1 2. cbn [point fst snd].
  rewrite H0. unfold bind at 1. rewrite rng_uniform_point.
  unfold bind at 1. unfold gets at 1. cbv beta. cbn [end_pos_range set_rng_python].
  rewrite He at 1 2. cbn [point fst snd]. rewrite H1.
  unfold bind at 1. rewrite rng_uniform_point.
  cbn. reflexivity.
Qed.

(** The first tick after [reset], launch certain: one row, as
    [_launch_missile] stores it, unless it is already on its target. *)
Lemma first_tick_launches cfg action (lo hi : float) (seed : Z) b0 m0 e0 b1 m1 e1 :
  (0 < NUMBER cfg)%nat ->
  PROBA_IN cfg = of_Z 1 ->
  mul64 lo (WIDTH cfg) = S754_finite b0 m0 e0 ->
  mul64 hi (WIDTH cfg) = S754_finite b1 m1 e1 ->
  let rows := filter (fun m => negb (hit m))
                [new_missile cfg (S754_finite b0 m0 e0) (S754_finite b1 m1 e1)] in
  exists g,
    step cfg action (reset (point lo) (point hi) seed : EnemyMissiles P) =
    Ok ((length rows =? 0)%nat && (1 =? NUMBER cfg)%nat)
       {| start_pos_range := point lo;
          end_pos_range := point hi;
          enemy_missiles := rows;
          nb_missiles_launched := 1;
          _rng_python := g |}.
Proof.
  intros Hn Hp H0 H1 rows.
  unfold step, moving_missiles, remove_missiles.
  unfold bind at 1. unfold modify at 1.
  unfold bind at 1. unfold potentially_launch.
  unfold bind at 1. unfold gets at 1.
  cbn [nb_missiles_launched set_enemy_missiles reset enemy_missiles map].
  apply Nat.ltb_lt in Hn. rewrite Hn.
  unfold bind at 1. rewrite next_draw. rewrite Hp.
  rewrite unit_interval_below_one by apply random_range.
  match goal with |- context [_launch_missile cfg ?s] =>
    destruct (launch_missile_points cfg s lo hi b0 m0 e0 b1 m1 e1 eq_refl eq_refl H0 H1)
      as (g & E) end.
  rewrite E. exists g. reflexivity.
Qed.

(** With nothing left to launch the launch phase does nothing. *)
Lemma launch_phase_idle cfg s :
  (NUMBER cfg <= nb_missiles_launched s)%nat ->
  potentially_launch cfg s = Ok tt s.
Proof.
  intros H. unfold potentially_launch, bind, gets.
  apply Nat.ltb_ge in H. now rewrite H.
Qed.

(** Then [step] moves every row and removes those that hit. *)
Lemma step_without_launch cfg action s :
  (NUMBER cfg <= nb_missiles_launched s)%nat ->
  step cfg action s =
  Ok ((length (airborne 1 (enemy_missiles s)) =? 0)%nat
        && (nb_missiles_launched s =? NUMBER cfg)%nat)
     (set_enemy_missiles (airborne 1 (enemy_missiles s)) s).
Proof.
  intros H. unfold step, moving_missiles, remove_missiles.
  unfold bind at 1. unfold modify at 1. unfold bind at 1.
  rewrite launch_phase_idle by exact H. reflexivity.
Qed.

Lemma airborne_succ (n : nat) (ms : list missile) :
  airborne (S n) ms = airborne 1 (airborne n ms).
Proof. reflexivity. Qed.

Lemma run_without_launch cfg act (n : nat) s :
  (NUMBER cfg <= nb_missiles_launched s)%nat ->
  run cfg act n s = set_enemy_missiles (airborne n (enemy_missiles s)) s.
Proof.
  intros H. induction n.
  - destruct s; reflexivity.
  - cbn [run]. rewrite IHn. unfold exec. rewrite step_without_launch by exact H.
    rewrite airborne_succ. reflexivity.
Qed.

Lemma run_from_first_tick cfg act (n : nat) s :
  run cfg act (S n) s = run cfg (fun k => act (S k)) n (exec (step cfg (act O)) s).
Proof.
  induction n.
  - reflexivity.
  - cbn [run] in *. now rewrite IHn.
Qed.

(** An episode of one missile launched in the first tick between two
    points: rows, count and flag of every tick. *)
Lemma one_missile_run cfg act (lo hi : float) (seed : Z) b0 m0 e0 b1 m1 e1 (n : nat) :
  NUMBER cfg = 1%nat ->
  PROBA_IN cfg = of_Z 1 ->
  mul64 lo (WIDTH cfg) = S754_finite b0 m0 e0 ->
  mul64 hi (WIDTH cfg) = S754_finite b1 m1 e1 ->
  let rows := airborne n (filter (fun m => negb (hit m))
                [new_missile cfg (S754_finite b0 m0 e0) (S754_finite b1 m1 e1)]) in
  enemy_missiles
    (run cfg act (S n) (reset (point lo) (point hi) seed : EnemyMissiles P)) = rows /\
  nb_missiles_launched
    (run cfg act (S n) (reset (point lo) (point hi) seed : EnemyMissiles P)) = 1%nat /\
  done_at cfg act n (reset (point lo) (point hi) seed : EnemyMissiles P) =
    Some (length rows =? 0)%nat.
Proof.
  intros Hn Hp H0 H1 rows.
  assert (Hpos : (0 < NUMBER cfg)%nat) by lia.
  destruct (first_tick_launches cfg (act O) lo hi seed b0 m0 e0 b1 m1 e1 Hpos Hp H0 H1)
    as (g & E).
  assert (Hrun : forall k, run cfg act (S k) (reset (point lo) (point hi) seed : EnemyMissiles P)
            = {| start_pos_range := point lo; end_pos_range := point hi;
                 enemy_missiles := airborne k (filter (fun m => negb (hit m))
                     [new_missile cfg (S754_finite b0 m0 e0) (S754_finite b1 m1 e1)]);
                 nb_missiles_launched := 1; _rng_python := g |}).
  { intros k. rewrite run_from_first_tick. unfold exec at 1. rewrite E.
    rewrite run_without_launch by (cbn; lia). reflexivity. }
  split; [| split].
  - now rewrite Hrun.
  - now rewrite Hrun.
  - unfold done_at. destruct n.
    + cbn [run]. unfold result. rewrite E. rewrite Hn. cbn.
      now rewrite andb_true_r.
    + rewrite Hrun. unfold result. rewrite step_without_launch by (cbn; lia).
      cbn [nb_missiles_launched enemy_missiles]. rewrite Hn. cbn.
      now rewrite andb_true_r.
Qed.

(** [_launch_missile] has no failing path: it appends one row built by
    [new_missile] and adds one to the count. *)
Lemma launch_missile_row cfg s :
  exists x0 x1 g,
    _launch_missile cfg s =
    Ok tt {| start_pos_range := start_pos_range s;
             end_pos_range := end_pos_range s;
             enemy_missiles := enemy_missiles s ++ [new_missile cfg x0 x1];
             nb_missiles_launched := nb_missiles_launched s + 1;
             _rng_python := g |}.
Proof.
  unfold _launch_missile, rng_uniform, bind, gets, modify, ret.
  rewrite next_draw. cbn [end_pos_range set_rng_python].
  rewrite next_draw. cbn.
  do 3 eexists. reflexivity.
Qed.

(** The launch phase appends no row or one row. *)
Lemma launch_phase_rows cfg s :
  exists l g,
    potentially_launch cfg s =
    Ok tt {| start_pos_range := start_pos_range s;
             end_pos_range := end_pos_range s;
             enemy_missiles := enemy_missiles s ++ l;
             nb_missiles_launched := nb_missiles_launched s + length l;
             _rng_python := g |} /\
    (l = [] \/ exists x0 x1, l = [new_missile cfg x0 x1]).
Proof.
  unfold potentially_launch, bind, gets.
  destruct (nb_missiles_launched s <? NUMBER cfg)%nat.
  - rewrite next_draw.
    destruct (leb _ _).
    + destruct (launch_missile_row cfg
                  (set_rng_python (snd (random P (_rng_python s))) s))
        as (x0 & x1 & g & E).
      rewrite E. exists [new_missile cfg x0 x1], g. cbn. split; [reflexivity |].
      right. eauto.
    + exists [], (snd (random P (_rng_python s))). unfold ret. cbn.
      rewrite app_nil_r, Nat.add_0_r. auto.
  - exists [], (_rng_python s). unfold ret. cbn.
    rewrite app_nil_r, Nat.add_0_r. destruct s; auto.
Qed.

(** The rows [step] leaves: the old rows moved and the row launched,
    if any, less those that hit. *)
Lemma step_rows cfg action s :
  exists l,
    enemy_missiles (exec (step cfg action) s) =
    filter (fun m => negb (hit m)) (map move (enemy_missiles s) ++ l) /\
    (l = [] \/ exists x0 x1, l = [new_missile cfg x0 x1]).
Proof.
  unfold exec, step, moving_missiles, remove_missiles.
  unfold bind at 1. unfold modify at 1.
  destruct (launch_phase_rows cfg
              (set_enemy_missiles (map move (enemy_missiles s)) s))
    as (l & g & E & Hl).
  exists l. unfold bind at 1. rewrite E. cbn. auto.
Qed.

End BinaryPhases.

(** ** What a row keeps *)

Lemma new_missile_as_launched (cfg : CONFIG) (x0 x1 : float) :
  as_launched cfg (new_missile cfg x0 x1).
Proof. exists x0, x1. repeat split. Qed.

Lemma move_as_launched (cfg : CONFIG) (m : missile) :
  as_launched cfg m -> as_launched cfg (move m).
Proof. intros H. exact H. Qed.

(** X6.  In the code's arithmetic, every active missile after any
    number of ticks from [reset] has the start, the target and the
    velocity that its launch stored: [step] rewrites the current
    position only.  Its start height is [float32(HEIGHT)] and its
    target height is [0.0]. *)
Theorem rows_keep_what_launch_gave {P : PRNG} (cfg : CONFIG) (sr er : range)
    (seed : Z) (act : nat -> Z) (n : nat) :
  Forall (as_launched cfg)
         (enemy_missiles (run cfg act n (reset sr er seed : EnemyMissiles P))).
Proof.
  induction n.
  - constructor.
  - cbn [run].
    destruct (step_rows cfg (act n) (run cfg act n (reset sr er seed : EnemyMissiles P)))
      as (l & E & Hl).
    rewrite E. apply Forall_forall. intros m Hin.
    apply filter_In in Hin as [Hin _]. apply in_app_or in Hin as [Hin | Hin].
    + apply in_map_iff in Hin as (m' & <- & Hin').
      apply move_as_launched. rewrite Forall_forall in IHn. now apply IHn.
    + destruct Hl as [-> | (x0 & x1 & ->)]; [contradiction |].
      destruct Hin as [<- | []]. apply new_missile_as_launched.
Qed.

(** ** Rows in the air *)

Lemma never_hits_sound (k : nat) (m : missile) :
  never_hits k m = true ->
  forall n, (n <= k)%nat -> hit (Nat.iter n move m) = false.
Proof.
  revert m. induction k; intros m H n Hn; cbn [never_hits] in H;
    apply andb_prop in H as [H0 Hk].
  - replace n with O by lia. cbn. now apply negb_true_iff.
  - destruct n.
    + cbn. now apply negb_true_iff.
    + rewrite Nat.iter_succ_r. apply IHk; [exact Hk | lia].
Qed.

Lemma stays_beyond_sound (k : nat) (m : missile) :
  stays_beyond k m = true ->
  forall n, (n <= k)%nat -> beyond_target (Nat.iter n move m) = true.
Proof.
  revert m. induction k; intros m H n Hn; cbn [stays_beyond] in H;
    apply andb_prop in H as [H0 Hk].
  - replace n with O by lia. exact H0.
  - destruct n.
    + exact H0.
    + rewrite Nat.iter_succ_r. apply IHk; [exact Hk | lia].
Qed.

(** A row that hits in none of its first [k] positions is the one
    active row throughout. *)
Lemma airborne_in_the_air (k : nat) (m : missile) :
  never_hits k m = true ->
  forall n, (n <= k)%nat -> airborne n [m] = [Nat.iter n move m].
Proof.
  intros H. induction n; intros Hn.
  - reflexivity.
  - rewrite airborne_succ, IHn by lia. cbn.
    change (move (Nat.iter n move m)) with (Nat.iter (S n) move m).
    now rewrite (never_hits_sound k m H (S n) Hn).
Qed.

Lemma airborne_add (a b : nat) (ms : list missile) :
  airborne (a + b) ms = airborne a (airborne b ms).
Proof. unfold airborne. apply Nat.iter_add. Qed.


(** ** Episodes whose missiles are all launched in the first tick *)

Lemma run_after_first_tick {P : PRNG} cfg act (s s1 : EnemyMissiles P) (b : bool) (n : nat) :
  step cfg (act O) s = Ok b s1 ->
  (NUMBER cfg <= nb_missiles_launched s1)%nat ->
  run cfg act (S n) s = set_enemy_missiles (airborne n (enemy_missiles s1)) s1 /\
  done_at cfg act (S n) s =
    Some ((length (airborne (S n) (enemy_missiles s1)) =? 0)%nat
            && (nb_missiles_launched s1 =? NUMBER cfg)%nat).
Proof.
  intros E H.
  assert (Hrun : forall k, run cfg act (S k) s
                           = set_enemy_missiles (airborne k (enemy_missiles s1)) s1).
  { intros k. rewrite run_from_first_tick. unfold exec at 1. rewrite E.
    now apply run_without_launch. }
  split; [apply Hrun |].
  unfold done_at. rewrite Hrun. unfold result.
  rewrite step_without_launch by exact H. reflexivity.
Qed.

Lemma airborne_nil (n : nat) : airborne n [] = [].
Proof. induction n; [reflexivity |]. rewrite airborne_succ, IHn. reflexivity. Qed.

(** ** An axis that is on its target *)

(** Finite floats that are [==] are two zeros or the same float. *)
Lemma eqb_finite_same (x y : float) :
  finite x = true -> eqb x y = true ->
  (exists s s', x = S754_zero s /\ y = S754_zero s') \/
  (exists s m e, x = S754_finite s m e /\ y = S754_finite s m e).
Proof.
  unfold eqb, SFeqb.
  destruct x as [s | s | | s m e]; try discriminate; intros _;
    destruct y as [s' | s' | | s' m' e']; cbn; try discriminate;
    try (destruct s'; discriminate); try (destruct s; discriminate).
  - intros _. left. now exists s, s'.
  - destruct s, s'; try discriminate;
      destruct (Z.compare e e') eqn:He; try discriminate;
      destruct (Pos.compare_cont Eq m m') eqn:Hm; try discriminate;
      intros _; apply Z.compare_eq in He; apply Pos.compare_eq in Hm; subst;
      right; eauto.
Qed.

Lemma sub32_diag s m e :
  sub32 (S754_finite s m e) (S754_finite s m e) = S754_zero false.
Proof.
  unfold sub32, SFsub. rewrite Z.sub_diag. reflexivity.
Qed.

(** One axis of [move]: a coordinate that is on its target stays on it. *)
Lemma axis_on_target (c f v : float) :
  finite c = true -> isnan v = false -> eqb c f = true ->
  eqb (add32 c (mul32 (minimum (abs v) (abs (sub32 f c))) (sign v))) f = true.
Proof.
  intros Hc Hv He.
  destruct (eqb_finite_same c f Hc He) as [(s & s' & -> & ->) | (s & m & e & -> & ->)].
  - destruct v as [sv | sv | | sv mv ev]; try discriminate;
      destruct s, s', sv; reflexivity.
  - rewrite sub32_diag.
    destruct v as [sv | sv | | sv mv ev]; try discriminate;
      destruct sv; cbn; exact He.
Qed.

(** X10.  In binary32, one move leaves a coordinate that is on its
    target on its target ([x] and [y] alike): when the current
    coordinate is finite and [==] the final one, and the velocity
    component is not NaN, the distance left is [0.0], the movement is a
    zero, and the moved coordinate is still [==] the final one.  So a
    missile that falls straight down keeps its [x]. *)
Theorem move_keeps_axis_on_target (m : missile) :
  (finite (cur_x m) = true -> isnan (vx m) = false ->
   eqb (cur_x m) (final_x m) = true ->
   eqb (cur_x (move m)) (final_x (move m)) = true) /\
  (finite (cur_y m) = true -> isnan (vy m) = false ->
   eqb (cur_y m) (final_y m) = true ->
   eqb (cur_y (move m)) (final_y (move m)) = true).
Proof.
  split; intros Hc Hv He; cbn [move cur_x cur_y final_x final_y];
    now apply axis_on_target.
Qed.

(** A row that falls straight down ([x] on target) keeps its [x]. *)
Lemma move_keeps_axis_on_target_witness :
  eqb (cur_x (move (new_missile scenario_cfg (of_Z (-10)) (of_Z (-10)))))
      (final_x (move (new_missile scenario_cfg (of_Z (-10)) (of_Z (-10))))) = true.
Proof.
  apply (move_keeps_axis_on_target
           (new_missile scenario_cfg (of_Z (-10)) (of_Z (-10)))); reflexivity.
Defined.

End BinaryFacts.

(** ** Evaluation on given rows *)

(** Replace a closed term by its value. *)
Ltac evaluate t :=
  let v := eval vm_compute in t in
  replace t with v by (vm_compute; reflexivity).

(** The real numbers that float literals stand for, as quotients of
    integer literals. *)
Ltac real_literals :=
  cbv [exact_row Binary.real Binary.pow2 cond_Zopp Z.opp
       init_x init_y cur_x cur_y final_x final_y vx vy
       Binary.init_x Binary.init_y Binary.cur_x Binary.cur_y
       Binary.final_x Binary.final_y Binary.vx Binary.vy];
  repeat match goal with
         | |- context [Z.pow_pos ?a ?b] =>
             let v := eval vm_compute in (Z.pow_pos a b) in
             change (Z.pow_pos a b) with v
         end.

(** ** A missile that passes its target

    Width 20, height 10, speed 2, one missile, launched for certain,
    from [x = -0.5 * 20 = -10] towards [x = -0.02 * 20]. *)

Lemma runaway_products :
  Binary.mul64 (Binary.decimal (-5) 10) (Binary.WIDTH Binary.scenario_cfg)
    = S754_finite true 5629499534213120 (-49) /\
  Binary.mul64 (Binary.decimal (-2) 100) (Binary.WIDTH Binary.scenario_cfg)
    = S754_finite true 7205759403792794 (-54).
Proof. split; vm_compute; reflexivity. Qed.

(** The rows of the episode that launches from x = -10 towards
    x = -0.02 * 20, whatever the generator draws. *)
Lemma runaway_rows (P : Binary.PRNG) (seed : Z) (act : nat -> Z) (n : nat) :
  Binary.enemy_missiles
    (Binary.run Binary.scenario_cfg act (S n)
       (Binary.reset Binary.runaway_start Binary.runaway_end seed : Binary.EnemyMissiles P))
    = Binary.airborne n [Binary.runaway_launch] /\
  Binary.nb_missiles_launched
    (Binary.run Binary.scenario_cfg act (S n)
       (Binary.reset Binary.runaway_start Binary.runaway_end seed : Binary.EnemyMissiles P))
    = 1%nat /\
  Binary.done_at Binary.scenario_cfg act n
    (Binary.reset Binary.runaway_start Binary.runaway_end seed : Binary.EnemyMissiles P)
    = Some (length (Binary.airborne n [Binary.runaway_launch]) =? 0)%nat.
Proof.
  destruct runaway_products as [E0 E1].
  destruct (BinaryFacts.one_missile_run (P := P) Binary.scenario_cfg act
              (Binary.decimal (-5) 10) (Binary.decimal (-2) 100) seed
              _ _ _ _ _ _ n eq_refl eq_refl E0 E1) as (Hrows & Hcount & Hdone).
  cbv zeta in Hrows, Hdone.
  replace (filter (fun m => negb (Binary.hit m))
             [Binary.new_missile Binary.scenario_cfg
                (S754_finite true 5629499534213120 (-49))
                (S754_finite true 7205759403792794 (-54))])
    with [Binary.runaway_launch] in Hrows, Hdone by (vm_compute; reflexivity).
  repeat split; assumption.
Qed.

(** The row is on its target in none of its first 3000 positions, and
    from the seventh move on it lies beyond its target. *)
Lemma runaway_in_the_air : Binary.never_hits 2999 Binary.runaway_launch = true.
Proof. vm_compute. reflexivity. Qed.

Lemma runaway_beyond :
  Binary.stays_beyond 2992 (Nat.iter 7 Binary.move Binary.runaway_launch) = true.
Proof. vm_compute. reflexivity. Qed.

Lemma runaway_row_at (n : nat) :
  (n <= 2999)%nat ->
  Binary.airborne n [Binary.runaway_launch] = [Nat.iter n Binary.move Binary.runaway_launch].
Proof. apply BinaryFacts.airborne_in_the_air, runaway_in_the_air. Qed.

(** C1, on the code's arithmetic: the claim fails.  Width 20, height
    10, speed 2, one missile launched for certain, start range
    [(-0.5, -0.5)], end range [(-0.02, -0.02)], any generator and any
    seed.  The missile starts at [x = -10]; its target is
    [x = float32(-0.4) = -13421773 / 2^25].  The eighth [step] after
    [reset], which is its seventh move, leaves it at
    [x = -13421772 / 2^25]: one unit in the last place beyond the
    target, so not between start and target.  After each of the ticks
    8 to 3000 it is the one active row and it lies beyond its target
    (start [<] target [<] current, by the code's own comparison). *)
Theorem clamp_overshoots_in_binary32 (P : Binary.PRNG) (seed : Z) (act : nat -> Z) :
  (exists m,
     Binary.enemy_missiles
       (Binary.run Binary.scenario_cfg act 8
          (Binary.reset Binary.runaway_start Binary.runaway_end seed
             : Binary.EnemyMissiles P)) = [m] /\
     init_x (exact_row m) = -10 /\
     final_x (exact_row m) = - 13421773 / 33554432 /\
     cur_x (exact_row m) = - 13421772 / 33554432 /\
     ~ no_overshoot (exact_row m)) /\
  (forall n, (8 <= n <= 3000)%nat ->
     exists m,
       Binary.enemy_missiles
         (Binary.run Binary.scenario_cfg act n
            (Binary.reset Binary.runaway_start Binary.runaway_end seed
               : Binary.EnemyMissiles P)) = [m] /\
       Binary.beyond_target m = true).
Proof.
  split.
  - destruct (runaway_rows P seed act 7) as (E & _). rewrite E.
    rewrite runaway_row_at by lia.
    evaluate (Nat.iter 7 Binary.move Binary.runaway_launch).
    eexists. split; [reflexivity |].
    assert (Ei : init_x (exact_row
              {| Binary.init_x := S754_finite true 10485760 (-20);
                 Binary.init_y := S754_finite false 10485760 (-20);
                 Binary.cur_x := S754_finite true 13421772 (-25);
                 Binary.cur_y := S754_zero false;
                 Binary.final_x := S754_finite true 13421773 (-25);
                 Binary.final_y := S754_zero false;
                 Binary.vx := S754_finite false 11618756 (-23);
                 Binary.vy := S754_finite true 12102871 (-23) |}) = -10).
    { real_literals. lra. }
    split; [exact Ei |].
    split; [real_literals; lra |]. split; [real_literals; lra |].
    intros [Hx _]. unfold between in Hx. revert Hx. real_literals. lra.
  - intros n Hn. destruct n as [| k]; [lia |].
    destruct (runaway_rows P seed act k) as (E & _). rewrite E.
    rewrite runaway_row_at by lia.
    eexists. split; [reflexivity |].
    replace k with ((k - 7) + 7)%nat by lia. rewrite Nat.iter_add.
    apply (BinaryFacts.stays_beyond_sound 2992); [exact runaway_beyond | lia].
Qed.

(** On the generator that draws 0.0, after tick 3000. *)
Lemma clamp_overshoots_in_binary32_witness :
  exists m,
    Binary.enemy_missiles
      (Binary.run Binary.scenario_cfg (fun _ => 0%Z) 3000
         (Binary.reset Binary.runaway_start Binary.runaway_end 42
            : Binary.EnemyMissiles Binary.counting_prng)) = [m] /\
    Binary.beyond_target m = true.
Proof.
  apply (proj2 (clamp_overshoots_in_binary32 Binary.counting_prng 42 (fun _ => 0%Z))
               3000%nat).
  lia.
Defined.

(** ** When a missile arrives

    The same configuration, from [x = -0.4 * 20 = -8] towards
    [x = 0.01 * 20]. *)

Lemma late_products :
  Binary.mul64 (Binary.decimal (-4) 10) (Binary.WIDTH Binary.scenario_cfg)
    = S754_finite true 4503599627370496 (-49) /\
  Binary.mul64 (Binary.decimal 1 100) (Binary.WIDTH Binary.scenario_cfg)
    = S754_finite false 7205759403792794 (-55).
Proof. split; vm_compute; reflexivity. Qed.

Lemma late_rows (P : Binary.PRNG) (seed : Z) (act : nat -> Z) (n : nat) :
  Binary.enemy_missiles
    (Binary.run Binary.scenario_cfg act (S n)
       (Binary.reset Binary.late_start Binary.late_end seed : Binary.EnemyMissiles P))
    = Binary.airborne n [Binary.late_launch].
Proof.
  destruct late_products as [E0 E1].
  destruct (BinaryFacts.one_missile_run (P := P) Binary.scenario_cfg act
              (Binary.decimal (-4) 10) (Binary.decimal 1 100) seed
              _ _ _ _ _ _ n eq_refl eq_refl E0 E1) as (Hrows & _).
  cbv zeta in Hrows.
  replace (filter (fun m => negb (Binary.hit m))
             [Binary.new_missile Binary.scenario_cfg
                (S754_finite true 4503599627370496 (-49))
                (S754_finite false 7205759403792794 (-55))])
    with [Binary.late_launch] in Hrows by (vm_compute; reflexivity).
  exact Hrows.
Qed.

Lemma ceil_unique (r : R) (z : Z) : IZR z - 1 < r <= IZR z -> ceil r = z.
Proof.
  intros [Hlo Hhi]. destruct (ceil_spec r) as [Clo Chi].
  assert (H1 : IZR (ceil r) < IZR (z + 1)) by (rewrite plus_IZR; lra).
  assert (H2 : IZR z < IZR (ceil r + 1)) by (rewrite plus_IZR; lra).
  apply lt_IZR in H1, H2. lia.
Qed.

Lemma sqrt_between (a b x : R) :
  0 <= a -> 0 <= b -> a * a < x <= b * b -> a < sqrt x <= b.
Proof.
  intros Ha Hb [Hlo Hhi]. split.
  - rewrite <- (sqrt_square a) by exact Ha. apply sqrt_lt_1_alt. nra.
  - rewrite <- (sqrt_square b) by exact Hb. apply sqrt_le_1_alt. exact Hhi.
Qed.

Lemma norm_level (x0 x1 y : R) : norm x0 y x1 y = Rabs (x1 - x0).
Proof.
  unfold norm. replace (y - y) with 0 by lra.
  rewrite Rsqr_0, Rplus_0_r. apply sqrt_Rsqr_abs.
Qed.

(** C3, on the code's arithmetic: the claim fails.  Width 20, height
    10, speed 2, one missile launched for certain in tick 1, any
    generator and any seed.

    From [x = -8] to [x = float32(0.2)]: the distance from start to
    target is between 12 and 14, so [ceil(distance / speed) = 7]; after
    7 further ticks the missile is still active and not on its target;
    the tick after removes it: it arrives one tick late.

    From [x = -10] to [x = float32(-0.4)]: [ceil(distance / speed) = 7]
    again; the seventh further tick leaves the missile beyond its
    target and the eighth takes it farther from the target; after each
    of the ticks 1 to 3000 it is active and not on its target. *)
Theorem arrival_time_in_binary32 (P : Binary.PRNG) (seed : Z) (act : nat -> Z) :
  (exists m0 m7,
     Binary.enemy_missiles
       (Binary.run Binary.scenario_cfg act 1
          (Binary.reset Binary.late_start Binary.late_end seed
             : Binary.EnemyMissiles P)) = [m0] /\
     ticks_to_target scenario_cfg (exact_row m0) = 7%nat /\
     Binary.enemy_missiles
       (Binary.run Binary.scenario_cfg act 8
          (Binary.reset Binary.late_start Binary.late_end seed
             : Binary.EnemyMissiles P)) = [m7] /\
     ~ at_target (exact_row m7) /\
     Binary.enemy_missiles
       (Binary.run Binary.scenario_cfg act 9
          (Binary.reset Binary.late_start Binary.late_end seed
             : Binary.EnemyMissiles P)) = []) /\
  (exists m0 m7 m8,
     Binary.enemy_missiles
       (Binary.run Binary.scenario_cfg act 1
          (Binary.reset Binary.runaway_start Binary.runaway_end seed
             : Binary.EnemyMissiles P)) = [m0] /\
     ticks_to_target scenario_cfg (exact_row m0) = 7%nat /\
     Binary.enemy_missiles
       (Binary.run Binary.scenario_cfg act 8
          (Binary.reset Binary.runaway_start Binary.runaway_end seed
             : Binary.EnemyMissiles P)) = [m7] /\
     Binary.enemy_missiles
       (Binary.run Binary.scenario_cfg act 9
          (Binary.reset Binary.runaway_start Binary.runaway_end seed
             : Binary.EnemyMissiles P)) = [m8] /\
     dist_to_target (exact_row m7) < dist_to_target (exact_row m8)) /\
  (forall n, (1 <= n <= 3000)%nat ->
     exists m,
       Binary.enemy_missiles
         (Binary.run Binary.scenario_cfg act n
            (Binary.reset Binary.runaway_start Binary.runaway_end seed
               : Binary.EnemyMissiles P)) = [m] /\
       Binary.hit m = false).
Proof.
  split; [| split].
  - rewrite (late_rows P seed act 0), (late_rows P seed act 7), (late_rows P seed act 8).
    evaluate (Binary.airborne 0 [Binary.late_launch]).
    evaluate (Binary.airborne 7 [Binary.late_launch]).
    evaluate (Binary.airborne 8 [Binary.late_launch]).
    do 2 eexists. split; [reflexivity |]. split; [| split; [reflexivity | split]].
    + unfold ticks_to_target, distance, norm. cbn [SPEED scenario_cfg].
      real_literals. change 7%nat with (Z.to_nat 7). f_equal. apply ceil_unique.
      match goal with |- _ < sqrt ?x / 2 <= _ =>
        assert (H : 12 < sqrt x <= 14) end.
      { apply sqrt_between; [lra | lra |]. unfold Rsqr. lra. }
      cbn. lra.
    + intros [Hx _]. revert Hx. real_literals. lra.
    + reflexivity.
  - destruct (runaway_rows P seed act 0) as (E0 & _).
    destruct (runaway_rows P seed act 7) as (E7 & _).
    destruct (runaway_rows P seed act 8) as (E8 & _).
    rewrite E0, E7, E8.
    evaluate (Binary.airborne 0 [Binary.runaway_launch]).
    evaluate (Binary.airborne 7 [Binary.runaway_launch]).
    evaluate (Binary.airborne 8 [Binary.runaway_launch]).
    do 3 eexists. split; [reflexivity |].
    split; [| split; [reflexivity | split; [reflexivity |]]].
    + unfold ticks_to_target, distance, norm. cbn [SPEED scenario_cfg].
      real_literals. change 7%nat with (Z.to_nat 7). f_equal. apply ceil_unique.
      match goal with |- _ < sqrt ?x / 2 <= _ =>
        assert (H : 12 < sqrt x <= 14) end.
      { apply sqrt_between; [lra | lra |]. unfold Rsqr. lra. }
      cbn. lra.
    + unfold dist_to_target.
      replace (cur_y _) with 0 by reflexivity.
      replace (final_y _) with 0 by reflexivity.
      replace (final_y _) with 0 by reflexivity.
      rewrite !norm_level. real_literals.
      rewrite !Rabs_left by lra. lra.
  - intros n Hn. destruct n as [| k]; [lia |].
    destruct (runaway_rows P seed act k) as (E & _). rewrite E.
    rewrite runaway_row_at by lia.
    eexists. split; [reflexivity |].
    apply (BinaryFacts.never_hits_sound 2999); [exact runaway_in_the_air | lia].
Qed.


(** On the generator that draws 0.0, after tick 3000. *)
Lemma arrival_time_in_binary32_witness :
  exists m,
    Binary.enemy_missiles
      (Binary.run Binary.scenario_cfg (fun _ => 0%Z) 3000
         (Binary.reset Binary.runaway_start Binary.runaway_end 42
            : Binary.EnemyMissiles Binary.counting_prng)) = [m] /\
    Binary.hit m = false.
Proof.
  apply (proj2 (proj2 (arrival_time_in_binary32 Binary.counting_prng 42 (fun _ => 0%Z)))
               3000%nat).
  lia.
Defined.

(** ** The example scenario in binary32 *)

Lemma scenario_first_tick (act : nat -> Z) :
  Binary.step Binary.scenario_cfg (act O) Binary.scenario_start =
  Ok false
     {| Binary.start_pos_range := Binary.full_range;
        Binary.end_pos_range := Binary.full_range;
        Binary.enemy_missiles :=
          [Binary.new_missile Binary.scenario_cfg (Binary.of_Z (-10)) (Binary.of_Z (-10))];
        Binary.nb_missiles_launched := 1;
        Binary._rng_python := (45%Z : Binary.gen Binary.counting_prng) |}.
Proof. vm_compute. reflexivity. Qed.

(** The example scenario in binary32, tick by tick. *)
Lemma binary_scenario_rows (act : nat -> Z) (n : nat) :
  Binary.enemy_missiles (Binary.run Binary.scenario_cfg act (S n) Binary.scenario_start)
    = Binary.airborne n
        [Binary.new_missile Binary.scenario_cfg (Binary.of_Z (-10)) (Binary.of_Z (-10))] /\
  Binary.done_at Binary.scenario_cfg act (S n) Binary.scenario_start
    = Some (length (Binary.airborne (S n)
        [Binary.new_missile Binary.scenario_cfg (Binary.of_Z (-10)) (Binary.of_Z (-10))])
            =? 0)%nat.
Proof.
  destruct (BinaryFacts.run_after_first_tick Binary.scenario_cfg act _ _ _ n
              (scenario_first_tick act)) as [Hrun Hdone]; [cbn; lia |].
  rewrite Hrun, Hdone. cbn [Binary.enemy_missiles Binary.set_enemy_missiles
    Binary.nb_missiles_launched Binary.NUMBER Binary.scenario_cfg].
  split; [reflexivity |]. cbn [Nat.eqb]. now rewrite andb_true_r.
Qed.

(** The same scenario in exact arithmetic. *)
Lemma exact_scenario_rows (act : nat -> Z) :
  enemy_missiles (run scenario_cfg act 1 scenario_start) = [scenario_row (-10) 10] /\
  enemy_missiles (run scenario_cfg act 2 scenario_start) = [scenario_row (-10) 8] /\
  enemy_missiles (run scenario_cfg act 3 scenario_start) = [scenario_row (-10) 6] /\
  enemy_missiles (run scenario_cfg act 4 scenario_start) = [scenario_row (-10) 4] /\
  enemy_missiles (run scenario_cfg act 5 scenario_start) = [scenario_row (-10) 2] /\
  (forall n, (6 <= n)%nat -> enemy_missiles (run scenario_cfg act n scenario_start) = []) /\
  (forall n, (n < 5)%nat -> done_at scenario_cfg act n scenario_start = Some false) /\
  (forall n, (5 <= n)%nat -> done_at scenario_cfg act n scenario_start = Some true).
Proof.
  destruct (scenario_ticks (P := counting_prng) scenario_cfg default_curriculum 42
              act eq_refl eq_refl eq_refl eq_refl (scenario_start_vertical act))
    as (xc & L & M1 & M2 & M3 & M4 & M5 & _ & _ & M6 & Df & Dt).
  assert (Hxc : xc = -10).
  { rewrite counting_launched_by in L by (cbn; try lia; lra).
    injection L as Hx _. cbn in Hx. lra. }
  subst xc. fold scenario_start in *.
  repeat (split; [assumption |]). split; [| split; assumption].
  intros n Hn. replace n with ((n - 6) + 6)%nat by lia.
  rewrite run_stays_finished; [exact M6 | exact M6 |].
  specialize (Dt 5%nat (le_n 5)). unfold done_at in Dt.
  rewrite step_result in Dt. change (exec (step scenario_cfg (act 5%nat)) (run scenario_cfg act 5 scenario_start)) with (run scenario_cfg act 6 scenario_start) in Dt.
  injection Dt as Dt. apply andb_prop in Dt as [_ Dt]. now apply Nat.eqb_eq in Dt.
Qed.

(** X25.  On the example scenario of the specification (width 20,
    height 10, speed 2, one missile, launched for certain, the default
    ranges, the generator that draws 0) the run in binary32 and the run
    in exact arithmetic agree after every number of ticks: the active
    rows have the same values, column by column, and [step] returns the
    same flag.  Every value of that run is a binary32 number. *)
Theorem scenario_agrees_in_binary32 (act : nat -> Z) (n : nat) :
  map exact_row
      (Binary.enemy_missiles (Binary.run Binary.scenario_cfg act n Binary.scenario_start))
    = enemy_missiles (run scenario_cfg act n scenario_start) /\
  Binary.done_at Binary.scenario_cfg act n Binary.scenario_start
    = done_at scenario_cfg act n scenario_start.
Proof.
  destruct (exact_scenario_rows act) as (M1 & M2 & M3 & M4 & M5 & M6 & Df & Dt).
  assert (Hrows : forall k,
    map exact_row (Binary.airborne k
      [Binary.new_missile Binary.scenario_cfg (Binary.of_Z (-10)) (Binary.of_Z (-10))])
    = enemy_missiles (run scenario_cfg act (S k) scenario_start)).
  { intros k.
    assert (Hland : Binary.airborne 5
              [Binary.new_missile Binary.scenario_cfg (Binary.of_Z (-10)) (Binary.of_Z (-10))]
              = []) by (vm_compute; reflexivity).
    destruct k as [| [| [| [| [| k]]]]];
      [rewrite M1 | rewrite M2 | rewrite M3 | rewrite M4 | rewrite M5 | ].
    6: { replace (S (S (S (S (S k))))) with (k + 5)%nat by lia.
         rewrite BinaryFacts.airborne_add, Hland, BinaryFacts.airborne_nil.
         rewrite M6 by lia. reflexivity. }
    all: match goal with |- map exact_row ?l = _ => evaluate l end;
      unfold scenario_row; cbn [map]; f_equal; unfold exact_row; f_equal;
      real_literals; lra. }
  destruct n as [| k].
  - split; [reflexivity |]. rewrite Df by lia. vm_compute. reflexivity.
  - destruct (binary_scenario_rows act k) as [Hr Hd]. rewrite Hr, Hd.
    split; [apply Hrows |].
    destruct (Nat.lt_ge_cases (S k) 5) as [Hlt | Hge].
    + rewrite Df by exact Hlt.
      pose proof (Hrows (S k)) as H. rewrite <- (length_map exact_row), H.
      destruct k as [| [| [| [| k]]]]; [| | | | lia].
      * now rewrite M2.
      * now rewrite M3.
      * now rewrite M4.
      * now rewrite M5.
    + rewrite Dt by exact Hge.
      pose proof (Hrows (S k)) as H. rewrite <- (length_map exact_row), H.
      rewrite M6 by lia. reflexivity.
Qed.

(** ** An episode that does not end *)

(** X13.  An episode need not end once its last missile is launched.
    With the missile that passes its target (width 20, height 10, speed
    2, one missile launched for certain from [x = -10] towards
    [x = -0.02 * 20], any generator and any seed), the count of launched
    missiles is [NUMBER] from the first tick on, and [done] is [False]
    in every one of the first 3000 ticks. *)
Theorem episode_not_over_in_binary32 (P : Binary.PRNG) (seed : Z) (act : nat -> Z)
    (n : nat) :
  (n < 3000)%nat ->
  Binary.nb_missiles_launched
    (Binary.run Binary.scenario_cfg act (S n)
       (Binary.reset Binary.runaway_start Binary.runaway_end seed
          : Binary.EnemyMissiles P))
    = Binary.NUMBER Binary.scenario_cfg /\
  Binary.done_at Binary.scenario_cfg act n
    (Binary.reset Binary.runaway_start Binary.runaway_end seed : Binary.EnemyMissiles P)
    = Some false.
Proof.
  intros Hn. destruct (runaway_rows P seed act n) as (_ & Hc & Hd).
  split; [exact Hc |].
  rewrite Hd, runaway_row_at by lia. reflexivity.
Qed.

(** On the generator that draws 0.0, the last of those ticks. *)
Lemma episode_not_over_in_binary32_witness :
  Binary.done_at Binary.scenario_cfg (fun _ => 0%Z) 2999
    (Binary.reset Binary.runaway_start Binary.runaway_end 42
       : Binary.EnemyMissiles Binary.counting_prng)
  = Some false.
Proof.
  apply (episode_not_over_in_binary32 Binary.counting_prng 42 (fun _ => 0%Z) 2999).
  lia.
Defined.
